(** * Label-smoothed cross-entropy losses and the alpha-carbon reader

    A shallow embedding of [src/byprot/modules/cross_entropy.py] and of
    [debug.py].

    Tensors are kept the way torch stores a contiguous tensor: a shape and
    the row-major list of the elements.  Scalars are an interface
    ([Scalar]): every structural theorem holds for any implementation of
    the arithmetic, and the few identities a theorem needs beyond that
    are collected in [ExactArith], which the rationals and the reals
    satisfy; IEEE binary64, the arithmetic the code runs on, is a third
    implementation, used where exact arithmetic and floats part.  Python
    exceptions are values of [error] threaded through the [result]
    monad.  The reader of [debug.py] is embedded twice: as a function on
    its state ([PDB]), and as a program over the operations of its text
    ([PDBOps]), which is what its frame is stated on. *)

From Stdlib Require Import String Ascii.
From Stdlib Require Import List ZArith Bool Lia.
From Stdlib Require Import QArith Qcanon.
From Stdlib Require Import Reals Lra.
From Stdlib Require PrimFloat.
Import ListNotations.

Set Implicit Arguments.
Local Open Scope nat_scope.
Local Open Scope list_scope.

(** ** Exceptions *)

(** The Python exceptions the modelled code can raise.  [ShapeMismatch]
    marks the arguments this embedding does not cover: shapes that do not
    line up elementwise, and 0-dim tensors where a last dimension is
    read.  torch raises there, or broadcasts; no theorem below draws a
    conclusion from that outcome. *)
Inductive error : Set :=
| TypeError           (* an operand or argument is None *)
| AttributeError      (* attribute access on None *)
| IndexError          (* shape[0] / size(-1) of a 0-dim tensor *)
| IndexOutOfBounds    (* gather with an index outside [0, C) *)
| KeyError
| ValueError          (* tuple unpacking with too few values *)
| ZeroDivisionError   (* Python int or float divided by zero *)
| UnboundLocalError
| OSError             (* the file cannot be opened *)
| RuntimeError        (* torch rejects the call whatever the shapes *)
| ShapeMismatch.

Inductive result (A : Type) : Type :=
| Ok (a : A)
| Raise (e : error).
Arguments Ok {A} a.
Arguments Raise {A} e.

Definition bind {A B} (c : result A) (k : A -> result B) : result B :=
  match c with
  | Ok a => k a
  | Raise e => Raise e
  end.

Declare Scope result_scope.
Delimit Scope result_scope with result.
Notation "x <- c ;; k" := (bind c (fun x => k))
  (at level 61, c at next level, right associativity) : result_scope.
Notation "' p <- c ;; k" := (bind c (fun x => match x with p => k end))
  (at level 61, p pattern, c at next level, right associativity) : result_scope.
Local Open Scope result_scope.

Fixpoint mapM {A B} (f : A -> result B) (l : list A) : result (list B) :=
  match l with
  | [] => Ok []
  | a :: l' => b <- f a ;; bs <- mapM f l' ;; Ok (b :: bs)
  end.

(** ** Scalars *)

(** The arithmetic the code performs on tensor elements and Python
    floats.  [fltb] is [<], [feqb] is [==], [of_Z] the conversion of a
    Python int. *)
Class Scalar (F : Type) : Type := {
  fzero : F;
  fone : F;
  fadd : F -> F -> F;
  fsub : F -> F -> F;
  fmul : F -> F -> F;
  fdiv : F -> F -> F;
  fneg : F -> F;
  fltb : F -> F -> bool;
  feqb : F -> F -> bool;
  of_Z : Z -> F
}.

(** [torch.exp] and the logarithm inside [F.log_softmax]. *)
Class Transcendental (F : Type) : Type := {
  fexp : F -> F;
  flog : F -> F
}.

(** The identities of exact arithmetic used by the algebraic theorems.
    IEEE floats satisfy them on finite values up to the sign of zero. *)
Class ExactArith (F : Type) {SF : Scalar F} : Prop := {
  fadd_0_l : forall x, fadd fzero x = x;
  fadd_0_r : forall x, fadd x fzero = x;
  fsub_0_r : forall x, fsub x fzero = x;
  fmul_0_l : forall x, fmul fzero x = fzero;
  fmul_0_r : forall x, fmul x fzero = fzero;
  fmul_1_l : forall x, fmul fone x = x;
  fmul_1_r : forall x, fmul x fone = x;
  fdiv_0_l : forall x, fdiv fzero x = fzero;
  fdiv_1_r : forall x, fdiv x fone = x;
  of_Z_0 : of_Z 0 = fzero;
  of_Z_1 : of_Z 1 = fone;
  fone_neq_fzero : fone <> fzero;
  fltb_1_0 : fltb fone fzero = false
}.
Arguments ExactArith F {SF}.

Definition of_bool {F} `{Scalar F} (b : bool) : F :=
  if b then fone else fzero.

(** [t.sum()] over a list of elements, taken in the order of the
    elements (torch leaves the order of a reduction open). *)
Definition fsum {F} `{Scalar F} (l : list F) : F :=
  fold_right fadd fzero l.

(** ** Tensors *)

Record tensor (A : Type) : Type := Tensor {
  shape : list nat;
  data : list A
}.
Arguments Tensor {A} shape data.

Definition numel_of (s : list nat) : nat := fold_right Nat.mul 1 s.

Section TensorOps.
Context {A : Type}.

Definition numel (t : tensor A) : nat := numel_of (shape t).
Definition dim (t : tensor A) : nat := length (shape t).

(** The invariant of every torch tensor. *)
Definition tensor_wf (t : tensor A) : Prop := length (data t) = numel t.

(** Sizes of all dimensions but the last, and the last one. *)
Definition leading (t : tensor A) : list nat := removelast (shape t).
Definition size_last (t : tensor A) : result nat :=
  match shape t with
  | [] => Raise IndexError
  | _ => Ok (last (shape t) 0)
  end.
Definition size_first (t : tensor A) : result nat :=
  match shape t with
  | [] => Raise IndexError
  | n :: _ => Ok n
  end.

Fixpoint chunks (n c : nat) (l : list A) : list (list A) :=
  match n with
  | 0 => []
  | S n' => firstn c l :: chunks n' c (skipn c l)
  end.

(** The vectors along the last dimension, one per leading position. *)
Definition rows (t : tensor A) : list (list A) :=
  chunks (numel_of (leading t)) (last (shape t) 0) (data t).

Definition unsqueeze (t : tensor A) : tensor A :=
  Tensor (shape t ++ [1]) (data t).

(** [t.squeeze(-1)]: drops the last dimension when its size is 1. *)
Definition squeeze (t : tensor A) : tensor A :=
  match last (shape t) 0 with
  | 1 => Tensor (removelast (shape t)) (data t)
  | _ => t
  end.

Definition tmap {B} (f : A -> B) (t : tensor A) : tensor B :=
  Tensor (shape t) (map f (data t)).
End TensorOps.

Definition shape_eqb (s1 s2 : list nat) : bool :=
  if list_eq_dec Nat.eq_dec s1 s2 then true else false.

(** Elementwise binary operation on tensors of one shape. *)
Definition tzip {A B C} (f : A -> B -> C) (a : tensor A) (b : tensor B)
  : result (tensor C) :=
  if shape_eqb (shape a) (shape b)
  then Ok (Tensor (shape a) (map (fun p => f (fst p) (snd p)) (combine (data a) (data b))))
  else Raise ShapeMismatch.

Section FloatTensors.
Context {F : Type} `{Scalar F}.

Definition tneg (t : tensor F) : tensor F := tmap fneg t.
Definition smul (c : F) (t : tensor F) : tensor F := tmap (fmul c) t.
Definition tadd (a b : tensor F) : result (tensor F) := tzip fadd a b.
Definition tmul (a b : tensor F) : result (tensor F) := tzip fmul a b.

(** A 0-dim tensor. *)
Definition scalar_tensor (x : F) : tensor F := Tensor [] [x].
(** [t.sum()] *)
Definition tsum (t : tensor F) : tensor F := scalar_tensor (fsum (data t)).

(** [t.sum(dim=-1, keepdim=True)] *)
Definition sum_last_keepdim (t : tensor F) : result (tensor F) :=
  match shape t with
  | [] => Raise ShapeMismatch
  | _ => Ok (Tensor (leading t ++ [1]) (map fsum (rows t)))
  end.

(** [t.masked_fill_(mask, v)], in place: the mask has the shape of [t]. *)
Definition masked_fill (t : tensor F) (mask : tensor bool) (v : F)
  : result (tensor F) :=
  tzip (fun x (m : bool) => if m then v else x) t mask.

Definition index_row (row : list F) (i : Z) : result F :=
  if ((0 <=? i)%Z && (i <? Z.of_nat (length row))%Z)%bool
  then Ok (nth (Z.to_nat i) row fzero)
  else Raise IndexOutOfBounds.

(** [input.gather(dim=-1, index=index)] for an index whose leading
    sizes are those of [input]: the output has the shape of [index]. *)
Definition gather (input : tensor F) (index : tensor Z) : result (tensor F) :=
  match shape input with
  | [] => Raise ShapeMismatch
  | _ =>
    if shape_eqb (leading index) (leading input) && (dim index =? dim input)
    then
      d <- mapM (fun p => mapM (index_row (fst p)) (snd p))
                (combine (rows input) (rows index)) ;;
      Ok (Tensor (shape index) (concat d))
    else Raise ShapeMismatch
  end.

(** [target.eq(v)] *)
Definition teq (t : tensor Z) (v : Z) : tensor bool := tmap (Z.eqb v) t.

(** Python: [epsilon / n] with a float [epsilon] and an int [n]. *)
Definition pyfloat_div_int (x : F) (n : Z) : result F :=
  if (n =? 0)%Z then Raise ZeroDivisionError else Ok (fdiv x (of_Z n)).

(** [label_smoothed_nll_loss], lines 10-34. *)
Definition label_smoothed_nll_loss (lprobs : tensor F) (target : tensor Z)
    (epsilon : F) (ignore_index : option Z) (reduce : bool)
  : result (tensor F * tensor F) :=
  let flag := S (dim target) =? dim lprobs in
  let target := if flag then unsqueeze target else target in
  g <- gather lprobs target ;;
  let nll_loss := tneg g in
  s <- sum_last_keepdim lprobs ;;
  let smooth_loss := tneg s in
  ' (nll_loss, smooth_loss) <-
    match ignore_index with
    | Some ii =>
        let pad_mask := teq target ii in
        n <- masked_fill nll_loss pad_mask fzero ;;
        s <- masked_fill smooth_loss pad_mask fzero ;;
        Ok (n, s)
    | None => Ok (nll_loss, smooth_loss)
    end ;;
  let nll_loss := if flag then squeeze nll_loss else nll_loss in
  let smooth_loss := if flag then squeeze smooth_loss else smooth_loss in
  let nll_loss := if reduce then tsum nll_loss else nll_loss in
  let smooth_loss := if reduce then tsum smooth_loss else smooth_loss in
  c <- size_last lprobs ;;
  eps_i <- pyfloat_div_int epsilon (Z.of_nat c - 1) ;;
  loss <- tadd (smul (fsub (fsub fone epsilon) eps_i) nll_loss)
               (smul eps_i smooth_loss) ;;
  Ok (loss, nll_loss).
End FloatTensors.

(** ** Python values and dicts *)

(** What a Python variable of the loss classes can hold: an int, a float,
    or a tensor (the result of [.sum()] is a 0-dim tensor). *)
Inductive pyval (F : Type) : Type :=
| PyInt (z : Z)
| PyFloat (x : F)
| PyTensor (t : tensor F).
Arguments PyInt {F} z.
Arguments PyFloat {F} x.
Arguments PyTensor {F} t.

Section PyValues.
Context {F : Type} `{Scalar F} `{Transcendental F}.

(** Python's [/].  Dividing a tensor never raises (division by zero
    is an IEEE result); dividing an int or a float by a zero int or
    float raises. *)
Definition truediv (a b : pyval F) : result (pyval F) :=
  match a, b with
  | PyTensor x, PyTensor y => t <- tzip fdiv x y ;; Ok (PyTensor t)
  | PyTensor x, PyInt n => Ok (PyTensor (tmap (fun v => fdiv v (of_Z n)) x))
  | PyTensor x, PyFloat y => Ok (PyTensor (tmap (fun v => fdiv v y) x))
  | PyInt m, PyTensor y => Ok (PyTensor (tmap (fdiv (of_Z m)) y))
  | PyFloat x, PyTensor y => Ok (PyTensor (tmap (fdiv x) y))
  | PyInt m, PyInt n =>
      if (n =? 0)%Z then Raise ZeroDivisionError
      else Ok (PyFloat (fdiv (of_Z m) (of_Z n)))
  | PyFloat x, PyInt n =>
      if (n =? 0)%Z then Raise ZeroDivisionError
      else Ok (PyFloat (fdiv x (of_Z n)))
  | PyInt m, PyFloat y =>
      if feqb y fzero then Raise ZeroDivisionError
      else Ok (PyFloat (fdiv (of_Z m) y))
  | PyFloat x, PyFloat y =>
      if feqb y fzero then Raise ZeroDivisionError
      else Ok (PyFloat (fdiv x y))
  end.

(** Python's [+] as used by [losses += loss]. *)
Definition pyadd (a b : pyval F) : result (pyval F) :=
  match a, b with
  | PyTensor x, PyTensor y => t <- tadd x y ;; Ok (PyTensor t)
  | PyTensor x, PyInt n => Ok (PyTensor (tmap (fun v => fadd v (of_Z n)) x))
  | PyTensor x, PyFloat y => Ok (PyTensor (tmap (fun v => fadd v y) x))
  | PyInt m, PyTensor y => Ok (PyTensor (tmap (fadd (of_Z m)) y))
  | PyFloat x, PyTensor y => Ok (PyTensor (tmap (fadd x) y))
  | PyInt m, PyInt n => Ok (PyInt (m + n))
  | PyFloat x, PyInt n => Ok (PyFloat (fadd x (of_Z n)))
  | PyInt m, PyFloat y => Ok (PyFloat (fadd (of_Z m) y))
  | PyFloat x, PyFloat y => Ok (PyFloat (fadd x y))
  end.

(** [torch.exp(v)]: the argument has to be a tensor. *)
Definition torch_exp (v : pyval F) : result (pyval F) :=
  match v with
  | PyTensor t => Ok (PyTensor (tmap fexp t))
  | _ => Raise TypeError
  end.

(** Python's [max(1, t)] for a 0-dim tensor [t]: the first argument
    stays unless [t > 1]. *)
Definition pymax1 (t : tensor F) : result (pyval F) :=
  match t with
  | Tensor [] [s] => Ok (if fltb fone s then PyTensor t else PyInt 1)
  | _ => Raise RuntimeError
  end.

(** [F.log_softmax(t, dim=-1)] *)
Definition log_softmax_row (row : list F) : list F :=
  let lse := flog (fsum (map fexp row)) in
  map (fun x => fsub x lse) row.
Definition log_softmax (t : tensor F) : tensor F :=
  match shape t with
  | [] => Tensor [] (log_softmax_row (data t))
  | _ => Tensor (shape t) (concat (map log_softmax_row (rows t)))
  end.
End PyValues.

(** A Python dict: insertion-ordered, one entry per key. *)
Definition dict (V : Type) : Type := list (string * V).

Section Dicts.
Context {V : Type}.

Fixpoint dict_get (d : dict V) (k : string) : option V :=
  match d with
  | [] => None
  | (k', v) :: d' => if String.eqb k' k then Some v else dict_get d' k
  end.

(** [d[k] = v] *)
Fixpoint dict_set (d : dict V) (k : string) (v : V) : dict V :=
  match d with
  | [] => [(k, v)]
  | (k', v') :: d' =>
      if String.eqb k' k then (k', v) :: d' else (k', v') :: dict_set d' k v
  end.

(** [d.update(d')] *)
Definition dict_update (d d' : dict V) : dict V :=
  fold_left (fun acc kv => dict_set acc (fst kv) (snd kv)) d' d.

(** A dict display [{k1: v1, ...}]. *)
Definition dict_of (l : list (string * V)) : dict V := dict_update [] l.

(** [d[k]] *)
Definition getitem (d : dict V) (k : string) : result V :=
  match dict_get d k with
  | Some v => Ok v
  | None => Raise KeyError
  end.

(** [d[k]] where [d] may be None. *)
Definition getitem_opt (d : option (dict V)) (k : string) : result V :=
  match d with
  | Some d => getitem d k
  | None => Raise TypeError
  end.
End Dicts.

(** ** The loss classes *)

(** The attributes of [nn.CrossEntropyLoss] the forward methods read. *)
Record loss_self (F : Type) : Type := {
  ignore_index : option Z;
  label_smoothing : F
}.

Section Losses.
Context {F : Type} `{Scalar F} `{Transcendental F}.

Definition ne_mask (ii : Z) (target : tensor Z) : list bool :=
  map (fun t => negb (Z.eqb t ii)) (data target).

(** [target.ne(ii).long().sum()], with [ii] possibly None: [Tensor.ne]
    accepts a tensor or a number, so a None argument is a TypeError. *)
Definition ne_long_sum (ii : option Z) (target : tensor Z)
  : result (pyval F) :=
  match ii with
  | None => Raise TypeError
  | Some ii =>
      Ok (PyTensor (scalar_tensor
            (of_Z (Z.of_nat (length (filter (fun b : bool => b) (ne_mask ii target)))))))
  end.

(** [target.ne(ii).float().sum()] *)
Definition ne_float_sum (ii : Z) (target : tensor Z) : pyval F :=
  PyTensor (scalar_tensor (fsum (map of_bool (ne_mask ii target)))).

(** [t[mask]] for a boolean mask of the shape of [t]. *)
Definition select {A} (t : tensor A) (mask : tensor bool)
  : result (tensor A) :=
  if shape_eqb (shape mask) (shape t)
  then
    let sel := map fst (filter snd (combine (data t) (data mask))) in
    Ok (Tensor [length sel] sel)
  else Raise ShapeMismatch.

(** [t[mask]] for a boolean mask over the leading dimensions of [t]. *)
Definition select_rows {A} (t : tensor A) (mask : tensor bool)
  : result (tensor A) :=
  if shape_eqb (shape mask) (leading t)
  then
    let sel := map fst (filter snd (combine (rows t) (data mask))) in
    Ok (Tensor [length sel; last (shape t) 0] (concat sel))
  else Raise ShapeMismatch.

(** [t.reshape(-1, c)] *)
Definition reshape_rows {A} (t : tensor A) (c : nat) : result (tensor A) :=
  match c with
  | 0 => Raise RuntimeError
  | _ =>
    if numel t mod c =? 0
    then Ok (Tensor [numel t / c; c] (data t))
    else Raise RuntimeError
  end.

(** [t.reshape(-1)] *)
Definition flatten {A} (t : tensor A) : tensor A :=
  Tensor [numel t] (data t).

(** [CrossEntropyLoss.forward], lines 38-85. *)
Definition CrossEntropyLoss_forward (self : loss_self F)
    (scores : tensor F) (target : tensor Z) (mask : option (tensor bool))
  : result (pyval F * dict (pyval F)) :=
  let n_tokens := PyInt (Z.of_nat (numel target)) in
  n_nonpad_tokens <- ne_long_sum (ignore_index self) target ;;
  bsz <- size_first scores ;;
  num_classes <- size_last scores ;;
  ' (scores, target) <-
    match mask with
    | Some m =>
        s <- select_rows scores m ;;
        t <- select target m ;;
        Ok (s, t)
    | None => Ok (scores, target)
    end ;;
  scores <- reshape_rows scores num_classes ;;
  let target := flatten target in
  sample_size <-
    match ignore_index self with
    | Some _ => ne_long_sum (ignore_index self) target
    | None => Ok (PyTensor (scalar_tensor (of_Z (Z.of_nat (numel target)))))
    end ;;
  ' (loss, nll_loss) <-
    label_smoothed_nll_loss (log_softmax scores) target
      (label_smoothing self) (ignore_index self) true ;;
  loss_avg <- truediv (PyTensor loss) sample_size ;;
  q <- truediv (PyTensor nll_loss) sample_size ;;
  ppl <- torch_exp q ;;
  sample_ratio <- truediv sample_size n_tokens ;;
  nonpad_ratio <- truediv n_nonpad_tokens n_tokens ;;
  let logging_output := dict_of [
    ("nll_loss_sum", PyTensor nll_loss);
    ("loss_sum", PyTensor loss);
    ("ppl", ppl);
    ("bsz", PyInt (Z.of_nat bsz));
    ("sample_size", sample_size);
    ("sample_ratio", sample_ratio);
    ("nonpad_ratio", nonpad_ratio)
  ]%string in
  Ok (loss_avg, logging_output).

(** The variables the three sequence losses have assigned when they reach
    their masking block. *)
Record seq_prologue : Type := {
  p_bsz : nat;
  p_n_tokens : pyval F;
  p_sample_size : pyval F;
  p_n_nonpad_tokens : pyval F;
  p_loss : tensor F;
  p_nll_loss : tensor F;
  p_fullseq_loss : pyval F;
  p_fullseq_nll_loss : pyval F
}.

(** The start of the three sequence losses, the same text in each:
    lines 105-126 of [Coord2SeqCrossEntropyLoss.forward], 170-191 of
    [RDMCrossEntropyLoss.forward] and 268-287 of [compute]. *)
Definition prologue (self : loss_self F) (scores : tensor F)
    (target : tensor Z) (weights : option (tensor F))
  : result seq_prologue :=
  bsz <- size_first scores ;;
  num_classes <- size_last scores ;;
  let n_tokens := PyInt (Z.of_nat (numel target)) in
  let sample_size :=
    match ignore_index self with
    | Some ii => ne_float_sum ii target
    | None => n_tokens
    end in
  let n_nonpad_tokens := sample_size in
  ' (loss, nll_loss) <-
    label_smoothed_nll_loss (log_softmax scores) target
      (label_smoothing self) (ignore_index self) false ;;
  ' (loss, nll_loss) <-
    match weights with
    | Some w =>
        l <- tmul loss w ;;
        n <- tmul nll_loss w ;;
        Ok (l, n)
    | None => Ok (loss, nll_loss)
    end ;;
  fullseq_loss <- truediv (PyTensor (tsum loss)) sample_size ;;
  fullseq_nll_loss <- truediv (PyTensor (tsum nll_loss)) sample_size ;;
  Ok {| p_bsz := bsz; p_n_tokens := n_tokens;
        p_sample_size := sample_size;
        p_n_nonpad_tokens := n_nonpad_tokens;
        p_loss := loss; p_nll_loss := nll_loss;
        p_fullseq_loss := fullseq_loss;
        p_fullseq_nll_loss := fullseq_nll_loss |}.

(** [(loss * label_mask).sum() / sample_size] *)
Definition masked_mean (loss label_mask : tensor F) (sample_size : pyval F)
  : result (pyval F) :=
  lm <- tmul loss label_mask ;;
  truediv (PyTensor (tsum lm)) sample_size.

(** [Coord2SeqCrossEntropyLoss.forward], lines 89-152. *)
Definition Coord2SeqCrossEntropyLoss_forward (self : loss_self F)
    (scores : tensor F) (target : tensor Z)
    (label_mask coord_mask : option (tensor bool))
    (weights : option (tensor F))
  : result (pyval F * dict (pyval F)) :=
  let label_mask :=
    match label_mask with
    | None => coord_mask
    | Some _ => label_mask
    end in
  p <- prologue self scores target weights ;;
  ' (loss, nll_loss, sample_size) <-
    match label_mask with
    | Some m =>
        let label_mask := tmap of_bool m in
        let sample_size := PyTensor (tsum label_mask) in
        l <- masked_mean (p_loss p) label_mask sample_size ;;
        n <- masked_mean (p_nll_loss p) label_mask sample_size ;;
        Ok (l, n, sample_size)
    | None => Ok (p_fullseq_loss p, p_fullseq_nll_loss p, p_sample_size p)
    end ;;
  ppl <- torch_exp nll_loss ;;
  sample_ratio <- truediv sample_size (p_n_tokens p) ;;
  nonpad_ratio <- truediv (p_n_nonpad_tokens p) (p_n_tokens p) ;;
  let logging_output := dict_of [
    ("nll_loss", nll_loss);
    ("ppl", ppl);
    ("fullseq_loss", p_fullseq_loss p);
    ("fullseq_nll_loss", p_fullseq_nll_loss p);
    ("bsz", PyInt (Z.of_nat (p_bsz p)));
    ("sample_size", sample_size);
    ("sample_ratio", sample_ratio);
    ("nonpad_ratio", nonpad_ratio)
  ]%string in
  Ok (loss, logging_output).

(** [t.chunk(2)] along dimension 0: chunks of [ceil(n / 2)] rows, so a
    single chunk when [n = 1]; two empty chunks when [n = 0]. *)
Definition chunk2 {A} (t : tensor A) : result (list (tensor A)) :=
  match shape t with
  | [] => Raise RuntimeError
  | n :: rest =>
      let k := (n + 1) / 2 in
      let cut := k * numel_of rest in
      if n =? 0 then Ok [Tensor (0 :: rest) []; Tensor (0 :: rest) []]
      else if n - k =? 0 then Ok [t]
      else Ok [Tensor (k :: rest) (firstn cut (data t));
               Tensor ((n - k) :: rest) (skipn cut (data t))]
  end.

(** [a, b = xs] *)
Definition unpack2 {A} (xs : list A) : result (A * A) :=
  match xs with
  | [a; b] => Ok (a, b)
  | _ => Raise ValueError
  end.

Definition count_true (m : tensor bool) : Z :=
  Z.of_nat (length (filter (fun b : bool => b) (data m))).

(** [(t_loss * t_mask).sum() / (t_mask.sum())] for a boolean mask. *)
Definition bool_masked_mean (t_loss : tensor F) (t_mask : tensor bool)
  : result (pyval F) :=
  lm <- tzip (fun x (b : bool) => fmul x (of_bool b)) t_loss t_mask ;;
  truediv (PyTensor (tsum lm))
          (PyTensor (scalar_tensor (of_Z (count_true t_mask)))).

(** Lines 194-198 and 290-294; [label_mask.chunk] on None is an
    AttributeError. *)
Definition t1_t2_losses (loss : tensor F) (label_mask : option (tensor bool))
  : result (pyval F * pyval F) :=
  ' (t1_loss, t2_loss) <- (c <- chunk2 loss ;; unpack2 c) ;;
  ' (t1_mask, t2_mask) <-
    match label_mask with
    | None => Raise AttributeError
    | Some m => c <- chunk2 m ;; unpack2 c
    end ;;
  t1_loss <- bool_masked_mean t1_loss t1_mask ;;
  t2_loss <- bool_masked_mean t2_loss t2_mask ;;
  Ok (t1_loss, t2_loss).

(** [weights.new_ones(size=weights.size())] *)
Definition new_ones (weights : option (tensor F)) : result (tensor F) :=
  match weights with
  | None => Raise AttributeError
  | Some w => Ok (Tensor (shape w) (repeat fone (numel w)))
  end.

(** Lines 227-236 and 326-337; [label_mask] is the value the variable
    has after the masking block: the float mask, or None. *)
Definition constant_diff_loss (self : loss_self F) (scores : tensor F)
    (target : tensor Z) (weights : option (tensor F))
    (label_mask : option (tensor F)) (sample_size : pyval F)
  : result (pyval F) :=
  constant_weights <- new_ones weights ;;
  ' (constant_loss, _) <-
    label_smoothed_nll_loss (log_softmax scores) target
      (label_smoothing self) (ignore_index self) false ;;
  constant_loss <- tmul constant_loss constant_weights ;;
  match label_mask with
  | None => Raise TypeError
  | Some m => masked_mean constant_loss m sample_size
  end.

(** [RDMCrossEntropyLoss.forward], lines 156-243. *)
Definition RDMCrossEntropyLoss_forward (self : loss_self F)
    (scores : tensor F) (target : tensor Z)
    (label_mask : option (tensor bool)) (weights : option (tensor F))
    (cal_constant_loss watch_t1_t2_loss : bool)
  : result (pyval F * dict (pyval F)) :=
  p <- prologue self scores target weights ;;
  t12 <-
    (if watch_t1_t2_loss
     then r <- t1_t2_losses (p_loss p) label_mask ;; Ok (Some r)
     else Ok None) ;;
  ' (loss, nll_loss, sample_size, label_mask) <-
    match label_mask with
    | Some m =>
        let label_mask := tmap of_bool m in
        let sample_size := PyTensor (tsum label_mask) in
        l <- masked_mean (p_loss p) label_mask sample_size ;;
        n <- masked_mean (p_nll_loss p) label_mask sample_size ;;
        Ok (l, n, sample_size, Some label_mask)
    | None =>
        Ok (p_fullseq_loss p, p_fullseq_nll_loss p, p_sample_size p, None)
    end ;;
  ppl <- torch_exp nll_loss ;;
  sample_ratio <- truediv sample_size (p_n_tokens p) ;;
  nonpad_ratio <- truediv (p_n_nonpad_tokens p) (p_n_tokens p) ;;
  let logging_output := dict_of [
    ("nll_loss", nll_loss);
    ("ppl", ppl);
    ("fullseq_loss", p_fullseq_loss p);
    ("fullseq_nll_loss", p_fullseq_nll_loss p);
    ("bsz", PyInt (Z.of_nat (p_bsz p)));
    ("sample_size", sample_size);
    ("sample_ratio", sample_ratio);
    ("nonpad_ratio", nonpad_ratio);
    ("weight_diff_loss", loss)
  ]%string in
  logging_output <-
    (if cal_constant_loss
     then
       c <- constant_diff_loss self scores target weights label_mask
              sample_size ;;
       Ok (dict_set logging_output "constant_diff_loss" c)
     else Ok logging_output) ;;
  logging_output <-
    (if watch_t1_t2_loss
     then
       match t12 with
       | Some (t1_loss, t2_loss) =>
           Ok (dict_set (dict_set logging_output
                           "weight_diff_t1_loss" t1_loss)
                        "weight_diff_t2_loss" t2_loss)
       | None => Raise AttributeError
       end
     else Ok logging_output) ;;
  Ok (loss, logging_output).

(** [label_mask[..., None].expand(loss.shape)]: every mask entry is
    repeated along the new last dimension. *)
Definition expand_last (label_mask loss : tensor F) : result (tensor F) :=
  if shape_eqb (shape label_mask) (leading loss)
  then Ok (Tensor (shape loss)
             (flat_map (fun x => repeat x (last (shape loss) 0))
                       (data label_mask)))
  else Raise ShapeMismatch.

(** The inner function [compute] of
    [StructAARDMCrossEntropyLoss.forward], lines 265-344. *)
Definition compute (self : loss_self F)
    (cal_constant_loss watch_t1_t2_loss : bool)
    (scores : tensor F) (target : tensor Z)
    (label_mask : option (tensor bool)) (weights : option (tensor F))
    (key : string)
  : result (pyval F * pyval F * dict (pyval F)) :=
  let key := if 0 <? String.length key then (key ++ "/")%string else key in
  p <- prologue self scores target weights ;;
  t12 <-
    (if watch_t1_t2_loss
     then r <- t1_t2_losses (p_loss p) label_mask ;; Ok (Some r)
     else Ok None) ;;
  ' (loss, nll_loss, sample_size, label_mask) <-
    match label_mask with
    | Some m =>
        let label_mask := tmap of_bool m in
        sample_size <- pymax1 (tsum label_mask) ;;
        label_mask <-
          (if S (dim label_mask) =? dim (p_loss p)
           then expand_last label_mask (p_loss p)
           else Ok label_mask) ;;
        l <- masked_mean (p_loss p) label_mask sample_size ;;
        n <- masked_mean (p_nll_loss p) label_mask sample_size ;;
        Ok (l, n, sample_size, Some label_mask)
    | None =>
        Ok (p_fullseq_loss p, p_fullseq_nll_loss p, p_sample_size p, None)
    end ;;
  ppl <- torch_exp nll_loss ;;
  sample_ratio <- truediv sample_size (p_n_tokens p) ;;
  nonpad_ratio <- truediv (p_n_nonpad_tokens p) (p_n_tokens p) ;;
  let logging_output := dict_of [
    (key ++ "nll_loss", nll_loss);
    (key ++ "ppl", ppl);
    (key ++ "fullseq_loss", p_fullseq_loss p);
    (key ++ "fullseq_nll_loss", p_fullseq_nll_loss p);
    (key ++ "bsz", PyInt (Z.of_nat (p_bsz p)));
    (key ++ "sample_size", sample_size);
    (key ++ "sample_ratio", sample_ratio);
    (key ++ "nonpad_ratio", nonpad_ratio);
    (key ++ "weight_diff_loss", loss)
  ]%string in
  logging_output <-
    (if cal_constant_loss
     then
       c <- constant_diff_loss self scores target weights label_mask
              sample_size ;;
       Ok (dict_set logging_output (key ++ "constant_diff_loss") c)
     else Ok logging_output) ;;
  logging_output <-
    (if watch_t1_t2_loss
     then
       match t12 with
       | Some (t1_loss, t2_loss) =>
           Ok (dict_set (dict_set logging_output
                           (key ++ "weight_diff_t1_loss") t1_loss)
                        (key ++ "weight_diff_t2_loss") t2_loss)
       | None => Raise AttributeError
       end
     else Ok logging_output) ;;
  Ok (loss, nll_loss, logging_output).

(** The arguments of [StructAARDMCrossEntropyLoss.forward]: tensors, or
    dicts of tensors ([type(scores_dict) is dict]). *)
Inductive struct_args : Type :=
| Tensors (scores : tensor F) (target : tensor Z)
          (label_mask : option (tensor bool))
          (weights : option (tensor F))
| Dicts (scores_dict : dict (tensor F)) (target_dict : dict (tensor Z))
        (label_mask_dict : option (dict (option (tensor bool))))
        (weights_dict : option (dict (option (tensor F)))).

(** The variables the [for] loop of lines 352-362 assigns. *)
Record loop_state : Type := {
  losses : pyval F;
  nll_losses : pyval F;
  logging_output_dict : dict (pyval F);
  (** [k] and [logging_output], unbound before the first iteration *)
  last_iter : option (string * dict (pyval F))
}.

Definition loop_body (self : loss_self F)
    (cal_constant_loss watch_t1_t2_loss : bool)
    (target_dict : dict (tensor Z))
    (label_mask_dict : option (dict (option (tensor bool))))
    (weights_dict : option (dict (option (tensor F))))
    (st : loop_state) (item : string * tensor F) : result loop_state :=
  let (k, scores) := item in
  target <- getitem target_dict k ;;
  label_mask <- getitem_opt label_mask_dict k ;;
  weights <- getitem_opt weights_dict k ;;
  ' (loss, nll_loss, logging_output) <-
    compute self cal_constant_loss watch_t1_t2_loss
            scores target label_mask weights k ;;
  losses' <- pyadd (losses st) loss ;;
  nll_losses' <- pyadd (nll_losses st) nll_loss ;;
  Ok {| losses := losses'; nll_losses := nll_losses';
        logging_output_dict :=
          dict_update (logging_output_dict st) logging_output;
        last_iter := Some (k, logging_output) |}.

Fixpoint for_each {S A} (body : S -> A -> result S) (st : S) (l : list A)
  : result S :=
  match l with
  | [] => Ok st
  | a :: l' => st' <- body st a ;; for_each body st' l'
  end.

(** [StructAARDMCrossEntropyLoss.forward], lines 247-376. *)
Definition StructAARDMCrossEntropyLoss_forward (self : loss_self F)
    (args : struct_args) (cal_constant_loss watch_t1_t2_loss : bool)
  : result (pyval F * dict (pyval F)) :=
  match args with
  | Tensors scores target label_mask weights =>
      ' (loss, nll_loss, logging_output) <-
        compute self cal_constant_loss watch_t1_t2_loss
                scores target label_mask weights "" ;;
      Ok (loss, logging_output)
  | Dicts scores_dict target_dict label_mask_dict weights_dict =>
      let init := {| losses := PyInt 0; nll_losses := PyInt 0;
                     logging_output_dict := []; last_iter := None |} in
      st <- for_each (loop_body self cal_constant_loss watch_t1_t2_loss
                        target_dict label_mask_dict weights_dict)
                     init scores_dict ;;
      match last_iter st with
      | None => Raise UnboundLocalError
      | Some (k, logging_output) =>
          let n := PyInt (Z.of_nat (length scores_dict)) in
          let d := logging_output_dict st in
          v <- getitem logging_output (k ++ "/sample_size") ;;
          let d := dict_set d "sample_size" v in
          v <- truediv (nll_losses st) n ;;
          let d := dict_set d "nll_loss" v in
          v <- getitem logging_output (k ++ "/fullseq_loss") ;;
          let d := dict_set d "fullseq_loss" v in
          v <- getitem logging_output (k ++ "/fullseq_nll_loss") ;;
          let d := dict_set d "fullseq_nll_loss" v in
          v <- getitem logging_output (k ++ "/ppl") ;;
          let d := dict_set d "ppl" v in
          loss <- truediv (losses st) n ;;
          Ok (loss, d)
      end
  end.
End Losses.

(** ** The alpha-carbon reader of [debug.py] *)

Module PDB.
Section Reader.
(** Floats of the structure, and the content of a file. *)
Variables (Fl : Type) (file : Type).

(** The entities Bio.PDB builds: every level keeps its children in
    order; a residue finds an atom by name in its [child_dict]. *)
Record Atom : Type := {
  get_coord : list Fl;
  get_bfactor : Fl
}.
Record Residue : Type := {
  (** [(hetero flag, sequence number, insertion code)] *)
  id : string * Z * string;
  get_resname : string;
  child_dict : dict Atom
}.
Record Chain : Type := {
  chain_id : string;
  residues : list Residue
}.
Record Model : Type := {
  chains : list Chain
}.
Definition Structure : Type := list Model.

(** The dict built at lines 68-74. *)
Record res_info : Type := {
  chain : string;
  resname : string;
  resnum : Z;
  ca_coord : list Fl;
  plddt : Fl
}.

(** [PDBParser.get_structure] of the external library, as a function
    of the file content. *)
Variable parse_pdb : file -> result Structure.

(** What the function can touch: the files, and its two local objects. *)
Record env : Type := {
  files : dict file;
  structure : option Structure;
  residues_info : list res_info
}.

(** Stateful computations that may raise; the state survives a raise. *)
Definition M (A : Type) : Type := env -> result A * env.

Definition ret {A} (a : A) : M A := fun e => (Ok a, e).
Definition mbind {A B} (c : M A) (k : A -> M B) : M B :=
  fun e =>
    match c e with
    | (Ok a, e') => k a e'
    | (Raise err, e') => (Raise err, e')
    end.
Definition lift {A} (r : result A) : M A := fun e => (r, e).
Definition gets {A} (f : env -> A) : M A := fun e => (Ok (f e), e).

(** [try: body except KeyError: handler] *)
Definition try_except_KeyError {A} (body handler : M A) : M A :=
  fun e =>
    match body e with
    | (Raise KeyError, e') => handler e'
    | r => r
    end.

Fixpoint for_ {A} (l : list A) (body : A -> M unit) : M unit :=
  match l with
  | [] => ret tt
  | a :: l' => mbind (body a) (fun _ => for_ l' body)
  end.

(** [structure = parser.get_structure("protein", pdb_file)] *)
Definition get_structure (pdb_file : string) : M Structure :=
  fun e =>
    match dict_get (files e) pdb_file with
    | None => (Raise OSError, e)
    | Some f =>
        match parse_pdb f with
        | Ok s =>
            (Ok s, {| files := files e; structure := Some s;
                      residues_info := residues_info e |})
        | Raise err => (Raise err, e)
        end
    end.

(** [residues_info = []] *)
Definition new_list : M unit :=
  fun e => (Ok tt, {| files := files e; structure := structure e;
                      residues_info := [] |}).

(** [residues_info.append(r)] *)
Definition append (r : res_info) : M unit :=
  fun e => (Ok tt, {| files := files e; structure := structure e;
                      residues_info := residues_info e ++ [r] |}).

(** Lines 66-78. *)
Definition visit (c : Chain) (residue : Residue) : M unit :=
  try_except_KeyError
    (mbind (lift (getitem (child_dict residue) "CA")) (fun ca_atom =>
     append {| chain := chain_id c;
               resname := get_resname residue;
               resnum := snd (fst (id residue));
               ca_coord := get_coord ca_atom;
               plddt := get_bfactor ca_atom |}))
    (ret tt).

(** [get_alpha_carbon_info], lines 38-80. *)
Definition get_alpha_carbon_info (pdb_file : string) : M (list res_info) :=
  mbind (get_structure pdb_file) (fun s =>
  mbind new_list (fun _ =>
  mbind (for_ s (fun model =>
           for_ (chains model) (fun c =>
             for_ (residues c) (fun residue => visit c residue))))
        (fun _ => gets residues_info))).

(** The records the reader is to return: one per residue that has a
    ['CA'] atom, in file order. *)
Definition ca_record (c : Chain) (residue : Residue) : list res_info :=
  match dict_get (child_dict residue) "CA" with
  | Some ca_atom =>
      [{| chain := chain_id c;
          resname := get_resname residue;
          resnum := snd (fst (id residue));
          ca_coord := get_coord ca_atom;
          plddt := get_bfactor ca_atom |}]
  | None => []
  end.
Definition ca_records (s : Structure) : list res_info :=
  flat_map (fun model =>
    flat_map (fun c => flat_map (ca_record c) (residues c)) (chains model)) s.

Definition has_ca (residue : Residue) : bool :=
  match dict_get (child_dict residue) "CA" with
  | Some _ => true
  | None => false
  end.
Definition all_residues (s : Structure) : list Residue :=
  flat_map (fun model => flat_map residues (chains model)) s.
End Reader.
End PDB.

(** * The vocabulary of the statements *)

(** ** Per-position reading of [label_smoothed_nll_loss] *)

Section Positions.
Context {F : Type} `{Scalar F}.

(** One entry per leading position: the class vector of [lprobs] there
    and the target index there. *)
Definition positions (lprobs : tensor F) (target : tensor Z)
  : list (list F * Z) :=
  combine (rows lprobs) (data target).

(** [lprobs] gathered at the target index of a position. *)
Definition picked (p : list F * Z) : F :=
  nth (Z.to_nat (snd p)) (fst p) fzero.

Definition is_pad (ignore_index : option Z) (t : Z) : bool :=
  match ignore_index with
  | Some ii => Z.eqb ii t
  | None => false
  end.

(** The entries of [nll_loss] and [smooth_loss] after the masked fill. *)
Definition nll_at (ignore_index : option Z) (p : list F * Z) : F :=
  if is_pad ignore_index (snd p) then fzero else fneg (picked p).
Definition smooth_at (ignore_index : option Z) (p : list F * Z) : F :=
  if is_pad ignore_index (snd p) then fzero else fneg (fsum (fst p)).

(** The two coefficients of line 32-33. *)
Definition eps_i_of (epsilon : F) (C : nat) : F :=
  fdiv epsilon (of_Z (Z.of_nat C - 1)).
Definition mix (epsilon : F) (C : nat) (nll smooth : F) : F :=
  fadd (fmul (fsub (fsub fone epsilon) (eps_i_of epsilon C)) nll)
       (fmul (eps_i_of epsilon C) smooth).

(** Inputs of the documented form: [lprobs] is [lead x C], [target] is
    [lead] and holds class indices. *)
Record lsnl_input (lprobs : tensor F) (target : tensor Z)
       (lead : list nat) (C : nat) : Prop := {
  in_lprobs_shape : shape lprobs = lead ++ [C];
  in_target_shape : shape target = lead;
  in_lprobs_wf : tensor_wf lprobs;
  in_target_wf : tensor_wf target;
  in_target_range :
    Forall (fun t => (0 <= t < Z.of_nat C)%Z) (data target)
}.
End Positions.

(** ** The sequence losses *)

Section SeqDefs.
Context {F : Type} `{Scalar F} `{Transcendental F}.

(** The value of a Python number or of a 0-dim tensor. *)
Definition item (v : pyval F) : F :=
  match v with
  | PyInt z => of_Z z
  | PyFloat x => x
  | PyTensor t => hd fzero (data t)
  end.

(** Elementwise product with the weights, when there are any. *)
Definition weigh (weights : option (tensor F)) (l : list F) : list F :=
  match weights with
  | Some w => map (fun q => fmul (fst q) (snd q)) (combine l (data w))
  | None => l
  end.

(** Elementwise product with a float mask. *)
Definition mask_by (m : list bool) (l : list F) : list F :=
  map (fun q => fmul (fst q) (snd q)) (combine l (map of_bool m)).

(** The unweighted per-position entries the sequence losses start from. *)
Definition loss_entries (self : loss_self F) (scores : tensor F)
    (target : tensor Z) (C : nat) : list F :=
  map (fun p => mix (label_smoothing self) C
                    (nll_at (ignore_index self) p)
                    (smooth_at (ignore_index self) p))
      (positions (log_softmax scores) target).
Definition nll_entries (self : loss_self F) (scores : tensor F)
    (target : tensor Z) : list F :=
  map (nll_at (ignore_index self)) (positions (log_softmax scores) target).

(** [sample_size] as lines 108-113 set it. *)
Definition first_sample_size (self : loss_self F) (target : tensor Z)
  : pyval F :=
  match ignore_index self with
  | Some ii => ne_float_sum ii target
  | None => PyInt (Z.of_nat (numel target))
  end.

(** Inputs of the documented form [scores: N x L x C], [target: N x L],
    with weights, when given, of the shape of the target. *)
Record seq_input (scores : tensor F) (target : tensor Z)
       (weights : option (tensor F)) (lead : list nat) (C : nat) : Prop := {
  seq_lsnl : lsnl_input scores target lead C;
  seq_classes : C <> 1;
  seq_weights :
    match weights with
    | Some w => shape w = lead /\ tensor_wf w
    | None => True
    end
}.

(** A mask of the shape of the target. *)
Definition mask_ok (m : tensor bool) (lead : list nat) : Prop :=
  shape m = lead /\ tensor_wf m.

(** Dividing a 0-dim tensor never raises. *)
Definition scalar_like (d : pyval F) : Prop :=
  match d with
  | PyTensor t => exists y, t = scalar_tensor y
  | _ => True
  end.
End SeqDefs.

Section FinalDefs.
Context {F : Type} `{Scalar F} `{Transcendental F}.

Definition effective_mask (label_mask coord_mask : option (tensor bool))
  : option (tensor bool) :=
  match label_mask with
  | None => coord_mask
  | Some _ => label_mask
  end.

(** [sample_size] after the masking block of Coord2Seq and RDM. *)
Definition final_sample_size (self : loss_self F) (target : tensor Z)
    (label_mask : option (tensor bool)) : pyval F :=
  match label_mask with
  | Some m => PyTensor (scalar_tensor (fsum (map of_bool (data m))))
  | None => first_sample_size self target
  end.

(** [loss] (or [nll_loss]) after the masking block of Coord2Seq and
    RDM, from the weighted per-position entries [l]. *)
Definition final_mean (self : loss_self F) (target : tensor Z)
    (label_mask : option (tensor bool)) (l : list F) : pyval F :=
  match label_mask with
  | Some m =>
      PyTensor (scalar_tensor
        (fdiv (fsum (mask_by (data m) l)) (fsum (map of_bool (data m)))))
  | None =>
      PyTensor (scalar_tensor
        (fdiv (fsum l) (item (first_sample_size self target))))
  end.

Definition exp_of (v : pyval F) : pyval F :=
  PyTensor (scalar_tensor (fexp (item v))).

(** The masks of [compute]: of the shape of the loss, or lacking its
    last dimension and then expanded along it. *)
Definition struct_mask_entries (m : tensor bool) (lead : list nat)
  : list F :=
  if S (length (shape m)) =? length lead
  then flat_map (fun x => repeat x (last lead 0)) (map of_bool (data m))
  else map of_bool (data m).

(** [max(1, label_mask.sum())] *)
Definition struct_sample_size (m : tensor bool) : pyval F :=
  let s := fsum (map of_bool (data m)) in
  if fltb fone s then PyTensor (scalar_tensor s) else PyInt 1.

Definition struct_final_sample_size (self : loss_self F)
    (target : tensor Z) (label_mask : option (tensor bool)) : pyval F :=
  match label_mask with
  | Some m => struct_sample_size m
  | None => first_sample_size self target
  end.

Definition struct_final_mean (self : loss_self F) (target : tensor Z)
    (lead : list nat) (label_mask : option (tensor bool)) (l : list F)
  : pyval F :=
  match label_mask with
  | Some m =>
      PyTensor (scalar_tensor
        (fdiv (fsum (map (fun q => fmul (fst q) (snd q))
                         (combine l (struct_mask_entries m lead))))
              (item (struct_sample_size m))))
  | None =>
      PyTensor (scalar_tensor
        (fdiv (fsum l) (item (first_sample_size self target))))
  end.

(** The prefix [compute] puts before its logging keys. *)
Definition key_prefix (key : string) : string :=
  if 0 <? String.length key then (key ++ "/")%string else key.

Definition struct_mask_ok (m : tensor bool) (lead : list nat) : Prop :=
  shape m = lead \/ (lead <> [] /\ shape m = removelast lead).

(** The flags of RDM and [compute] ask for these arguments. *)
Definition watch_ready (label_mask : option (tensor bool))
    (lead : list nat) : Prop :=
  exists m n rest,
    label_mask = Some m /\ shape m = lead /\ lead = n :: rest /\ n <> 1.
Definition constant_ready (label_mask : option (tensor bool))
    (weights : option (tensor F)) : Prop :=
  weights <> None /\ label_mask <> None.
End FinalDefs.

(** ** [CrossEntropyLoss.forward] *)

Section CrossEntropyDefs.
Context {F : Type} `{Scalar F} `{Transcendental F}.

(** The entries a boolean mask keeps, all of them without a mask. *)
Definition selected {A} (mask : option (tensor bool)) (l : list A)
  : list A :=
  match mask with
  | Some m => map fst (filter snd (combine l (data m)))
  | None => l
  end.

(** The positions [label_smoothed_nll_loss] sees in
    [CrossEntropyLoss.forward]: the selected rows, normalised, with the
    selected targets. *)
Definition ce_positions (scores : tensor F) (target : tensor Z)
    (mask : option (tensor bool)) : list (list F * Z) :=
  combine (map log_softmax_row (selected mask (rows scores)))
          (selected mask (data target)).

(** What lines 49-53 leave in [scores] and [target]. *)
Definition sel_scores (scores : tensor F) (target : tensor Z)
    (mask : option (tensor bool)) (C : nat) : tensor F :=
  Tensor [length (selected mask (data target)); C]
         (concat (selected mask (rows scores))).
Definition sel_target (target : tensor Z) (mask : option (tensor bool))
  : tensor Z :=
  Tensor [length (selected mask (data target))]
         (selected mask (data target)).

(** The number of entries of [l] that differ from [ii]. *)
Definition count_ne (ii : Z) (l : list Z) : Z :=
  Z.of_nat (length (filter (fun t => negb (Z.eqb t ii)) l)).
End CrossEntropyDefs.

(** ** Dict inputs of [StructAARDMCrossEntropyLoss.forward] *)

Section DictDefs.
Context {F : Type} `{Scalar F} `{Transcendental F}.

(** What one call of [compute] in the loop produces. *)
Record key_result : Type := {
  kr_loss : F;
  kr_nll_loss : F;
  kr_logging_output : dict (pyval F);
  kr_sample_size : pyval F;
  kr_fullseq_loss : pyval F;
  kr_fullseq_nll_loss : pyval F;
  kr_ppl : pyval F
}.

(** [r] is the outcome of the loop body's call of [compute] for the
    item [(k, scores)]. *)
Definition key_outcome (self : loss_self F)
    (cal_constant_loss watch_t1_t2_loss : bool)
    (target_dict : dict (tensor Z))
    (label_mask_dict : option (dict (option (tensor bool))))
    (weights_dict : option (dict (option (tensor F))))
    (item : string * tensor F) (r : key_result) : Prop :=
  exists target label_mask weights,
    getitem target_dict (fst item) = Ok target
    /\ getitem_opt label_mask_dict (fst item) = Ok label_mask
    /\ getitem_opt weights_dict (fst item) = Ok weights
    /\ compute self cal_constant_loss watch_t1_t2_loss
               (snd item) target label_mask weights (fst item)
       = Ok (PyTensor (scalar_tensor (kr_loss r)),
             PyTensor (scalar_tensor (kr_nll_loss r)),
             kr_logging_output r)
    /\ dict_get (kr_logging_output r)
                (key_prefix (fst item) ++ "sample_size")
       = Some (kr_sample_size r)
    /\ dict_get (kr_logging_output r)
                (key_prefix (fst item) ++ "fullseq_loss")
       = Some (kr_fullseq_loss r)
    /\ dict_get (kr_logging_output r)
                (key_prefix (fst item) ++ "fullseq_nll_loss")
       = Some (kr_fullseq_nll_loss r)
    /\ dict_get (kr_logging_output r) (key_prefix (fst item) ++ "ppl")
       = Some (kr_ppl r).

(** The dicts hold, for the item's key, arguments [compute] accepts. *)
Definition key_ready (self : loss_self F)
    (cal_constant_loss watch_t1_t2_loss : bool)
    (target_dict : dict (tensor Z))
    (label_mask_dict : option (dict (option (tensor bool))))
    (weights_dict : option (dict (option (tensor F))))
    (item : string * tensor F) : Prop :=
  exists target label_mask weights lead C,
    getitem target_dict (fst item) = Ok target
    /\ getitem_opt label_mask_dict (fst item) = Ok label_mask
    /\ getitem_opt weights_dict (fst item) = Ok weights
    /\ seq_input (snd item) target weights lead C
    /\ numel target <> 0
    /\ match label_mask with
       | Some m => struct_mask_ok m lead
       | None => True
       end
    /\ (watch_t1_t2_loss = true -> watch_ready label_mask lead)
    /\ (cal_constant_loss = true -> constant_ready label_mask weights).

(** [0 + x1 + ... + xn], as [losses += loss] builds it. *)
Definition running_sum (xs : list F) : F := fold_left fadd xs (of_Z 0).

(** The sum over the keys divided by the number of keys. *)
Definition mean_over_keys (xs : list F) : pyval F :=
  PyTensor (scalar_tensor
    (fdiv (running_sum xs) (of_Z (Z.of_nat (length xs))))).

(** The value of [losses] after the entries [xs]. *)
Definition accumulated (xs : list F) : pyval F :=
  match xs with
  | [] => PyInt 0
  | _ => PyTensor (scalar_tensor (running_sum xs))
  end.
End DictDefs.

(** ** The reader *)

Section ReaderDefs.
Variables (Fl file : Type).

(** An environment with more records appended. *)
Definition with_records (e : PDB.env Fl file)
    (rs : list (PDB.res_info Fl)) : PDB.env Fl file :=
  {| PDB.files := PDB.files e;
     PDB.structure := PDB.structure e;
     PDB.residues_info := PDB.residues_info e ++ rs |}.
End ReaderDefs.

(** ** The reader as a program over operations *)

(** [get_alpha_carbon_info] once more, with every operation of its text
    kept as a node of the program: what the function does to the files,
    to the objects of the library and to its own list is then a
    property of the program, whatever the library does in answer.  The
    signature also holds the operations the function could perform on
    the same objects and does not. *)
Module PDBOps.
Section Program.
Variables (Fl file : Type).

Inductive op : Type -> Type :=
(* the operations of lines 49-80 *)
| PDBParser : op unit
| get_structure (pdb_file : string) : op (PDB.Structure Fl)
| new_list : op unit
| iter_structure (s : PDB.Structure Fl) : op (list (PDB.Model Fl))
| iter_model (m : PDB.Model Fl) : op (list (PDB.Chain Fl))
| iter_chain (c : PDB.Chain Fl) : op (list (PDB.Residue Fl))
| residue_getitem (residue : PDB.Residue Fl) (name : string)
    : op (PDB.Atom Fl)
| chain_id (c : PDB.Chain Fl) : op string
| get_resname (residue : PDB.Residue Fl) : op string
| residue_id (residue : PDB.Residue Fl) : op (string * Z * string)
| get_coord (a : PDB.Atom Fl) : op (list Fl)
| get_bfactor (a : PDB.Atom Fl) : op Fl
| append (r : PDB.res_info Fl) : op unit
| read_list : op (list (PDB.res_info Fl))
(* writes to a file, to the parsed structure, to the standard output *)
| write_file (path : string) (content : file) : op unit
| set_structure (s : PDB.Structure Fl) : op unit
| print_line (line : string) : op unit.

(** Programs: operations in sequence, and [try: ... except KeyError:]. *)
Inductive prog : Type -> Type :=
| Ret {A} (a : A) : prog A
| Do {X A} (o : op X) (k : X -> prog A) : prog A
| TryKeyError {A} (body handler : prog unit) (k : prog A) : prog A.

Fixpoint seq {A B} (p : prog A) : (A -> prog B) -> prog B :=
  match p in prog A return (A -> prog B) -> prog B with
  | Ret a => fun k => k a
  | Do o k' => fun k => Do o (fun x => seq (k' x) k)
  | TryKeyError body handler k' =>
      fun k => TryKeyError body handler (seq k' k)
  end.

Fixpoint for_ {A} (l : list A) (body : A -> prog unit) : prog unit :=
  match l with
  | [] => Ret tt
  | a :: l' => seq (body a) (fun _ => for_ l' body)
  end.

(** Lines 66-78. *)
Definition visit (c : PDB.Chain Fl) (residue : PDB.Residue Fl)
  : prog unit :=
  TryKeyError
    (Do (residue_getitem residue "CA") (fun ca_atom =>
     Do (chain_id c) (fun ch =>
     Do (get_resname residue) (fun rn =>
     Do (residue_id residue) (fun rid =>
     Do (get_coord ca_atom) (fun xyz =>
     Do (get_bfactor ca_atom) (fun b =>
     Do (append {| PDB.chain := ch;
                   PDB.resname := rn;
                   PDB.resnum := snd (fst rid);
                   PDB.ca_coord := xyz;
                   PDB.plddt := b |})
        (fun _ => Ret tt))))))))
    (Ret tt)
    (Ret tt).

(** [get_alpha_carbon_info], lines 38-80. *)
Definition get_alpha_carbon_info (pdb_file : string)
  : prog (list (PDB.res_info Fl)) :=
  Do PDBParser (fun _ =>
  Do (get_structure pdb_file) (fun structure =>
  Do new_list (fun _ =>
  seq (Do (iter_structure structure) (fun models =>
       for_ models (fun model =>
       Do (iter_model model) (fun cs =>
       for_ cs (fun c =>
       Do (iter_chain c) (fun rs =>
       for_ rs (fun residue => visit c residue)))))))
      (fun _ => Do read_list (fun l => Ret l))))).

(** What answers the operations: the library, the file system and the
    interpreter, acting on the world of the reader. *)
Definition handler : Type :=
  forall X, op X -> PDB.env Fl file -> result X * PDB.env Fl file.

Fixpoint run (h : handler) {A} (p : prog A) (w : PDB.env Fl file)
  : result A * PDB.env Fl file :=
  match p with
  | Ret a => (Ok a, w)
  | Do o k =>
      match h _ o w with
      | (Ok x, w') => run h (k x) w'
      | (Raise e, w') => (Raise e, w')
      end
  | TryKeyError body handler k =>
      match run h body w with
      | (Ok _, w') => run h k w'
      | (Raise KeyError, w') =>
          match run h handler w' with
          | (Ok _, w'') => run h k w''
          | (Raise e, w'') => (Raise e, w'')
          end
      | (Raise e, w') => (Raise e, w')
      end
  end.

(** The operations that write to something the function was given or
    to an output channel, and the one that builds the structure. *)
Definition writes {X} (o : op X) : bool :=
  match o with
  | write_file _ _ | set_structure _ | print_line _ => true
  | _ => false
  end.
Definition parses {X} (o : op X) : bool :=
  match o with
  | get_structure _ => true
  | _ => false
  end.

(** Every operation a program can reach satisfies [P]. *)
Fixpoint all_ops (P : forall X, op X -> Prop) {A} (p : prog A) : Prop :=
  match p with
  | Ret _ => True
  | Do o k => P _ o /\ forall x, all_ops P (k x)
  | TryKeyError body handler k =>
      all_ops P body /\ all_ops P handler /\ all_ops P k
  end.

(** The assumption on the library and the interpreter: an operation
    that is no write leaves the files as they are, and, unless it is the
    parse, the parsed structure too. *)
Definition reads_are_pure (h : handler) : Prop :=
  (forall X (o : op X) w,
     writes o = false -> PDB.files (snd (h X o w)) = PDB.files w)
  /\ (forall X (o : op X) w,
        writes o = false -> parses o = false ->
        PDB.structure (snd (h X o w)) = PDB.structure w).

(** The answers of the embedding [PDB]: the library as a function
    [parse_pdb] of the file content, accessors that return the fields,
    and writes that write. *)
Definition library (parse_pdb : file -> result (PDB.Structure Fl))
  : handler :=
  fun X (o : op X) =>
    match o in op X
          return PDB.env Fl file -> result X * PDB.env Fl file with
    | PDBParser => fun w => (Ok tt, w)
    | get_structure pdb_file => PDB.get_structure parse_pdb pdb_file
    | new_list => @PDB.new_list Fl file
    | iter_structure s => fun w => (Ok s, w)
    | iter_model m => fun w => (Ok (PDB.chains m), w)
    | iter_chain c => fun w => (Ok (PDB.residues c), w)
    | residue_getitem residue name =>
        fun w => (getitem (PDB.child_dict residue) name, w)
    | chain_id c => fun w => (Ok (PDB.chain_id c), w)
    | get_resname residue => fun w => (Ok (PDB.get_resname residue), w)
    | residue_id residue => fun w => (Ok (PDB.id residue), w)
    | get_coord a => fun w => (Ok (PDB.get_coord a), w)
    | get_bfactor a => fun w => (Ok (PDB.get_bfactor a), w)
    | append r => PDB.append r
    | read_list => fun w => (Ok (PDB.residues_info w), w)
    | write_file path content =>
        fun w => (Ok tt, {| PDB.files := dict_set (PDB.files w) path content;
                            PDB.structure := PDB.structure w;
                            PDB.residues_info := PDB.residues_info w |})
    | set_structure s =>
        fun w => (Ok tt, {| PDB.files := PDB.files w;
                            PDB.structure := Some s;
                            PDB.residues_info := PDB.residues_info w |})
    | print_line _ => fun w => (Ok tt, w)
    end.
End Program.
End PDBOps.

(** ** A zero smoothing parameter *)

(** The identities lines 32-33 need at [epsilon = 0], whatever the
    losses are.  IEEE arithmetic has them on every value, the infinities
    and nan included, with one exception of sign: [-0.0 + 0.0] is
    [0.0].  The identity [0 * x = 0] is not among them: it fails on an
    infinite [x]. *)
Class ZeroSmoothingArith (F : Type) {SF : Scalar F} : Prop := {
  zs_fdiv : forall n, (0 < n)%Z -> fdiv fzero (of_Z n) = fzero;
  zs_fsub : forall x, fsub x fzero = x;
  zs_fmul : forall x, fmul fone x = x;
  zs_fadd : forall x, fadd x fzero = x
}.
Arguments ZeroSmoothingArith F {SF}.

Section SmoothDefs.
Context {F : Type} `{Scalar F}.

(** [0 * smooth_loss = 0] at every position, as it is when no smooth
    loss is infinite or nan. *)
Definition smooth_vanishes (ignore_index : option Z)
    (ps : list (list F * Z)) : Prop :=
  Forall (fun p => fmul fzero (smooth_at ignore_index p) = fzero) ps.

(** The same for the summed smooth loss of [reduce=True]. *)
Definition smooth_sum_vanishes (ignore_index : option Z)
    (ps : list (list F * Z)) : Prop :=
  fmul fzero (fsum (map (smooth_at ignore_index) ps)) = fzero.
End SmoothDefs.

(** ** The logging keys of [compute] *)

(** The names [compute] can log, each behind its prefix: the nine of
    lines 313-323 and the three the flags add. *)
Definition compute_log_names : list string :=
  ["nll_loss"; "ppl"; "fullseq_loss"; "fullseq_nll_loss"; "bsz";
   "sample_size"; "sample_ratio"; "nonpad_ratio"; "weight_diff_loss";
   "constant_diff_loss"; "weight_diff_t1_loss";
   "weight_diff_t2_loss"]%string.

Definition compute_log_keys (key : string) : list string :=
  map (String.append (key_prefix key)) compute_log_names.

(** ** The two halves of a batch *)

Section HalfDefs.
Context {F : Type} `{Scalar F}.

(** The number of entries of the first chunk of [t.chunk(2)] for a
    tensor of shape [lead]: [ceil(n / 2)] rows. *)
Definition first_half (lead : list nat) : nat :=
  match lead with
  | n :: rest => (n + 1) / 2 * numel_of rest
  | [] => 0
  end.

(** [(t_loss * t_mask).sum() / t_mask.sum()] over the entries of one
    chunk. *)
Definition half_mean (l : list F) (m : list bool) : pyval F :=
  PyTensor (scalar_tensor
    (fdiv (fsum (map (fun q => fmul (fst q) (of_bool (snd q)))
                     (combine l m)))
          (of_Z (Z.of_nat (length (filter (fun b : bool => b) m)))))).
End HalfDefs.

(** * Scalars to compute and to reason with *)

(** ** Exact rationals: an executable instance *)

#[export] Instance Scalar_Qc : Scalar Qc := {
  fzero := Q2Qc 0;
  fone := Q2Qc 1;
  fadd := Qcplus;
  fsub := Qcminus;
  fmul := Qcmult;
  fdiv := Qcdiv;
  fneg := Qcopp;
  fltb := fun a b => match Qccompare a b with Lt => true | _ => false end;
  feqb := fun a b => if Qc_eq_dec a b then true else false;
  of_Z := fun z => Q2Qc (inject_Z z)
}.

Definition qc (n : Z) (d : positive) : Qc := Q2Qc (n # d).

Definition run_data {A} (r : result (tensor Qc * A)) : list Q :=
  match r with
  | Ok (t, _) => map this (data t)
  | Raise _ => []
  end.

(** ** The reals: exact arithmetic with [exp] and [ln] *)

#[export] Instance Scalar_R : Scalar R := {
  fzero := 0%R;
  fone := 1%R;
  fadd := Rplus;
  fsub := Rminus;
  fmul := Rmult;
  fdiv := Rdiv;
  fneg := Ropp;
  fltb := fun a b => if Rlt_dec a b then true else false;
  feqb := fun a b => if Req_dec_T a b then true else false;
  of_Z := IZR
}.

#[export] Instance Transcendental_R : Transcendental R := {
  fexp := exp;
  flog := ln
}.

(** ** IEEE binary64: the arithmetic the code runs on *)

(** A Python int as a float: exact below [2^53]. *)
Definition float_of_Z (z : Z) : PrimFloat.float :=
  match z with
  | Z0 => PrimFloat.zero
  | Zpos p => Pos.iter_op PrimFloat.add p PrimFloat.one
  | Zneg p => PrimFloat.opp (Pos.iter_op PrimFloat.add p PrimFloat.one)
  end.

#[export] Instance Scalar_float : Scalar PrimFloat.float := {
  fzero := PrimFloat.zero;
  fone := PrimFloat.one;
  fadd := PrimFloat.add;
  fsub := PrimFloat.sub;
  fmul := PrimFloat.mul;
  fdiv := PrimFloat.div;
  fneg := PrimFloat.opp;
  fltb := PrimFloat.ltb;
  feqb := PrimFloat.eqb;
  of_Z := float_of_Z
}.

(** ** Sample inputs *)

Definition example_lprobs : tensor Qc :=
  Tensor [2; 2] [qc (-1) 1; qc (-2) 1; qc (-3) 1; qc (-4) 1].
Definition example_target : tensor Z := Tensor [2] [0; 1]%Z.

Definition ex_self : loss_self R :=
  {| ignore_index := Some 1%Z; label_smoothing := (1 / 10)%R |}.
Definition ex_scores : tensor R := Tensor [2; 1; 2] [0; 0; 0; 0]%R.
Definition ex_target : tensor Z := Tensor [2; 1] [0; 1]%Z.
Definition ex_weights : tensor R := Tensor [2; 1] [1; 2]%R.
Definition ex_mask : tensor bool := Tensor [2; 1] [true; false].
Definition ex_no_mask : tensor bool := Tensor [2; 1] [false; false].

Definition ex_scores_dict_front : dict (tensor R) :=
  [("aatype"%string, ex_scores)].
Definition ex_target_dict : dict (tensor Z) :=
  [("aatype"%string, ex_target); ("struct"%string, ex_target)].
Definition ex_label_mask_dict : option (dict (option (tensor bool))) :=
  Some [("aatype"%string, Some ex_mask); ("struct"%string, None)].
Definition ex_weights_dict : option (dict (option (tensor R))) :=
  Some [("aatype"%string, Some ex_weights); ("struct"%string, None)].

Definition ex_structure : PDB.Structure Z :=
  [{| PDB.chains :=
        [{| PDB.chain_id := "A";
            PDB.residues :=
              [{| PDB.id := (" ", 1%Z, " ");
                  PDB.get_resname := "GLY";
                  PDB.child_dict :=
                    [("N", {| PDB.get_coord := [1; 2; 3]%Z;
                              PDB.get_bfactor := 90%Z |});
                     ("CA", {| PDB.get_coord := [4; 5; 6]%Z;
                               PDB.get_bfactor := 91%Z |})] |};
               {| PDB.id := ("W", 2%Z, " ");
                  PDB.get_resname := "HOH";
                  PDB.child_dict :=
                    [("O", {| PDB.get_coord := [7; 8; 9]%Z;
                              PDB.get_bfactor := 30%Z |})] |}] |}] |}]%string.

Definition ex_env : PDB.env Z string :=
  {| PDB.files := [("model.pdb", "ATOM")]%string;
     PDB.structure := None;
     PDB.residues_info := [] |}.

(** A target padded with an index that is no class, and a one-class
    [lprobs]. *)
Definition example_padded_target : tensor Z := Tensor [2] [0; -100]%Z.
Definition example_one_class : tensor Qc := Tensor [2; 1] [qc 0 1; qc 0 1].
Definition example_zero_target : tensor Z := Tensor [2] [0; 0]%Z.

(** A mask that keeps both positions, a batch of one row, an empty
    batch. *)
Definition ex_full_mask : tensor bool := Tensor [2; 1] [true; true].
Definition ex_row_scores : tensor R := Tensor [1; 2; 2] [0; 0; 0; 0]%R.
Definition ex_row_target : tensor Z := Tensor [1; 2] [0; 1]%Z.
Definition ex_empty_scores : tensor R := Tensor [0; 1; 2] [].
Definition ex_empty_target : tensor Z := Tensor [0; 1] [].
Definition ex_no_ignore : loss_self R :=
  {| ignore_index := None; label_smoothing := (1 / 10)%R |}.

(** Log-probabilities one of which is minus infinity (a class of
    probability zero), with the other class as target. *)
Definition float_lprobs : tensor PrimFloat.float :=
  Tensor [1; 2] [PrimFloat.zero; PrimFloat.neg_infinity].
Definition float_target : tensor Z := Tensor [1] [0%Z].

(** A loss object without smoothing. *)
Definition ex_plain : loss_self R :=
  {| ignore_index := Some 1%Z; label_smoothing := 0%R |}.

(** Dict inputs whose only key is the empty string. *)
Definition ex_target_dict_empty_key : dict (tensor Z) :=
  [(EmptyString, ex_target)].
Definition ex_label_mask_dict_empty_key
  : option (dict (option (tensor bool))) :=
  Some [(EmptyString, None)].
Definition ex_weights_dict_empty_key
  : option (dict (option (tensor R))) :=
  Some [(EmptyString, None)].

(** * Theorems *)

(** ** The two scalar types are exact *)

#[export] Instance ExactArith_Qc : ExactArith Qc.
Proof.
  constructor; simpl; intros.
  all: try (unfold Qcdiv; change (Q2Qc 0) with 0%Qc;
            change (Q2Qc 1) with 1%Qc; ring).
  all: try (apply Qc_is_canon; reflexivity).
  all: try discriminate.
  unfold Qcdiv. replace (/ 1)%Qc with 1%Qc by (apply Qc_is_canon; reflexivity).
  ring.
Qed.

#[export] Instance ExactArith_R : ExactArith R.
Proof.
  constructor; simpl; intros; try lra.
  destruct (Rlt_dec 1 0); [lra | reflexivity].
Qed.

Example lsnl_example :
  run_data (label_smoothed_nll_loss
     (Tensor [2; 2] [qc (-1) 1; qc (-2) 1; qc (-3) 1; qc (-4) 1])
     (Tensor [2] [0; 1]%Z) (qc 1 10) None true)
  = [(5 # 1)%Q].
Proof. vm_compute. reflexivity. Qed.

(** The entry of an ignored position is zero. *)
Example lsnl_ignore_example :
  run_data (label_smoothed_nll_loss
     (Tensor [2; 2] [qc (-1) 1; qc (-2) 1; qc (-3) 1; qc (-4) 1])
     (Tensor [2] [0; 1]%Z) (qc 0 1) (Some 1%Z) false)
  = [(1 # 1)%Q; (0 # 1)%Q].
Proof. vm_compute. reflexivity. Qed.

(** A target outside [0, C) stops [gather]. *)
Example lsnl_target_out_of_range :
  label_smoothed_nll_loss
     (Tensor [2; 2] [qc (-1) 1; qc (-2) 1; qc (-3) 1; qc (-4) 1])
     (Tensor [2] [0; 2]%Z) (qc 1 10) None true
  = Raise IndexOutOfBounds.
Proof. vm_compute. reflexivity. Qed.

(** One class: [epsilon / (C - 1)] divides a Python float by zero. *)
Example lsnl_single_class :
  label_smoothed_nll_loss (Tensor [2; 1] [qc 0 1; qc 0 1])
     (Tensor [2] [0; 0]%Z) (qc 1 10) None true
  = Raise ZeroDivisionError.
Proof. vm_compute. reflexivity. Qed.

Example chunk2_three_rows :
  chunk2 (Tensor [3; 1] [1; 2; 3]%Z)
  = Ok [Tensor [2; 1] [1; 2]%Z; Tensor [1; 1] [3]%Z].
Proof. reflexivity. Qed.

Example chunk2_single_row :
  (c <- chunk2 (Tensor [1; 2] [1; 2]%Z) ;; unpack2 c) = Raise ValueError.
Proof. reflexivity. Qed.

Example pymax1_of_zero : pymax1 (scalar_tensor (qc 0 1)) = Ok (PyInt 1).
Proof. vm_compute. reflexivity. Qed.

Example dict_set_keeps_position :
  dict_set [("a", 1); ("b", 2)]%string "a" 3 = [("a", 3); ("b", 2)]%string.
Proof. reflexivity. Qed.

(** ** Lists, shapes and chunks *)

Lemma shape_eqb_refl s : shape_eqb s s = true.
Proof. unfold shape_eqb. destruct (list_eq_dec Nat.eq_dec s s); congruence. Qed.

Lemma shape_eqb_eq s1 s2 : shape_eqb s1 s2 = true -> s1 = s2.
Proof.
  unfold shape_eqb. destruct (list_eq_dec Nat.eq_dec s1 s2); congruence.
Qed.

Lemma numel_of_app s c : numel_of (s ++ [c]) = numel_of s * c.
Proof.
  induction s as [|n s IH]; simpl.
  - lia.
  - rewrite IH. lia.
Qed.

Lemma chunks_length {A} n c (l : list A) : length (chunks n c l) = n.
Proof.
  revert l. induction n as [|n IH]; intros l; simpl; [reflexivity|].
  now rewrite IH.
Qed.

Lemma chunks_rows_length {A} n c (l : list A) :
  length l = n * c -> Forall (fun r => length r = c) (chunks n c l).
Proof.
  revert l. induction n as [|n IH]; intros l Hl; simpl; constructor.
  - rewrite length_firstn. simpl in Hl. lia.
  - apply IH. rewrite length_skipn. simpl in Hl. lia.
Qed.

Lemma chunks_singletons {A} (l : list A) :
  chunks (length l) 1 l = map (fun x => [x]) l.
Proof.
  induction l as [|a l IH]; simpl; [reflexivity|].
  now rewrite IH.
Qed.

Lemma concat_chunks {A} n c (l : list A) :
  length l = n * c -> concat (chunks n c l) = l.
Proof.
  revert l. induction n as [|n IH]; intros l Hl; simpl.
  - simpl in Hl. now destruct l.
  - rewrite IH.
    + apply firstn_skipn.
    + rewrite length_skipn. simpl in Hl. lia.
Qed.

Lemma concat_singletons {A B} (f : A -> B) (l : list A) :
  concat (map (fun x => [f x]) l) = map f l.
Proof. induction l as [|a l IH]; simpl; [reflexivity|]. now rewrite IH. Qed.

Lemma mapM_ok {A B} (f : A -> result B) (g : A -> B) (l : list A) :
  Forall (fun a => f a = Ok (g a)) l -> mapM f l = Ok (map g l).
Proof.
  induction 1 as [|a l Ha _ IH]; simpl; [reflexivity|].
  now rewrite Ha, IH.
Qed.

Lemma combine_map_r {A B C} (f : B -> C) (l : list A) (l' : list B) :
  combine l (map f l') = map (fun p => (fst p, f (snd p))) (combine l l').
Proof.
  revert l'. induction l as [|a l IH]; intros [|b l']; simpl; try reflexivity.
  now rewrite IH.
Qed.

Lemma combine_map_l {A B C} (f : A -> C) (l : list A) (l' : list B) :
  combine (map f l) l' = map (fun p => (f (fst p), snd p)) (combine l l').
Proof.
  revert l'. induction l as [|a l IH]; intros [|b l']; simpl; try reflexivity.
  now rewrite IH.
Qed.

Lemma map_fst_combine {A B} (l : list A) (l' : list B) :
  length l = length l' -> map fst (combine l l') = l.
Proof.
  revert l'. induction l as [|a l IH]; intros [|b l'] Hl; simpl in *;
    try reflexivity; try discriminate.
  now rewrite IH by lia.
Qed.

Lemma Forall_combine {A B} (P : A -> Prop) (Q : B -> Prop) l l' :
  Forall P l -> Forall Q l' ->
  Forall (fun p => P (fst p) /\ Q (snd p)) (combine l l').
Proof.
  intros HP. revert l'. induction HP as [|a l Ha _ IH]; intros l' HQ; simpl.
  - constructor.
  - destruct HQ as [|b l' Hb HQ]; constructor; auto.
Qed.

(** Zipping two maps over one list. *)
Lemma zip_maps {A B C D} (h : B -> C -> D) (f : A -> B) (g : A -> C) l :
  map (fun p => h (fst p) (snd p)) (combine (map f l) (map g l))
  = map (fun a => h (f a) (g a)) l.
Proof. induction l as [|a l IH]; simpl; [reflexivity|]. now rewrite IH. Qed.

(** ** [label_smoothed_nll_loss] position by position *)

Section LsnlFacts.
Context {F : Type} `{Scalar F}.

Lemma tzip_same {A B C} (f : A -> B -> C) (a : tensor A) (b : tensor B) :
  shape a = shape b ->
  tzip f a b
  = Ok (Tensor (shape a)
          (map (fun p => f (fst p) (snd p)) (combine (data a) (data b)))).
Proof. intros E. unfold tzip. now rewrite E, shape_eqb_refl. Qed.

Section WithInput.
Variables (lprobs : tensor F) (target : tensor Z) (lead : list nat) (C : nat).
Hypothesis Hin : lsnl_input lprobs target lead C.

Lemma rows_lprobs : rows lprobs = chunks (numel_of lead) C (data lprobs).
Proof.
  unfold rows, leading. rewrite (in_lprobs_shape Hin).
  now rewrite removelast_last, last_last.
Qed.

Lemma data_lprobs_length : length (data lprobs) = numel_of lead * C.
Proof.
  rewrite (in_lprobs_wf Hin). unfold numel.
  rewrite (in_lprobs_shape Hin). apply numel_of_app.
Qed.

Lemma data_target_length : length (data target) = numel_of lead.
Proof.
  rewrite (in_target_wf Hin). unfold numel.
  now rewrite (in_target_shape Hin).
Qed.

Lemma positions_length : length (positions lprobs target) = numel_of lead.
Proof.
  unfold positions. rewrite length_combine, rows_lprobs, chunks_length.
  rewrite data_target_length. lia.
Qed.

Lemma positions_rows : map fst (positions lprobs target) = rows lprobs.
Proof.
  unfold positions. apply map_fst_combine.
  now rewrite rows_lprobs, chunks_length, data_target_length.
Qed.

Lemma positions_targets : map snd (positions lprobs target) = data target.
Proof.
  unfold positions.
  assert (E : length (rows lprobs) = length (data target))
    by now rewrite rows_lprobs, chunks_length, data_target_length.
  revert E. generalize (rows lprobs) (data target).
  induction l as [|a l IH]; intros [|b l'] E; simpl in *;
    try reflexivity; try discriminate.
  now rewrite IH by lia.
Qed.

(** Every position has a full class vector and a valid index. *)
Lemma positions_valid :
  Forall (fun p => length (fst p) = C /\ (0 <= snd p < Z.of_nat C)%Z)
         (positions lprobs target).
Proof.
  unfold positions.
  apply Forall_combine with (P := fun r => length r = C)
                            (Q := fun t => (0 <= t < Z.of_nat C)%Z).
  - rewrite rows_lprobs. apply chunks_rows_length, data_lprobs_length.
  - apply (in_target_range Hin).
Qed.

Lemma shape_lprobs_cons : exists n s, shape lprobs = n :: s.
Proof.
  rewrite (in_lprobs_shape Hin). destruct lead; simpl; eauto.
Qed.

Lemma gather_positions :
  gather lprobs (unsqueeze target)
  = Ok (Tensor (lead ++ [1]) (map picked (positions lprobs target))).
Proof.
  unfold gather. destruct shape_lprobs_cons as (n & s & ->).
  unfold leading, dim, unsqueeze; simpl shape.
  rewrite (in_target_shape Hin), (in_lprobs_shape Hin).
  rewrite !removelast_last, shape_eqb_refl, !length_app, Nat.eqb_refl.
  simpl andb. cbv iota.
  assert (E : rows (Tensor (lead ++ [1]) (data target))
              = map (fun t => [t]) (data target)).
  { unfold rows, leading; simpl. rewrite removelast_last, last_last.
    rewrite <- data_target_length. apply chunks_singletons. }
  rewrite E, combine_map_r.
  rewrite (mapM_ok _ (fun q : list F * list Z =>
             map (fun i => nth (Z.to_nat i) (fst q) fzero) (snd q))).
  - simpl. f_equal. f_equal. rewrite map_map. simpl.
    apply (concat_singletons picked).
  - rewrite Forall_map. eapply Forall_impl; [|apply positions_valid].
    intros [row t] [Hlen Ht]; simpl in *. unfold index_row.
    rewrite Hlen.
    destruct (Z.leb_spec 0 t); [|lia].
    destruct (Z.ltb_spec t (Z.of_nat C)); [|lia].
    reflexivity.
Qed.

Lemma sum_last_positions :
  sum_last_keepdim lprobs
  = Ok (Tensor (lead ++ [1])
          (map (fun p => fsum (fst p)) (positions lprobs target))).
Proof.
  unfold sum_last_keepdim. destruct shape_lprobs_cons as (n & s & ->).
  unfold leading. rewrite (in_lprobs_shape Hin), removelast_last.
  now rewrite <- positions_rows, map_map.
Qed.

Lemma flag_true : (S (dim target) =? dim lprobs) = true.
Proof.
  unfold dim. rewrite (in_target_shape Hin), (in_lprobs_shape Hin).
  rewrite length_app. apply Nat.eqb_eq. simpl. lia.
Qed.

Lemma size_last_lprobs : size_last lprobs = Ok C.
Proof.
  unfold size_last. destruct shape_lprobs_cons as (n & s & E).
  rewrite E, <- E, (in_lprobs_shape Hin). now rewrite last_last.
Qed.

Lemma squeeze_unsqueezed {A} (d : list A) :
  squeeze (Tensor (lead ++ [1]) d) = Tensor lead d.
Proof. unfold squeeze; simpl. now rewrite last_last, removelast_last. Qed.

(** The masked fill of lines 21-23, read position by position. *)
Lemma masked_fill_positions (g : list F * Z -> F) (ii : Z) :
  masked_fill (Tensor (lead ++ [1]) (map g (positions lprobs target)))
              (teq (unsqueeze target) ii) fzero
  = Ok (Tensor (lead ++ [1])
          (map (fun p => if Z.eqb ii (snd p) then fzero else g p)
               (positions lprobs target))).
Proof.
  unfold masked_fill. rewrite tzip_same.
  - simpl. f_equal. f_equal. rewrite <- positions_targets, map_map.
    apply zip_maps with (h := fun x (m : bool) => if m then fzero else x).
  - simpl. now rewrite (in_target_shape Hin).
Qed.

Variables (epsilon : F) (ignore_index : option Z).
Hypothesis HC : C <> 1.

Lemma eps_i_ok :
  pyfloat_div_int epsilon (Z.of_nat C - 1) = Ok (eps_i_of epsilon C).
Proof.
  unfold pyfloat_div_int.
  destruct (Z.eqb_spec (Z.of_nat C - 1) 0); [lia | reflexivity].
Qed.

(** [reduce=False]: one loss and one nll entry per position. *)
Lemma lsnl_unreduced :
  label_smoothed_nll_loss lprobs target epsilon ignore_index false
  = Ok (Tensor lead
          (map (fun p => mix epsilon C (nll_at ignore_index p)
                                       (smooth_at ignore_index p))
               (positions lprobs target)),
        Tensor lead (map (nll_at ignore_index) (positions lprobs target))).
Proof.
  unfold label_smoothed_nll_loss.
  rewrite flag_true, gather_positions, sum_last_positions.
  cbn [bind]. unfold tneg, tmap. cbn [shape data]. rewrite !map_map.
  destruct ignore_index as [ii|].
  - rewrite !masked_fill_positions. cbn [bind].
    rewrite !squeeze_unsqueezed, size_last_lprobs. cbn [bind].
    rewrite eps_i_ok. cbn [bind].
    unfold tadd, smul, tmap. rewrite tzip_same by reflexivity.
    cbn [bind shape data]. rewrite !map_map.
    rewrite zip_maps with (h := fadd). reflexivity.
  - cbn [bind].
    rewrite !squeeze_unsqueezed, size_last_lprobs. cbn [bind].
    rewrite eps_i_ok. cbn [bind].
    unfold tadd, smul, tmap. rewrite tzip_same by reflexivity.
    cbn [bind shape data]. rewrite !map_map.
    rewrite zip_maps with (h := fadd). reflexivity.
Qed.

(** [reduce=True]: the two sums over the positions, then the mix. *)
Lemma lsnl_reduced :
  label_smoothed_nll_loss lprobs target epsilon ignore_index true
  = Ok (scalar_tensor
          (mix epsilon C
             (fsum (map (nll_at ignore_index) (positions lprobs target)))
             (fsum (map (smooth_at ignore_index)
                        (positions lprobs target)))),
        scalar_tensor
          (fsum (map (nll_at ignore_index) (positions lprobs target)))).
Proof.
  unfold label_smoothed_nll_loss.
  rewrite flag_true, gather_positions, sum_last_positions.
  cbn [bind]. unfold tneg, tmap. cbn [shape data]. rewrite !map_map.
  destruct ignore_index as [ii|].
  - rewrite !masked_fill_positions. cbn [bind].
    rewrite !squeeze_unsqueezed, size_last_lprobs. cbn [bind].
    rewrite eps_i_ok. reflexivity.
  - cbn [bind].
    rewrite !squeeze_unsqueezed, size_last_lprobs. cbn [bind].
    rewrite eps_i_ok. reflexivity.
Qed.
End WithInput.
End LsnlFacts.

(** ** The reduced loss without [ignore_index] *)

(** C1.  With [ignore_index = None] and [reduce=True], on an [lprobs] of
    [C >= 2] classes and a target of the matching shape holding class
    indices, the function returns the pair [(loss, nll_loss)] where
    [nll_loss] is the sum over all positions of [-lprobs] gathered at the
    target index, [smooth_loss] the sum over all positions of minus the
    sum of [lprobs] over the classes, and
    [loss = (1 - epsilon - epsilon/(C-1)) * nll_loss
            + epsilon/(C-1) * smooth_loss]. *)
Theorem label_smoothed_nll_loss_formula
    {F : Type} `{Scalar F} (lprobs : tensor F) (target : tensor Z)
    (lead : list nat) (C : nat) (epsilon : F) :
  lsnl_input lprobs target lead C ->
  2 <= C ->
  let nll_loss :=
    fsum (map (fun p => fneg (picked p)) (positions lprobs target)) in
  let smooth_loss :=
    fsum (map (fun p => fneg (fsum (fst p))) (positions lprobs target)) in
  let eps_i := fdiv epsilon (of_Z (Z.of_nat C - 1)) in
  label_smoothed_nll_loss lprobs target epsilon None true
  = Ok (scalar_tensor
          (fadd (fmul (fsub (fsub fone epsilon) eps_i) nll_loss)
                (fmul eps_i smooth_loss)),
        scalar_tensor nll_loss).
Proof.
  intros Hin HC. cbv zeta.
  rewrite (lsnl_reduced Hin) by lia. reflexivity.
Qed.

Lemma example_input : lsnl_input example_lprobs example_target [2] 2.
Proof.
  constructor; try reflexivity.
  repeat constructor; simpl; lia.
Defined.

Lemma label_smoothed_nll_loss_formula_witness :
  let nll_loss :=
    fsum (map (fun p => fneg (picked p))
              (positions example_lprobs example_target)) in
  let smooth_loss :=
    fsum (map (fun p => fneg (fsum (fst p)))
              (positions example_lprobs example_target)) in
  let eps_i := fdiv (qc 1 10) (of_Z (Z.of_nat 2 - 1)) in
  label_smoothed_nll_loss example_lprobs example_target (qc 1 10) None true
  = Ok (scalar_tensor
          (fadd (fmul (fsub (fsub fone (qc 1 10)) eps_i) nll_loss)
                (fmul eps_i smooth_loss)),
        scalar_tensor nll_loss).
Proof.
  apply (label_smoothed_nll_loss_formula (qc 1 10) example_input).
  lia.
Defined.

(** ** Ignored positions *)

Section Masked.
Context {F : Type} `{ExactArith F}.

(** Zero entries drop out of a sum. *)
Lemma fsum_masked {A} (pad : A -> bool) (g : A -> F) (l : list A) :
  fsum (map (fun a => if pad a then fzero else g a) l)
  = fsum (map g (filter (fun a => negb (pad a)) l)).
Proof.
  induction l as [|a l IH]; simpl; [reflexivity|].
  destruct (pad a); simpl.
  - now rewrite fadd_0_l.
  - now rewrite IH.
Qed.

Lemma mix_zero (epsilon : F) (C : nat) : mix epsilon C fzero fzero = fzero.
Proof. unfold mix. now rewrite !fmul_0_r, fadd_0_l. Qed.

Lemma mix_no_smoothing (C : nat) (nll smooth : F) :
  mix fzero C nll smooth = nll.
Proof.
  unfold mix, eps_i_of.
  now rewrite fdiv_0_l, !fsub_0_r, fmul_1_l, fmul_0_l, fadd_0_r.
Qed.
End Masked.

(** C2.  With [ignore_index = ii], a position whose target is [ii] adds
    nothing to the returned values: with [reduce=True] the returned
    [nll_loss] and the smooth component are the sums over the positions
    whose target differs from [ii]; with [reduce=False] the entries of
    [loss] and [nll_loss] at a position whose target is [ii] are zero. *)
Theorem ignored_positions_contribute_zero
    {F : Type} `{ExactArith F} (lprobs : tensor F) (target : tensor Z)
    (lead : list nat) (C : nat) (epsilon : F) (ii : Z) :
  lsnl_input lprobs target lead C ->
  C <> 1 ->
  let kept :=
    filter (fun p => negb (Z.eqb ii (snd p))) (positions lprobs target) in
  let nll_loss := fsum (map (fun p => fneg (picked p)) kept) in
  let smooth_loss := fsum (map (fun p => fneg (fsum (fst p))) kept) in
  label_smoothed_nll_loss lprobs target epsilon (Some ii) true
  = Ok (scalar_tensor (mix epsilon C nll_loss smooth_loss),
        scalar_tensor nll_loss)
  /\
  exists loss nll,
    label_smoothed_nll_loss lprobs target epsilon (Some ii) false
    = Ok (Tensor lead loss, Tensor lead nll)
    /\ length loss = numel target /\ length nll = numel target
    /\ forall i, nth_error (data target) i = Some ii ->
         nth_error loss i = Some fzero /\ nth_error nll i = Some fzero.
Proof.
  intros Hin HC. cbv zeta. split.
  - rewrite (lsnl_reduced Hin) by assumption.
    unfold nll_at, smooth_at. simpl is_pad.
    now rewrite !fsum_masked.
  - rewrite (lsnl_unreduced Hin) by assumption.
    do 2 eexists. split; [reflexivity|].
    rewrite !length_map, (positions_length Hin).
    unfold numel. rewrite (in_target_shape Hin).
    split; [reflexivity|]. split; [reflexivity|].
    intros i Hi.
    rewrite <- (positions_targets Hin), nth_error_map in Hi.
    rewrite !nth_error_map.
    destruct (nth_error (positions lprobs target) i) as [p|];
      [|discriminate].
    simpl in *. injection Hi as Hi.
    unfold nll_at, smooth_at. simpl. rewrite Hi, Z.eqb_refl.
    now rewrite mix_zero.
Qed.

Lemma ignored_positions_contribute_zero_witness :
  let kept :=
    filter (fun p => negb (Z.eqb 1 (snd p)))
           (positions example_lprobs example_target) in
  let nll_loss := fsum (map (fun p => fneg (picked p)) kept) in
  let smooth_loss := fsum (map (fun p => fneg (fsum (fst p))) kept) in
  label_smoothed_nll_loss example_lprobs example_target (qc 1 10)
    (Some 1%Z) true
  = Ok (scalar_tensor (mix (qc 1 10) 2 nll_loss smooth_loss),
        scalar_tensor nll_loss).
Proof.
  refine (proj1 (ignored_positions_contribute_zero (qc 1 10) 1
                   example_input _)).
  discriminate.
Defined.

(** ** The sequence losses: shared start *)

Section SeqFacts.
Context {F : Type} `{Scalar F} `{Transcendental F}.

Lemma length_concat_uniform {A} c (l : list (list A)) :
  Forall (fun r => length r = c) l -> length (concat l) = length l * c.
Proof.
  induction 1 as [|r l Hr _ IH]; simpl; [reflexivity|].
  rewrite length_app, IH, Hr. lia.
Qed.

Lemma chunks_concat {A} c (l : list (list A)) :
  Forall (fun r => length r = c) l -> chunks (length l) c (concat l) = l.
Proof.
  induction 1 as [|r l Hr _ IH]; simpl; [reflexivity|].
  rewrite firstn_app, skipn_app, Hr, Nat.sub_diag. simpl.
  rewrite firstn_all2, skipn_all2, app_nil_r by lia. simpl.
  now rewrite IH.
Qed.

Lemma log_softmax_row_length (row : list F) :
  length (log_softmax_row row) = length row.
Proof. unfold log_softmax_row. apply length_map. Qed.

Section WithSeq.
Variables (scores : tensor F) (target : tensor Z)
          (lead : list nat) (C : nat).
Hypothesis Hin : lsnl_input scores target lead C.

Lemma log_softmax_rows :
  log_softmax scores
  = Tensor (lead ++ [C]) (concat (map log_softmax_row (rows scores))).
Proof.
  unfold log_softmax. destruct (shape_lprobs_cons Hin) as (n & s & E).
  rewrite E, <- E. now rewrite (in_lprobs_shape Hin).
Qed.

Lemma log_softmax_rows_uniform :
  Forall (fun r => length r = C) (map log_softmax_row (rows scores)).
Proof.
  rewrite Forall_map. rewrite (rows_lprobs Hin).
  eapply Forall_impl;
    [|apply chunks_rows_length, (data_lprobs_length Hin)].
  intros r Hr. now rewrite log_softmax_row_length.
Qed.

Lemma log_softmax_input : lsnl_input (log_softmax scores) target lead C.
Proof.
  rewrite log_softmax_rows. constructor; simpl.
  - reflexivity.
  - apply (in_target_shape Hin).
  - unfold tensor_wf, numel. simpl.
    rewrite (length_concat_uniform log_softmax_rows_uniform).
    rewrite length_map, (rows_lprobs Hin), chunks_length.
    now rewrite numel_of_app.
  - apply (in_target_wf Hin).
  - apply (in_target_range Hin).
Qed.

(** The positions of [log_softmax scores] carry the normalised rows. *)
Lemma log_softmax_positions :
  positions (log_softmax scores) target
  = map (fun p => (log_softmax_row (fst p), snd p))
        (positions scores target).
Proof.
  unfold positions at 1. rewrite (rows_lprobs log_softmax_input).
  rewrite log_softmax_rows. simpl data.
  replace (numel_of lead)
    with (length (map log_softmax_row (rows scores)))
    by now rewrite length_map, (rows_lprobs Hin), chunks_length.
  rewrite (chunks_concat log_softmax_rows_uniform).
  apply combine_map_l.
Qed.

Lemma truediv_scalar (x : F) (d : pyval F) :
  scalar_like d ->
  truediv (PyTensor (scalar_tensor x)) d
  = Ok (PyTensor (scalar_tensor (fdiv x (item d)))).
Proof.
  destruct d as [z|y|t]; simpl; try reflexivity.
  intros [y ->]. reflexivity.
Qed.

Variables (self : loss_self F) (weights : option (tensor F)).
Hypothesis HC : C <> 1.
Hypothesis Hw :
  match weights with
  | Some w => shape w = lead /\ tensor_wf w
  | None => True
  end.

Lemma first_sample_size_scalar : scalar_like (first_sample_size self target).
Proof.
  unfold first_sample_size, ne_float_sum.
  destruct (ignore_index self); simpl; eauto.
Qed.

Lemma size_first_scores : size_first scores = Ok (hd 0 (shape scores)).
Proof.
  unfold size_first. destruct (shape_lprobs_cons Hin) as (n & s & ->).
  reflexivity.
Qed.

Lemma prologue_ok :
  prologue self scores target weights
  = Ok {| p_bsz := hd 0 (shape scores);
          p_n_tokens := PyInt (Z.of_nat (numel target));
          p_sample_size := first_sample_size self target;
          p_n_nonpad_tokens := first_sample_size self target;
          p_loss :=
            Tensor lead (weigh weights (loss_entries self scores target C));
          p_nll_loss :=
            Tensor lead (weigh weights (nll_entries self scores target));
          p_fullseq_loss :=
            PyTensor (scalar_tensor
              (fdiv (fsum (weigh weights
                             (loss_entries self scores target C)))
                    (item (first_sample_size self target))));
          p_fullseq_nll_loss :=
            PyTensor (scalar_tensor
              (fdiv (fsum (weigh weights
                             (nll_entries self scores target)))
                    (item (first_sample_size self target)))) |}.
Proof.
  unfold prologue.
  rewrite size_first_scores, (size_last_lprobs Hin). cbn [bind].
  rewrite (lsnl_unreduced log_softmax_input) by assumption. cbn [bind].
  fold (loss_entries self scores target C).
  fold (nll_entries self scores target).
  fold (first_sample_size self target).
  destruct weights as [w|].
  - destruct Hw as [Hs _]. unfold tmul.
    rewrite !tzip_same by now rewrite Hs. cbn [bind shape data].
    unfold tsum. cbn [data].
    rewrite !truediv_scalar by apply first_sample_size_scalar.
    reflexivity.
  - cbn [bind]. unfold tsum. cbn [data].
    rewrite !truediv_scalar by apply first_sample_size_scalar.
    reflexivity.
Qed.
End WithSeq.
End SeqFacts.

(** ** Dicts *)

Lemma dict_get_set {V} (d : dict V) (k k' : string) (v : V) :
  dict_get (dict_set d k v) k'
  = if String.eqb k k' then Some v else dict_get d k'.
Proof.
  induction d as [|[k0 v0] d IH]; simpl; [reflexivity|].
  destruct (String.eqb_spec k0 k) as [->|Hk]; simpl.
  - now destruct (String.eqb k k').
  - rewrite IH.
    destruct (String.eqb_spec k0 k') as [->|Hk'];
      [|now destruct (String.eqb k k')].
    destruct (String.eqb_spec k k'); [congruence | reflexivity].
Qed.

Lemma dict_get_set_same {V} (d : dict V) (k : string) (v : V) :
  dict_get (dict_set d k v) k = Some v.
Proof. now rewrite dict_get_set, String.eqb_refl. Qed.

Lemma dict_get_set_other {V} (d : dict V) (k k' : string) (v : V) :
  String.eqb k k' = false -> dict_get (dict_set d k v) k' = dict_get d k'.
Proof. intros E. now rewrite dict_get_set, E. Qed.

Lemma string_eqb_app_l (p a b : string) :
  String.eqb (p ++ a) (p ++ b) = String.eqb a b.
Proof.
  induction p as [|c p IH]; simpl; [reflexivity|].
  now rewrite Ascii.eqb_refl.
Qed.

(** ** The masking block and the flag branches *)

Section BranchFacts.
Context {F : Type} `{Scalar F} `{Transcendental F}.

Lemma masked_mean_ok (lead : list nat) (l : list F) (m : tensor F)
    (sample_size : pyval F) :
  shape m = lead ->
  scalar_like sample_size ->
  masked_mean (Tensor lead l) m sample_size
  = Ok (PyTensor (scalar_tensor
          (fdiv (fsum (map (fun q => fmul (fst q) (snd q))
                           (combine l (data m))))
                (item sample_size)))).
Proof.
  intros Hs Hss. unfold masked_mean, tmul.
  rewrite tzip_same by now rewrite Hs. cbn [bind]. unfold tsum.
  cbn [data]. now rewrite truediv_scalar.
Qed.

(** [chunk(2)] yields two parts exactly when the first dimension is
    not 1. *)
Lemma chunk2_two {A} (n : nat) (rest : list nat) (d : list A) :
  n <> 1 ->
  exists k1 k2 d1 d2,
    chunk2 (Tensor (n :: rest) d)
    = Ok [Tensor (k1 :: rest) d1; Tensor (k2 :: rest) d2]
    /\ k1 = (if n =? 0 then 0 else (n + 1) / 2)
    /\ k2 = n - k1.
Proof.
  intros Hn. unfold chunk2. cbn [shape data].
  destruct (Nat.eqb_spec n 0) as [->|Hz].
  - exists 0, 0, [], []. repeat split.
  - assert (Hk : (n + 1) / 2 < n).
    { apply Nat.Div0.div_lt_upper_bound. lia. }
    destruct (Nat.eqb_spec (n - (n + 1) / 2) 0) as [E|E]; [lia|].
    do 4 eexists. repeat split.
Qed.

Lemma chunk2_one {A} (rest : list nat) (d : list A) :
  chunk2 (Tensor (1 :: rest) d) = Ok [Tensor (1 :: rest) d].
Proof. reflexivity. Qed.

Lemma t1_t2_losses_ok (n : nat) (rest : list nat) (l : list F)
    (m : tensor bool) :
  n <> 1 -> shape m = n :: rest ->
  exists t1 t2,
    t1_t2_losses (Tensor (n :: rest) l) (Some m) = Ok (t1, t2).
Proof.
  intros Hn Hm. unfold t1_t2_losses.
  destruct (chunk2_two rest l Hn) as (k1 & k2 & d1 & d2 & -> & E1 & E2).
  destruct m as [sm dm]. simpl in Hm. subst sm.
  destruct (chunk2_two rest dm Hn) as (j1 & j2 & m1 & m2 & -> & J1 & J2).
  rewrite <- E1 in J1. rewrite J1, <- E2 in J2. subst j1 j2.
  cbn [bind unpack2]. unfold bool_masked_mean.
  rewrite !tzip_same by reflexivity. cbn [bind]. unfold tsum.
  rewrite !truediv_scalar by (simpl; eauto). cbn [bind]. eauto.
Qed.

Lemma t1_t2_losses_single (rest : list nat) (l : list F)
    (label_mask : option (tensor bool)) :
  t1_t2_losses (Tensor (1 :: rest) l) label_mask = Raise ValueError.
Proof. reflexivity. Qed.

Lemma t1_t2_losses_None (n : nat) (rest : list nat) (l : list F) :
  n <> 1 ->
  t1_t2_losses (Tensor (n :: rest) l) None = Raise AttributeError.
Proof.
  intros Hn. unfold t1_t2_losses.
  destruct (chunk2_two rest l Hn) as (k1 & k2 & d1 & d2 & -> & _ & _).
  reflexivity.
Qed.
End BranchFacts.

(** ** What the sequence losses return *)

Section ForwardFacts.
Context {F : Type} `{Scalar F} `{Transcendental F}.

Lemma truediv_int_ok (a : pyval F) (n : Z) :
  scalar_like a ->
  (match a with PyTensor _ => True | _ => n <> 0%Z end) ->
  exists r, truediv a (PyInt n) = Ok r.
Proof.
  destruct a as [z|x|t]; simpl; intros _ Hn.
  - destruct (Z.eqb_spec n 0); [contradiction | eauto].
  - destruct (Z.eqb_spec n 0); [contradiction | eauto].
  - eauto.
Qed.

Lemma final_sample_size_scalar self target label_mask :
  scalar_like (final_sample_size self target label_mask).
Proof.
  destruct label_mask; simpl; [eauto | apply first_sample_size_scalar].
Qed.

Lemma struct_sample_size_scalar m : scalar_like (struct_sample_size m).
Proof.
  unfold struct_sample_size.
  destruct (fltb fone (fsum (map of_bool (data m)))); simpl; eauto.
Qed.

Lemma torch_exp_final_mean self target label_mask (l : list F) :
  torch_exp (final_mean self target label_mask l)
  = Ok (exp_of (final_mean self target label_mask l)).
Proof. destruct label_mask; reflexivity. Qed.

Lemma torch_exp_scalar (x : F) :
  torch_exp (PyTensor (scalar_tensor x))
  = Ok (exp_of (PyTensor (scalar_tensor x))).
Proof. reflexivity. Qed.

Section WithSeq.
Variables (self : loss_self F) (scores : tensor F) (target : tensor Z)
          (weights : option (tensor F)) (lead : list nat) (C : nat).
Hypothesis Hseq : seq_input scores target weights lead C.
Hypothesis Hne : numel target <> 0.

Let losses_w := weigh weights (loss_entries self scores target C).
Let nlls_w := weigh weights (nll_entries self scores target).

Lemma prologue_seq :
  prologue self scores target weights
  = Ok {| p_bsz := hd 0 (shape scores);
          p_n_tokens := PyInt (Z.of_nat (numel target));
          p_sample_size := first_sample_size self target;
          p_n_nonpad_tokens := first_sample_size self target;
          p_loss := Tensor lead losses_w;
          p_nll_loss := Tensor lead nlls_w;
          p_fullseq_loss :=
            PyTensor (scalar_tensor
              (fdiv (fsum losses_w)
                    (item (first_sample_size self target))));
          p_fullseq_nll_loss :=
            PyTensor (scalar_tensor
              (fdiv (fsum nlls_w)
                    (item (first_sample_size self target)))) |}.
Proof.
  apply prologue_ok;
    [apply (seq_lsnl Hseq) | apply (seq_classes Hseq)
    | apply (seq_weights Hseq)].
Qed.

(** Runs a forward method up to its masking block. *)
Ltac run_prologue :=
  rewrite prologue_seq;
  cbn [bind p_bsz p_n_tokens p_sample_size p_n_nonpad_tokens p_loss
       p_nll_loss p_fullseq_loss p_fullseq_nll_loss].

Lemma ratio_ok (a : pyval F) :
  scalar_like a ->
  exists r, truediv a (PyInt (Z.of_nat (numel target))) = Ok r.
Proof.
  intros Ha. apply truediv_int_ok; [assumption|].
  destruct a; try exact I; lia.
Qed.

(** The masking block of Coord2Seq and RDM (lines 130-138, 202-210). *)
Lemma masking_block (label_mask : option (tensor bool)) :
  match label_mask with
  | Some m => mask_ok m lead
  | None => True
  end ->
  match label_mask with
  | Some m =>
      l <- masked_mean (Tensor lead losses_w) (tmap of_bool m)
             (PyTensor (tsum (tmap of_bool m))) ;;
      n <- masked_mean (Tensor lead nlls_w) (tmap of_bool m)
             (PyTensor (tsum (tmap of_bool m))) ;;
      Ok (l, n, PyTensor (tsum (tmap of_bool m)), Some (tmap of_bool m))
  | None =>
      Ok (PyTensor (scalar_tensor
            (fdiv (fsum losses_w)
                  (item (first_sample_size self target)))),
          PyTensor (scalar_tensor
            (fdiv (fsum nlls_w)
                  (item (first_sample_size self target)))),
          first_sample_size self target, None)
  end
  = Ok (final_mean self target label_mask losses_w,
        final_mean self target label_mask nlls_w,
        final_sample_size self target label_mask,
        option_map (tmap of_bool) label_mask).
Proof.
  destruct label_mask as [m|]; [|reflexivity].
  intros [Hs _]. cbv zeta.
  rewrite !masked_mean_ok by (simpl; unfold tsum; eauto).
  reflexivity.
Qed.

Lemma Coord2Seq_forward_ok (label_mask coord_mask : option (tensor bool)) :
  match effective_mask label_mask coord_mask with
  | Some m => mask_ok m lead
  | None => True
  end ->
  let em := effective_mask label_mask coord_mask in
  exists sample_ratio nonpad_ratio,
    Coord2SeqCrossEntropyLoss_forward self scores target
      label_mask coord_mask weights
    = Ok (final_mean self target em losses_w,
          dict_of [
            ("nll_loss", final_mean self target em nlls_w);
            ("ppl", exp_of (final_mean self target em nlls_w));
            ("fullseq_loss", final_mean self target None losses_w);
            ("fullseq_nll_loss", final_mean self target None nlls_w);
            ("bsz", PyInt (Z.of_nat (hd 0 (shape scores))));
            ("sample_size", final_sample_size self target em);
            ("sample_ratio", sample_ratio);
            ("nonpad_ratio", nonpad_ratio)
          ]%string).
Proof.
  intros Hm. cbv zeta. unfold Coord2SeqCrossEntropyLoss_forward.
  fold (effective_mask label_mask coord_mask).
  revert Hm. generalize (effective_mask label_mask coord_mask).
  intros em Hm. run_prologue.
  destruct (ratio_ok _ (final_sample_size_scalar self target em))
    as [r1 E1].
  destruct (ratio_ok _ (first_sample_size_scalar target self)) as [r2 E2].
  exists r1, r2.
  destruct em as [m|].
  - destruct Hm as [Hs _]. cbv zeta.
    rewrite !masked_mean_ok by (simpl; unfold tsum; eauto).
    cbn [bind]. rewrite torch_exp_scalar. cbn [bind].
    simpl final_sample_size in E1. unfold tsum, tmap. cbn [data].
    rewrite E1. cbn [bind]. rewrite E2. reflexivity.
  - cbn [bind]. rewrite torch_exp_scalar. cbn [bind].
    simpl final_sample_size in E1.
    assert (r2 = r1) by congruence. subst r2.
    rewrite E1. reflexivity.
Qed.

Lemma constant_diff_loss_ok (w : tensor F) (fm : tensor F)
    (sample_size : pyval F) :
  weights = Some w -> shape fm = lead -> scalar_like sample_size ->
  exists c,
    constant_diff_loss self scores target weights (Some fm) sample_size
    = Ok c.
Proof.
  intros Ew Hfm Hss. unfold constant_diff_loss. rewrite Ew.
  cbn [new_ones bind].
  rewrite (lsnl_unreduced (log_softmax_input (seq_lsnl Hseq)))
    by apply (seq_classes Hseq).
  cbn [bind]. unfold tmul. rewrite tzip_same.
  - cbn [bind shape]. rewrite masked_mean_ok by assumption. eauto.
  - pose proof (seq_weights Hseq) as Hw. rewrite Ew in Hw.
    simpl. now destruct Hw as [-> _].
Qed.

Lemma watch_block_ok (label_mask : option (tensor bool))
    (watch_t1_t2_loss : bool) (l : list F) :
  (watch_t1_t2_loss = true -> watch_ready label_mask lead) ->
  exists t12,
    (if watch_t1_t2_loss
     then r <- t1_t2_losses (Tensor lead l) label_mask ;; Ok (Some r)
     else Ok None) = Ok t12
    /\ (watch_t1_t2_loss = true -> exists t1 t2, t12 = Some (t1, t2)).
Proof.
  intros Hwatch. destruct watch_t1_t2_loss.
  - destruct (Hwatch eq_refl) as (m & n & rest & -> & Hs & El & Hn).
    rewrite El in Hs. rewrite El.
    edestruct t1_t2_losses_ok with (l := l) as (t1 & t2 & ->);
      [exact Hn | exact Hs |].
    cbn [bind]. eauto.
  - eexists. split; [reflexivity | discriminate].
Qed.

(** [cal_constant_loss] without weights: [weights.new_ones] fails. *)
Lemma RDM_forward_no_weights (label_mask : option (tensor bool))
    (watch_t1_t2_loss : bool) :
  weights = None ->
  match label_mask with
  | Some m => mask_ok m lead
  | None => True
  end ->
  (watch_t1_t2_loss = true -> watch_ready label_mask lead) ->
  RDMCrossEntropyLoss_forward self scores target label_mask weights
    true watch_t1_t2_loss
  = Raise AttributeError.
Proof.
  intros Ew Hm Hwatch. unfold RDMCrossEntropyLoss_forward.
  run_prologue.
  destruct (watch_block_ok losses_w Hwatch) as (t12 & -> & _).
  cbn [bind].
  rewrite (masking_block label_mask Hm). cbn [bind].
  rewrite torch_exp_final_mean. cbn [bind].
  destruct (ratio_ok _ (final_sample_size_scalar self target label_mask))
    as [r1 ->].
  destruct (ratio_ok _ (first_sample_size_scalar target self)) as [r2 ->].
  cbn [bind]. unfold constant_diff_loss. rewrite Ew. reflexivity.
Qed.

(** [cal_constant_loss] without a label mask: the product
    [constant_loss * label_mask] fails. *)
Lemma RDM_forward_no_mask_constant (w : tensor F) :
  weights = Some w ->
  RDMCrossEntropyLoss_forward self scores target None weights true false
  = Raise TypeError.
Proof.
  intros Ew. unfold RDMCrossEntropyLoss_forward.
  run_prologue.
  rewrite torch_exp_scalar. cbn [bind].
  destruct (ratio_ok _ (first_sample_size_scalar target self)) as [r2 ->].
  cbn [bind]. unfold constant_diff_loss. rewrite Ew.
  cbn [new_ones bind].
  rewrite (lsnl_unreduced (log_softmax_input (seq_lsnl Hseq)))
    by apply (seq_classes Hseq).
  cbn [bind]. unfold tmul. rewrite tzip_same.
  - reflexivity.
  - pose proof (seq_weights Hseq) as Hw. rewrite Ew in Hw.
    simpl. now destruct Hw as [-> _].
Qed.

(** [watch_t1_t2_loss] without a label mask: [label_mask.chunk]
    fails, once the loss itself has been split in two. *)
Lemma RDM_forward_no_mask_watch (n : nat) (rest : list nat)
    (cal_constant_loss : bool) :
  lead = n :: rest -> n <> 1 ->
  RDMCrossEntropyLoss_forward self scores target None weights
    cal_constant_loss true
  = Raise AttributeError.
Proof.
  intros El Hn. unfold RDMCrossEntropyLoss_forward.
  run_prologue.
  rewrite El, t1_t2_losses_None by assumption. reflexivity.
Qed.

(** A batch of one row: the chunks cannot be unpacked into two. *)
Lemma RDM_forward_single_row (rest : list nat)
    (label_mask : option (tensor bool)) (cal_constant_loss : bool) :
  lead = 1 :: rest ->
  RDMCrossEntropyLoss_forward self scores target label_mask weights
    cal_constant_loss true
  = Raise ValueError.
Proof.
  intros El. unfold RDMCrossEntropyLoss_forward.
  run_prologue.
  rewrite El, t1_t2_losses_single. reflexivity.
Qed.

Lemma RDM_forward_ok (label_mask : option (tensor bool))
    (cal_constant_loss watch_t1_t2_loss : bool) :
  match label_mask with
  | Some m => mask_ok m lead
  | None => True
  end ->
  (watch_t1_t2_loss = true -> watch_ready label_mask lead) ->
  (cal_constant_loss = true -> constant_ready label_mask weights) ->
  exists logging_output,
    RDMCrossEntropyLoss_forward self scores target label_mask weights
      cal_constant_loss watch_t1_t2_loss
    = Ok (final_mean self target label_mask losses_w, logging_output)
    /\ dict_get logging_output "nll_loss"
        = Some (final_mean self target label_mask nlls_w)
    /\ dict_get logging_output "ppl"
        = Some (exp_of (final_mean self target label_mask nlls_w))
    /\ dict_get logging_output "fullseq_loss"
        = Some (final_mean self target None losses_w)
    /\ dict_get logging_output "fullseq_nll_loss"
        = Some (final_mean self target None nlls_w)
    /\ dict_get logging_output "sample_size"
        = Some (final_sample_size self target label_mask)
    /\ dict_get logging_output "weight_diff_loss"
        = Some (final_mean self target label_mask losses_w).
Proof.
  intros Hm Hwatch Hcal. unfold RDMCrossEntropyLoss_forward.
  run_prologue.
  destruct (watch_block_ok losses_w Hwatch) as (t12 & -> & Ht12).
  cbn [bind].
  rewrite (masking_block label_mask Hm). cbn [bind].
  rewrite torch_exp_final_mean. cbn [bind].
  destruct (ratio_ok _ (final_sample_size_scalar self target label_mask))
    as [r1 ->].
  destruct (ratio_ok _ (first_sample_size_scalar target self)) as [r2 ->].
  cbn [bind].
  assert (Ec : forall d, exists d',
    (if cal_constant_loss
     then
       c <- constant_diff_loss self scores target weights
              (option_map (tmap of_bool) label_mask)
              (final_sample_size self target label_mask) ;;
       Ok (dict_set d "constant_diff_loss" c)
     else Ok d) = Ok d'
    /\ forall k, String.eqb "constant_diff_loss" k = false ->
         dict_get d' k = dict_get d k).
  { intros d. destruct cal_constant_loss.
    - destruct (Hcal eq_refl) as [Hw Hl].
      assert (Ew : exists w, weights = Some w).
      { case_eq weights; [eauto | intros E; contradiction]. }
      destruct Ew as [w Ew].
      destruct label_mask as [m|]; [|congruence].
      destruct Hm as [Hs _].
      destruct (@constant_diff_loss_ok w (tmap of_bool m)
                  (final_sample_size self target (Some m)))
        as [c Ec]; simpl; eauto.
      simpl option_map. simpl in Ec. rewrite Ec. cbn [bind].
      eexists. split; [reflexivity|].
      intros k Hk. now apply dict_get_set_other.
    - eexists. split; [reflexivity | reflexivity]. }
  match goal with
  | |- context [if cal_constant_loss then _ else Ok ?d] =>
      destruct (Ec d) as (d' & -> & Hd')
  end.
  cbn [bind]. clear Ec.
  destruct watch_t1_t2_loss.
  - destruct (Ht12 eq_refl) as (t1 & t2 & ->). eexists.
    split; [reflexivity|].
    repeat split;
      (rewrite !dict_get_set_other by reflexivity;
       rewrite Hd' by reflexivity; reflexivity).
  - eexists. split; [reflexivity|].
    repeat split; (rewrite Hd' by reflexivity; reflexivity).
Qed.

(** The masking block of [compute], lines 299-309. *)
Lemma struct_masking_block (label_mask : option (tensor bool)) :
  match label_mask with
  | Some m => struct_mask_ok m lead
  | None => True
  end ->
  exists fm,
  match label_mask with
  | Some m =>
      sample_size <- pymax1 (tsum (tmap of_bool m)) ;;
      label_mask <-
        (if S (dim (tmap of_bool m)) =? dim (Tensor lead losses_w)
         then expand_last (tmap of_bool m) (Tensor lead losses_w)
         else Ok (tmap of_bool m)) ;;
      l <- masked_mean (Tensor lead losses_w) label_mask sample_size ;;
      n <- masked_mean (Tensor lead nlls_w) label_mask sample_size ;;
      Ok (l, n, sample_size, Some label_mask)
  | None =>
      Ok (PyTensor (scalar_tensor
            (fdiv (fsum losses_w)
                  (item (first_sample_size self target)))),
          PyTensor (scalar_tensor
            (fdiv (fsum nlls_w)
                  (item (first_sample_size self target)))),
          first_sample_size self target, None)
  end
  = Ok (struct_final_mean self target lead label_mask losses_w,
        struct_final_mean self target lead label_mask nlls_w,
        struct_final_sample_size self target label_mask,
        fm)
  /\ match label_mask, fm with
     | Some _, Some t => shape t = lead
     | None, None => True
     | _, _ => False
     end.
Proof.
  destruct label_mask as [m|]; [|exists None; split; [reflexivity|exact I]].
  intros Hm.
  exists (Some (Tensor lead (struct_mask_entries m lead))).
  split; [|reflexivity].
  assert (Es : pymax1 (tsum (tmap of_bool m)) = Ok (struct_sample_size m)).
  { unfold pymax1, tsum, scalar_tensor, struct_sample_size. simpl.
    now destruct (fltb fone (fsum (map of_bool (data m)))). }
  rewrite Es. cbn [bind].
  assert (Em :
    (if S (dim (tmap of_bool m)) =? dim (Tensor lead losses_w)
     then expand_last (tmap of_bool m) (Tensor lead losses_w)
     else Ok (tmap of_bool m))
    = Ok (Tensor lead (struct_mask_entries m lead))).
  { unfold dim, struct_mask_entries. cbn [shape tmap].
    destruct Hm as [Hs | [Hl Hs]].
    - rewrite Hs.
      destruct (Nat.eqb_spec (S (length lead)) (length lead)); [lia|].
      unfold tmap. now rewrite Hs.
    - rewrite Hs.
      assert (El : S (length (removelast lead)) = length lead).
      { destruct (exists_last Hl) as (l' & a & ->).
        rewrite removelast_last, length_app. simpl. lia. }
      rewrite El, Nat.eqb_refl. unfold expand_last, leading.
      cbn [shape data tmap]. now rewrite Hs, shape_eqb_refl. }
  rewrite Em. cbn [bind].
  rewrite !masked_mean_ok
    by (try reflexivity; apply struct_sample_size_scalar).
  reflexivity.
Qed.

Lemma torch_exp_struct_mean label_mask (l : list F) :
  torch_exp (struct_final_mean self target lead label_mask l)
  = Ok (exp_of (struct_final_mean self target lead label_mask l)).
Proof. destruct label_mask; reflexivity. Qed.

Lemma struct_final_sample_size_scalar label_mask :
  scalar_like (struct_final_sample_size self target label_mask).
Proof.
  destruct label_mask; simpl;
    [apply struct_sample_size_scalar | apply first_sample_size_scalar].
Qed.

Lemma compute_ok (label_mask : option (tensor bool))
    (cal_constant_loss watch_t1_t2_loss : bool) (key : string) :
  match label_mask with
  | Some m => struct_mask_ok m lead
  | None => True
  end ->
  (watch_t1_t2_loss = true -> watch_ready label_mask lead) ->
  (cal_constant_loss = true -> constant_ready label_mask weights) ->
  exists logging_output,
    compute self cal_constant_loss watch_t1_t2_loss
            scores target label_mask weights key
    = Ok (struct_final_mean self target lead label_mask losses_w,
          struct_final_mean self target lead label_mask nlls_w,
          logging_output)
    /\ dict_get logging_output (key_prefix key ++ "nll_loss")
        = Some (struct_final_mean self target lead label_mask nlls_w)
    /\ dict_get logging_output (key_prefix key ++ "ppl")
        = Some (exp_of
                  (struct_final_mean self target lead label_mask nlls_w))
    /\ dict_get logging_output (key_prefix key ++ "fullseq_loss")
        = Some (final_mean self target None losses_w)
    /\ dict_get logging_output (key_prefix key ++ "fullseq_nll_loss")
        = Some (final_mean self target None nlls_w)
    /\ dict_get logging_output (key_prefix key ++ "sample_size")
        = Some (struct_final_sample_size self target label_mask).
Proof.
  intros Hm Hwatch Hcal. unfold compute.
  fold (key_prefix key). generalize (key_prefix key). intros pre.
  run_prologue.
  destruct (watch_block_ok losses_w Hwatch) as (t12 & -> & Ht12).
  cbn [bind].
  destruct (struct_masking_block label_mask Hm) as (fm & -> & Hfm).
  cbn [bind].
  rewrite torch_exp_struct_mean. cbn [bind].
  destruct (ratio_ok _ (struct_final_sample_size_scalar label_mask))
    as [r1 ->].
  destruct (ratio_ok _ (first_sample_size_scalar target self)) as [r2 ->].
  cbn [bind].
  assert (Ec : forall d, exists d',
    (if cal_constant_loss
     then
       c <- constant_diff_loss self scores target weights fm
              (struct_final_sample_size self target label_mask) ;;
       Ok (dict_set d (pre ++ "constant_diff_loss") c)
     else Ok d) = Ok d'
    /\ forall k, String.eqb (pre ++ "constant_diff_loss") k = false ->
         dict_get d' k = dict_get d k).
  { intros d. destruct cal_constant_loss.
    - destruct (Hcal eq_refl) as [Hw Hl].
      assert (Ew : exists w, weights = Some w).
      { case_eq weights; [eauto | intros E; contradiction]. }
      destruct Ew as [w Ew].
      destruct label_mask as [m|]; [|congruence].
      destruct fm as [t|]; [|contradiction].
      destruct (@constant_diff_loss_ok w t
                  (struct_final_sample_size self target (Some m)))
        as [c Ec]; try assumption.
      { apply struct_final_sample_size_scalar. }
      rewrite Ec. cbn [bind].
      eexists. split; [reflexivity|].
      intros k Hk. now apply dict_get_set_other.
    - eexists. split; [reflexivity | reflexivity]. }
  match goal with
  | |- context [if cal_constant_loss then _ else Ok ?d] =>
      destruct (Ec d) as (d' & -> & Hd')
  end.
  cbn [bind]. clear Ec.
  unfold dict_of, dict_update in Hd'. cbn [fold_left fst snd] in Hd'.
  assert (Hlo : exists logging_output,
    logging_output0 <-
      (if watch_t1_t2_loss
       then
         match t12 with
         | Some (t1_loss, t2_loss) =>
             Ok (dict_set (dict_set d'
                             (pre ++ "weight_diff_t1_loss") t1_loss)
                          (pre ++ "weight_diff_t2_loss") t2_loss)
         | None => Raise AttributeError
         end
       else Ok d') ;;
    Ok (struct_final_mean self target lead label_mask losses_w,
        struct_final_mean self target lead label_mask nlls_w,
        logging_output0)
    = Ok (struct_final_mean self target lead label_mask losses_w,
          struct_final_mean self target lead label_mask nlls_w,
          logging_output)).
  { destruct watch_t1_t2_loss.
    - destruct (Ht12 eq_refl) as (t1 & t2 & ->). cbn [bind]. eauto.
    - cbn [bind]. eauto. }
  destruct Hlo as [lo Elo].
  exists lo. split; [exact Elo|].
  assert (Elo' : forall a,
    String.eqb "weight_diff_t1_loss" a = false ->
    String.eqb "weight_diff_t2_loss" a = false ->
    dict_get lo (pre ++ a) = dict_get d' (pre ++ a)).
  { intros a H1 H2. destruct watch_t1_t2_loss.
    - destruct (Ht12 eq_refl) as (t1 & t2 & ->). cbn [bind] in Elo.
      injection Elo as <-.
      rewrite !dict_get_set, !string_eqb_app_l, H1, H2. reflexivity.
    - cbn [bind] in Elo. injection Elo as <-. reflexivity. }
  repeat split;
    (rewrite Elo' by reflexivity;
     rewrite Hd' by (rewrite string_eqb_app_l; reflexivity);
     rewrite !dict_get_set, !string_eqb_app_l; reflexivity).
Qed.
End WithSeq.
End ForwardFacts.

(** ** Weights *)

Lemma ex_lsnl_input : lsnl_input ex_scores ex_target [2; 1] 2.
Proof.
  constructor; try reflexivity.
  repeat constructor; simpl; lia.
Defined.

Lemma ex_seq_input (weights : option (tensor R)) :
  weights = None \/ weights = Some ex_weights ->
  seq_input ex_scores ex_target weights [2; 1] 2.
Proof.
  intros Hw. constructor.
  - exact ex_lsnl_input.
  - discriminate.
  - destruct Hw as [-> | ->]; [exact I | split; reflexivity].
Defined.

Lemma ex_mask_ok : mask_ok ex_mask [2; 1].
Proof. split; reflexivity. Defined.

Lemma ex_watch_ready : watch_ready (Some ex_mask) [2; 1].
Proof.
  exists ex_mask, 2, [1]. repeat split. discriminate.
Defined.

(** C5.  In [Coord2SeqCrossEntropyLoss.forward] and
    [RDMCrossEntropyLoss.forward] with weights, the per-position loss
    and nll_loss are multiplied elementwise by the weights before any
    sum is taken: the returned (masked) loss, the logged nll_loss and the
    logged fullseq losses are sums of the weighted entries [wl] and
    [wn]. *)
Theorem weights_scale_entries_before_sums
    {F : Type} `{Scalar F} `{Transcendental F}
    (self : loss_self F) (scores : tensor F) (target : tensor Z)
    (w : tensor F) (label_mask coord_mask : option (tensor bool))
    (cal_constant_loss watch_t1_t2_loss : bool)
    (lead : list nat) (C : nat) :
  seq_input scores target (Some w) lead C ->
  numel target <> 0 ->
  match label_mask with Some m => mask_ok m lead | None => True end ->
  match coord_mask with Some m => mask_ok m lead | None => True end ->
  (watch_t1_t2_loss = true -> watch_ready label_mask lead) ->
  (cal_constant_loss = true -> label_mask <> None) ->
  let wl := map (fun q => fmul (fst q) (snd q))
                (combine (loss_entries self scores target C) (data w)) in
  let wn := map (fun q => fmul (fst q) (snd q))
                (combine (nll_entries self scores target) (data w)) in
  let fullseq l :=
    PyTensor (scalar_tensor
      (fdiv (fsum l) (item (first_sample_size self target)))) in
  (exists logging_output,
     Coord2SeqCrossEntropyLoss_forward self scores target
       label_mask coord_mask (Some w)
     = Ok (final_mean self target (effective_mask label_mask coord_mask) wl,
           logging_output)
     /\ dict_get logging_output "nll_loss"
         = Some (final_mean self target
                   (effective_mask label_mask coord_mask) wn)
     /\ dict_get logging_output "fullseq_loss" = Some (fullseq wl)
     /\ dict_get logging_output "fullseq_nll_loss" = Some (fullseq wn))
  /\
  (exists logging_output,
     RDMCrossEntropyLoss_forward self scores target label_mask (Some w)
       cal_constant_loss watch_t1_t2_loss
     = Ok (final_mean self target label_mask wl, logging_output)
     /\ dict_get logging_output "nll_loss"
         = Some (final_mean self target label_mask wn)
     /\ dict_get logging_output "fullseq_loss" = Some (fullseq wl)
     /\ dict_get logging_output "fullseq_nll_loss" = Some (fullseq wn)).
Proof.
  intros Hseq Hne Hlm Hcm Hwatch Hcal. cbv zeta. split.
  - destruct (@Coord2Seq_forward_ok _ _ _ self scores target (Some w) lead C
                Hseq Hne label_mask coord_mask)
      as (r1 & r2 & E).
    + destruct label_mask; simpl; assumption.
    + eexists. split; [exact E|]. repeat split.
  - destruct (@RDM_forward_ok _ _ _ self scores target (Some w) lead C
                Hseq Hne label_mask cal_constant_loss watch_t1_t2_loss
                Hlm Hwatch)
      as (lo & E & E1 & _ & E3 & E4 & _).
    + intros Hc. split; [discriminate | auto].
    + exists lo. auto.
Qed.

Lemma weights_scale_entries_before_sums_witness :
  exists loss logging_output,
    RDMCrossEntropyLoss_forward ex_self ex_scores ex_target (Some ex_mask)
      (Some ex_weights) true true
    = Ok (loss, logging_output).
Proof.
  destruct (@weights_scale_entries_before_sums R _ _
              ex_self ex_scores ex_target ex_weights
              (Some ex_mask) None true true [2; 1] 2)
    as [_ (lo & E & _)].
  - apply ex_seq_input. now right.
  - discriminate.
  - exact ex_mask_ok.
  - exact I.
  - intros _. exact ex_watch_ready.
  - discriminate.
  - eauto.
Defined.

(** ** The flags of [RDMCrossEntropyLoss.forward] *)

(** C10, as stated, fails: with [cal_constant_loss] and weights but no
    label mask, both stated preconditions hold and the call raises. *)
Lemma RDM_constant_loss_needs_label_mask :
  let weights := Some ex_weights in
  let label_mask : option (tensor bool) := None in
  let cal_constant_loss := true in
  let watch_t1_t2_loss := false in
  (cal_constant_loss = true -> weights <> None)
  /\ (watch_t1_t2_loss = true -> label_mask <> None)
  /\ RDMCrossEntropyLoss_forward ex_self ex_scores ex_target label_mask
       weights cal_constant_loss watch_t1_t2_loss
     = Raise TypeError.
Proof.
  cbv zeta. split; [discriminate|]. split; [discriminate|].
  apply RDM_forward_no_mask_constant with (lead := [2; 1]) (C := 2)
                                          (w := ex_weights).
  - apply ex_seq_input. now right.
  - discriminate.
  - reflexivity.
Qed.

(** C10, amended.  On well-shaped, non-empty inputs:
    the call completes when [cal_constant_loss] comes with weights and a
    label mask, and [watch_t1_t2_loss] with a label mask and a batch
    that is not a single row; with [cal_constant_loss] and no weights
    the call fails on the None weights; with [watch_t1_t2_loss] and no
    label mask (and a batch that is not a single row) the call fails on
    the None label mask. *)
Theorem RDM_flag_preconditions
    {F : Type} `{Scalar F} `{Transcendental F}
    (self : loss_self F) (scores : tensor F) (target : tensor Z)
    (label_mask : option (tensor bool)) (weights : option (tensor F))
    (cal_constant_loss watch_t1_t2_loss : bool)
    (lead : list nat) (C : nat) :
  seq_input scores target weights lead C ->
  numel target <> 0 ->
  match label_mask with Some m => mask_ok m lead | None => True end ->
  ((watch_t1_t2_loss = true -> watch_ready label_mask lead) ->
   (cal_constant_loss = true -> constant_ready label_mask weights) ->
   exists r,
     RDMCrossEntropyLoss_forward self scores target label_mask weights
       cal_constant_loss watch_t1_t2_loss = Ok r)
  /\
  (cal_constant_loss = true -> weights = None ->
   (watch_t1_t2_loss = true -> watch_ready label_mask lead) ->
   RDMCrossEntropyLoss_forward self scores target label_mask weights
     cal_constant_loss watch_t1_t2_loss = Raise AttributeError)
  /\
  (watch_t1_t2_loss = true -> label_mask = None ->
   (exists n rest, lead = n :: rest /\ n <> 1) ->
   RDMCrossEntropyLoss_forward self scores target label_mask weights
     cal_constant_loss watch_t1_t2_loss = Raise AttributeError).
Proof.
  intros Hseq Hne Hm. split; [|split].
  - intros Hwatch Hcal.
    destruct (@RDM_forward_ok _ _ _ self scores target weights lead C
                Hseq Hne label_mask cal_constant_loss watch_t1_t2_loss
                Hm Hwatch Hcal) as (lo & E & _).
    eauto.
  - intros -> Ew Hwatch.
    now apply RDM_forward_no_weights with (lead := lead) (C := C).
  - intros -> -> (n & rest & El & Hn).
    now apply RDM_forward_no_mask_watch
      with (lead := lead) (C := C) (n := n) (rest := rest).
Qed.

Lemma RDM_flag_preconditions_witness :
  (exists r,
     RDMCrossEntropyLoss_forward ex_self ex_scores ex_target (Some ex_mask)
       (Some ex_weights) true true = Ok r)
  /\ RDMCrossEntropyLoss_forward ex_self ex_scores ex_target (Some ex_mask)
       None true true = Raise AttributeError
  /\ RDMCrossEntropyLoss_forward ex_self ex_scores ex_target None
       (Some ex_weights) true true = Raise AttributeError.
Proof.
  split; [|split].
  - refine (proj1 (@RDM_flag_preconditions R _ _ ex_self ex_scores ex_target
                     (Some ex_mask) (Some ex_weights) true true [2; 1] 2
                     _ _ _) _ _).
    + apply ex_seq_input. now right.
    + discriminate.
    + exact ex_mask_ok.
    + intros _. exact ex_watch_ready.
    + intros _. split; discriminate.
  - refine (proj1 (proj2 (@RDM_flag_preconditions R _ _ ex_self ex_scores
                     ex_target (Some ex_mask) None true true [2; 1] 2
                     _ _ _)) _ _ _).
    + apply ex_seq_input. now left.
    + discriminate.
    + exact ex_mask_ok.
    + reflexivity.
    + reflexivity.
    + intros _. exact ex_watch_ready.
  - refine (proj2 (proj2 (@RDM_flag_preconditions R _ _ ex_self ex_scores
                     ex_target None (Some ex_weights) true true [2; 1] 2
                     _ _ _)) _ _ _).
    + apply ex_seq_input. now right.
    + discriminate.
    + exact I.
    + reflexivity.
    + reflexivity.
    + exists 2, [1]. split; [reflexivity | discriminate].
Defined.

(** ** [CrossEntropyLoss.forward] *)

Section CrossEntropyFacts.
Context {F : Type} `{Scalar F} `{Transcendental F}.

Lemma selected_length {A B} (mask : option (tensor bool))
    (l : list A) (l' : list B) :
  length l = length l' ->
  length (selected mask l) = length (selected mask l').
Proof.
  destruct mask as [m|]; simpl; [|auto].
  generalize (data m). intros d. revert l' d.
  induction l as [|a l IH]; intros [|b l'] d E; simpl in *;
    try discriminate; [reflexivity|].
  destruct d as [|[] d]; simpl; auto.
Qed.

Lemma selected_Forall {A} (P : A -> Prop) (mask : option (tensor bool))
    (l : list A) :
  Forall P l -> Forall P (selected mask l).
Proof.
  destruct mask as [m|]; simpl; [|auto].
  generalize (data m). intros d Hl. revert d.
  induction Hl as [|a l Ha _ IH]; intros d; simpl; [constructor|].
  destruct d as [|[] d]; simpl; auto.
Qed.

Lemma count_filter_map {A} (f : A -> bool) (l : list A) :
  length (filter (fun b : bool => b) (map f l)) = length (filter f l).
Proof.
  induction l as [|a l IH]; simpl; [reflexivity|].
  destruct (f a); simpl; auto.
Qed.

Section WithInput.
Variables (scores : tensor F) (target : tensor Z)
          (mask : option (tensor bool)) (lead : list nat) (C : nat).
Hypothesis Hin : lsnl_input scores target lead C.
Hypothesis HC : 2 <= C.
Hypothesis Hmask :
  match mask with Some m => mask_ok m lead | None => True end.

Lemma selected_rows_length :
  length (selected mask (rows scores))
  = length (selected mask (data target)).
Proof.
  apply selected_length.
  now rewrite (rows_lprobs Hin), chunks_length, (data_target_length Hin).
Qed.

Lemma selected_rows_uniform :
  Forall (fun r => length r = C) (selected mask (rows scores)).
Proof.
  apply selected_Forall. rewrite (rows_lprobs Hin).
  apply chunks_rows_length, (data_lprobs_length Hin).
Qed.

Lemma sel_input :
  lsnl_input (sel_scores scores target mask C) (sel_target target mask)
             [length (selected mask (data target))] C.
Proof.
  constructor; simpl; try reflexivity.
  - unfold tensor_wf, numel. simpl.
    rewrite (length_concat_uniform selected_rows_uniform).
    rewrite selected_rows_length. lia.
  - unfold tensor_wf, numel. simpl. lia.
  - apply selected_Forall, (in_target_range Hin).
Qed.

Lemma sel_positions :
  positions (log_softmax (sel_scores scores target mask C))
            (sel_target target mask)
  = ce_positions scores target mask.
Proof.
  rewrite (log_softmax_positions sel_input). unfold positions.
  rewrite <- combine_map_l.
  unfold rows, leading, sel_scores, ce_positions. simpl.
  rewrite Nat.mul_1_r, <- selected_rows_length.
  now rewrite (chunks_concat selected_rows_uniform).
Qed.
End WithInput.

(** Lines 49-53: selection by the mask, then the two reshapes. *)
Lemma select_and_reshape (scores : tensor F) (target : tensor Z)
    (mask : option (tensor bool)) (lead : list nat) (C : nat) :
  lsnl_input scores target lead C ->
  2 <= C ->
  match mask with Some m => mask_ok m lead | None => True end ->
  exists sc tg,
    match mask with
    | Some m =>
        s <- select_rows scores m ;;
        t <- select target m ;;
        Ok (s, t)
    | None => Ok (scores, target)
    end = Ok (sc, tg)
    /\ reshape_rows sc C = Ok (sel_scores scores target mask C)
    /\ flatten tg = sel_target target mask.
Proof.
  intros Hin HC Hmask.
  assert (Hmod : forall n, ((n * C) mod C =? 0) = true).
  { intros n. apply Nat.eqb_eq. now apply Nat.Div0.mod_mul. }
  pose proof (selected_rows_length mask Hin) as Hlen.
  unfold sel_scores, sel_target.
  destruct mask as [m|].
  - destruct Hmask as [Hs _].
    unfold select_rows, select. unfold leading.
    rewrite (in_lprobs_shape Hin), removelast_last, last_last.
    rewrite (in_target_shape Hin), Hs, shape_eqb_refl.
    cbn [bind]. do 2 eexists. split; [reflexivity|].
    unfold reshape_rows, flatten, numel. cbn [shape data].
    destruct C as [|c]; [lia|].
    simpl numel_of. rewrite !Nat.mul_1_r.
    rewrite Hmod, Nat.div_mul by lia.
    simpl selected in *. rewrite <- Hlen. split; reflexivity.
  - do 2 eexists. split; [reflexivity|].
    unfold reshape_rows, flatten, numel.
    rewrite (in_lprobs_shape Hin), numel_of_app.
    destruct C as [|c]; [lia|].
    rewrite Hmod, Nat.div_mul by lia.
    rewrite (in_target_shape Hin). simpl selected.
    rewrite (data_target_length Hin).
    rewrite (rows_lprobs Hin), concat_chunks
      by apply (data_lprobs_length Hin).
    split; reflexivity.
Qed.

(** With an [ignore_index], the call returns the summed loss over the
    number of selected targets that differ from it. *)
Lemma CrossEntropyLoss_forward_ok (self : loss_self F)
    (scores : tensor F) (target : tensor Z)
    (mask : option (tensor bool)) (lead : list nat) (C : nat) (ii : Z) :
  lsnl_input scores target lead C ->
  2 <= C ->
  match mask with Some m => mask_ok m lead | None => True end ->
  ignore_index self = Some ii ->
  let pos := ce_positions scores target mask in
  let nll_sum := fsum (map (nll_at (Some ii)) pos) in
  let loss_sum :=
    mix (label_smoothing self) C nll_sum
        (fsum (map (smooth_at (Some ii)) pos)) in
  let sample_size := of_Z (count_ne ii (selected mask (data target))) in
  exists logging_output,
    CrossEntropyLoss_forward self scores target mask
    = Ok (PyTensor (scalar_tensor (fdiv loss_sum sample_size)),
          logging_output)
    /\ dict_get logging_output "nll_loss_sum"
        = Some (PyTensor (scalar_tensor nll_sum))
    /\ dict_get logging_output "loss_sum"
        = Some (PyTensor (scalar_tensor loss_sum))
    /\ dict_get logging_output "ppl"
        = Some (PyTensor (scalar_tensor
                  (fexp (fdiv nll_sum sample_size))))
    /\ dict_get logging_output "sample_size"
        = Some (PyTensor (scalar_tensor sample_size)).
Proof.
  intros Hin HC Hmask Hii. cbv zeta.
  unfold CrossEntropyLoss_forward. rewrite Hii.
  cbn [ne_long_sum bind].
  rewrite (size_first_scores Hin), (size_last_lprobs Hin). cbn [bind].
  destruct (select_and_reshape mask Hin HC Hmask)
    as (sc & tg & E1 & E2 & E3).
  rewrite E1. cbn [bind]. rewrite E2. cbn [bind]. rewrite E3.
  rewrite (lsnl_reduced (log_softmax_input (sel_input mask Hin HC)))
    by lia.
  rewrite (sel_positions mask Hin HC). cbn [bind].
  unfold ne_mask. rewrite !count_filter_map.
  fold (count_ne ii (data (sel_target target mask))).
  fold (count_ne ii (data target)).
  cbn [sel_target data].
  eexists. split; [reflexivity|]. repeat split.
Qed.

(** Without an [ignore_index], line 45 raises before anything else. *)
Lemma CrossEntropyLoss_forward_None (self : loss_self F)
    (scores : tensor F) (target : tensor Z) (mask : option (tensor bool)) :
  ignore_index self = None ->
  CrossEntropyLoss_forward self scores target mask = Raise TypeError.
Proof.
  intros Hii. unfold CrossEntropyLoss_forward. now rewrite Hii.
Qed.
End CrossEntropyFacts.

(** C4.  [CrossEntropyLoss.forward] on a loss object whose
    [ignore_index] is None: line 45 calls [target.ne(None)] before the
    branch of lines 55-58 is reached, so the call raises a TypeError for
    every input instead of dividing by the number of selected targets. *)
Theorem CrossEntropyLoss_forward_without_ignore_index
    {F : Type} `{Scalar F} `{Transcendental F}
    (label_smoothing : F) (scores : tensor F) (target : tensor Z)
    (mask : option (tensor bool)) :
  CrossEntropyLoss_forward
    {| ignore_index := None; label_smoothing := label_smoothing |}
    scores target mask
  = Raise TypeError.
Proof.
  unfold CrossEntropyLoss_forward.
  cbn [ignore_index ne_long_sum].
  reflexivity.
Qed.

(** ** No smoothing *)

Section NoSmoothing.
Context {F : Type} `{Scalar F} `{Transcendental F} {EA : ExactArith F}.

Lemma loss_entries_no_smoothing (self : loss_self F) (scores : tensor F)
    (target : tensor Z) (C : nat) :
  label_smoothing self = fzero ->
  loss_entries self scores target C = nll_entries self scores target.
Proof.
  intros E. unfold loss_entries, nll_entries. rewrite E.
  apply map_ext. intros p. apply mix_no_smoothing.
Qed.
End NoSmoothing.

Section ZeroSmoothing.
Context {F : Type} `{Scalar F} `{Transcendental F}.

#[export] Instance ExactArith_ZeroSmoothing {EA : ExactArith F} :
  ZeroSmoothingArith F.
Proof.
  constructor; intros.
  - apply fdiv_0_l.
  - apply fsub_0_r.
  - apply fmul_1_l.
  - apply fadd_0_r.
Qed.

(** In exact arithmetic no smooth loss survives the factor zero. *)
Lemma exact_smooth_vanishes {EA : ExactArith F} (ignore_index : option Z)
    (ps : list (list F * Z)) :
  smooth_vanishes ignore_index ps /\ smooth_sum_vanishes ignore_index ps.
Proof.
  split.
  - apply Forall_forall. intros p _. apply fmul_0_l.
  - apply fmul_0_l.
Qed.

Context {ZS : ZeroSmoothingArith F}.

(** Line 33 at [epsilon = 0]: [1 * nll + 0 * smooth]. *)
Lemma mix_zero_smoothing (C : nat) (nll smooth : F) :
  2 <= C ->
  fmul fzero smooth = fzero ->
  mix fzero C nll smooth = nll.
Proof.
  intros HC Hs. unfold mix, eps_i_of.
  rewrite zs_fdiv by lia.
  now rewrite !zs_fsub, zs_fmul, Hs, zs_fadd.
Qed.

Lemma loss_entries_zero_smoothing (self : loss_self F)
    (scores : tensor F) (target : tensor Z) (C : nat) :
  2 <= C ->
  label_smoothing self = fzero ->
  smooth_vanishes (ignore_index self)
    (positions (log_softmax scores) target) ->
  loss_entries self scores target C = nll_entries self scores target.
Proof.
  intros HC E Hs. unfold loss_entries, nll_entries. rewrite E.
  apply map_ext_in. intros p Hp. apply mix_zero_smoothing; [exact HC|].
  unfold smooth_vanishes in Hs. rewrite Forall_forall in Hs.
  now apply Hs.
Qed.
End ZeroSmoothing.

(** C7.  With [epsilon = 0], [C >= 2] classes and a smooth loss that the
    factor zero annihilates ([0 * smooth_loss = 0], as for every finite
    smooth loss), [label_smoothed_nll_loss] returns its [nll_loss] as
    [loss] too, reduced or not and with or without an [ignore_index];
    and with [label_smoothing = 0] each loss class returns plain
    cross-entropy: Coord2Seq, RDM and StructAARDM return the (masked)
    mean of the (weighted) per-position nll losses, which is also the
    ["nll_loss"] they log, and CrossEntropyLoss returns the summed nll
    loss over its sample size and logs equal ["loss_sum"] and
    ["nll_loss_sum"]. *)
Theorem no_smoothing_loss_is_nll_loss
    {F : Type} `{Scalar F} `{Transcendental F} {ZS : ZeroSmoothingArith F}
    (lprobs : tensor F) (target : tensor Z) (lead : list nat) (C : nat)
    (ii : option Z) (reduce : bool) :
  lsnl_input lprobs target lead C ->
  2 <= C ->
  (if reduce
   then smooth_sum_vanishes ii (positions lprobs target)
   else smooth_vanishes ii (positions lprobs target)) ->
  let entries := map (nll_at ii) (positions lprobs target) in
  let nll_loss :=
    if reduce then scalar_tensor (fsum entries) else Tensor lead entries in
  label_smoothed_nll_loss lprobs target fzero ii reduce
  = Ok (nll_loss, nll_loss)
  /\
  (forall (self : loss_self F) (scores : tensor F)
          (label_mask : option (tensor bool))
          (weights : option (tensor F)),
     label_smoothing self = fzero ->
     seq_input scores target weights lead C ->
     numel target <> 0 ->
     match label_mask with Some m => mask_ok m lead | None => True end ->
     smooth_vanishes (ignore_index self)
       (positions (log_softmax scores) target) ->
     let plain := weigh weights (nll_entries self scores target) in
     (exists logging_output,
        Coord2SeqCrossEntropyLoss_forward self scores target label_mask
          None weights
        = Ok (final_mean self target label_mask plain, logging_output)
        /\ dict_get logging_output "nll_loss"
           = Some (final_mean self target label_mask plain))
     /\ (exists logging_output,
           RDMCrossEntropyLoss_forward self scores target label_mask
             weights false false
           = Ok (final_mean self target label_mask plain, logging_output)
           /\ dict_get logging_output "nll_loss"
              = Some (final_mean self target label_mask plain))
     /\ (exists logging_output,
           StructAARDMCrossEntropyLoss_forward self
             (Tensors scores target label_mask weights) false false
           = Ok (struct_final_mean self target lead label_mask plain,
                 logging_output)
           /\ dict_get logging_output "nll_loss"
              = Some (struct_final_mean self target lead label_mask
                        plain)))
  /\
  (forall (self : loss_self F) (scores : tensor F)
          (mask : option (tensor bool)) (pad : Z),
     label_smoothing self = fzero ->
     ignore_index self = Some pad ->
     lsnl_input scores target lead C ->
     match mask with Some m => mask_ok m lead | None => True end ->
     smooth_sum_vanishes (Some pad) (ce_positions scores target mask) ->
     let nll_sum :=
       fsum (map (nll_at (Some pad)) (ce_positions scores target mask)) in
     let sample_size :=
       of_Z (count_ne pad (selected mask (data target))) in
     exists logging_output,
       CrossEntropyLoss_forward self scores target mask
       = Ok (PyTensor (scalar_tensor (fdiv nll_sum sample_size)),
             logging_output)
       /\ dict_get logging_output "nll_loss_sum"
          = Some (PyTensor (scalar_tensor nll_sum))
       /\ dict_get logging_output "loss_sum"
          = Some (PyTensor (scalar_tensor nll_sum))).
Proof.
  intros Hin HC Hsmooth. cbv zeta. split; [|split].
  - destruct reduce.
    + rewrite (lsnl_reduced Hin) by lia.
      now rewrite mix_zero_smoothing.
    + rewrite (lsnl_unreduced Hin) by lia. do 3 f_equal.
      apply map_ext_in. intros p Hp.
      apply mix_zero_smoothing; [exact HC|].
      unfold smooth_vanishes in Hsmooth. rewrite Forall_forall in Hsmooth.
      now apply Hsmooth.
  - intros self scores label_mask weights Heps Hseq Hne Hm Hs.
    pose proof (loss_entries_zero_smoothing self scores target HC Heps Hs)
      as El.
    split; [|split].
    + destruct (@Coord2Seq_forward_ok _ _ _ self scores target weights
                  lead C Hseq Hne label_mask None)
        as (sr & nr & E).
      { now destruct label_mask. }
      cbv zeta in E.
      assert (Em : effective_mask label_mask None = label_mask)
        by now destruct label_mask.
      rewrite El, Em in E. rewrite E.
      eexists. split; reflexivity.
    + destruct (@RDM_forward_ok _ _ _ self scores target weights lead C
                  Hseq Hne label_mask false false Hm)
        as (lo & E & Hn & _); try discriminate.
      rewrite El in E. eauto.
    + assert (Hm' : match label_mask with
                    | Some m => struct_mask_ok m lead
                    | None => True
                    end).
      { destruct label_mask as [m|]; [left; apply Hm | exact I]. }
      destruct (@compute_ok _ _ _ self scores target weights lead C
                  Hseq Hne label_mask false false EmptyString Hm')
        as (lo & E & Hn & _); try discriminate.
      rewrite El in E.
      cbn [key_prefix String.length Nat.ltb Nat.leb String.append] in Hn.
      unfold StructAARDMCrossEntropyLoss_forward. rewrite E. cbn [bind].
      eauto.
  - intros self scores mask pad Heps Hii Hsc Hm Hs.
    destruct (@CrossEntropyLoss_forward_ok _ _ _ self scores target mask
                lead C pad Hsc HC Hm Hii)
      as (lo & E & Hn & Hl & _).
    cbv zeta in E, Hl.
    rewrite Heps, mix_zero_smoothing in E, Hl by assumption.
    eauto.
Qed.

Lemma no_smoothing_loss_is_nll_loss_witness :
  label_smoothed_nll_loss ex_scores ex_target 0%R (Some 1%Z) false
  = Ok (Tensor [2; 1]
          (map (nll_at (Some 1%Z)) (positions ex_scores ex_target)),
        Tensor [2; 1]
          (map (nll_at (Some 1%Z)) (positions ex_scores ex_target))).
Proof.
  refine (proj1 (@no_smoothing_loss_is_nll_loss R _ _ _ ex_scores ex_target
                   [2; 1] 2 (Some 1%Z) false ex_lsnl_input _ _)).
  - lia.
  - apply exact_smooth_vanishes.
Defined.

(** In IEEE arithmetic the identity fails on an infinite
    log-probability: the smooth loss is infinite, [0 * inf] is nan, and
    the returned [loss] is nan where [nll_loss] is [0.0]. *)
Lemma no_smoothing_fails_on_infinite_lprobs :
  lsnl_input float_lprobs float_target [1] 2
  /\ exists loss nll_loss,
       label_smoothed_nll_loss float_lprobs float_target fzero None true
       = Ok (scalar_tensor loss, scalar_tensor nll_loss)
       /\ PrimFloat.is_nan loss = true
       /\ PrimFloat.eqb nll_loss PrimFloat.zero = true
       /\ loss <> nll_loss.
Proof.
  split.
  - constructor; try reflexivity. repeat constructor; simpl; lia.
  - do 2 eexists. split; [vm_compute; reflexivity|].
    split; [reflexivity|]. split; [reflexivity|].
    intro E. apply (f_equal PrimFloat.is_nan) in E. vm_compute in E.
    discriminate.
Qed.

(** ** The guarded denominator of [StructAARDMCrossEntropyLoss] *)

Section Guard.
Context {F : Type} `{Scalar F} {EA : ExactArith F}.






End Guard.



(** ** Dict inputs of [StructAARDMCrossEntropyLoss.forward] *)

Section DictFacts.
Context {F : Type} `{Scalar F} `{Transcendental F}.

Lemma string_app_assoc (a b c : string) :
  ((a ++ b) ++ c = a ++ (b ++ c))%string.
Proof. induction a as [|x a IH]; simpl; [reflexivity|]. now rewrite IH. Qed.

Lemma key_prefix_nonempty (k suffix : string) :
  k <> EmptyString ->
  (key_prefix k ++ suffix = k ++ ("/" ++ suffix))%string.
Proof.
  intros Hk. unfold key_prefix. destruct k as [|c k]; [congruence|].
  cbn [String.length Nat.ltb Nat.leb]. apply string_app_assoc.
Qed.

Lemma pyadd_accumulated (xs : list F) (x : F) :
  pyadd (accumulated xs) (PyTensor (scalar_tensor x))
  = Ok (accumulated (xs ++ [x])).
Proof.
  destruct xs as [|a xs]; [reflexivity|].
  unfold accumulated. cbn [app].
  unfold running_sum. rewrite (fold_left_app fadd (a :: xs) [x]).
  reflexivity.
Qed.

Lemma struct_final_mean_scalar self target lead label_mask (l : list F) :
  exists x,
    struct_final_mean self target lead label_mask l
    = PyTensor (scalar_tensor x).
Proof. destruct label_mask; simpl; eauto. Qed.

Section WithDicts.
Variables (self : loss_self F) (cal_constant_loss watch_t1_t2_loss : bool)
          (target_dict : dict (tensor Z))
          (label_mask_dict : option (dict (option (tensor bool))))
          (weights_dict : option (dict (option (tensor F)))).

Let outcome :=
  key_outcome self cal_constant_loss watch_t1_t2_loss
              target_dict label_mask_dict weights_dict.
Let ready :=
  key_ready self cal_constant_loss watch_t1_t2_loss
            target_dict label_mask_dict weights_dict.
Let body :=
  loop_body self cal_constant_loss watch_t1_t2_loss
            target_dict label_mask_dict weights_dict.

Lemma ready_outcome item : ready item -> exists r, outcome item r.
Proof.
  intros (target & lm & w & lead & C & Et & El & Ew & Hseq & Hne & Hm
          & Hwatch & Hcal).
  destruct (@compute_ok _ _ _ self (snd item) target w lead C Hseq Hne
              lm cal_constant_loss watch_t1_t2_loss (fst item)
              Hm Hwatch Hcal)
    as (lo & E & _ & Eppl & Efl & Efn & Ess).
  destruct (struct_final_mean_scalar self target lead lm
              (weigh w (loss_entries self (snd item) target C)))
    as [x Ex].
  destruct (struct_final_mean_scalar self target lead lm
              (weigh w (nll_entries self (snd item) target)))
    as [y Ey].
  rewrite Ex, Ey in E.
  eexists {| kr_loss := x; kr_nll_loss := y; kr_logging_output := lo |}.
  exists target, lm, w. cbn [kr_loss kr_nll_loss kr_logging_output].
  repeat split; eauto.
Qed.

Lemma all_ready_outcomes items :
  Forall ready items -> exists rs, Forall2 outcome items rs.
Proof.
  induction 1 as [|item items Hr _ (rs & IH)].
  - exists []. constructor.
  - destruct (ready_outcome Hr) as [r Hr'].
    exists (r :: rs). now constructor.
Qed.

Lemma loop_body_outcome st item r xs ys :
  outcome item r ->
  losses st = accumulated xs ->
  nll_losses st = accumulated ys ->
  exists st',
    body st item = Ok st'
    /\ losses st' = accumulated (xs ++ [kr_loss r])
    /\ nll_losses st' = accumulated (ys ++ [kr_nll_loss r])
    /\ last_iter st' = Some (fst item, kr_logging_output r).
Proof.
  intros (target & lm & w & Et & El & Ew & Ec & _) Hx Hy.
  unfold body, loop_body. destruct item as [k scores]. simpl in *.
  rewrite Et, El, Ew. cbn [bind]. rewrite Ec. cbn [bind].
  rewrite Hx, Hy, !pyadd_accumulated. cbn [bind].
  eexists. split; [reflexivity|]. repeat split.
Qed.

Lemma loop_outcome items rs : forall st xs ys,
  Forall2 outcome items rs ->
  losses st = accumulated xs ->
  nll_losses st = accumulated ys ->
  exists st',
    for_each body st items = Ok st'
    /\ losses st' = accumulated (xs ++ map kr_loss rs)
    /\ nll_losses st' = accumulated (ys ++ map kr_nll_loss rs)
    /\ last_iter st'
       = match rev (combine items rs) with
         | (item, r) :: _ => Some (fst item, kr_logging_output r)
         | [] => last_iter st
         end.
Proof.
  intros st xs ys HF. revert st xs ys.
  induction HF as [|item r items rs Hr HF IH]; intros st xs ys Hx Hy.
  - exists st. simpl. rewrite !app_nil_r. auto.
  - edestruct loop_body_outcome as (st1 & E1 & Hx1 & Hy1 & Hl1);
      [exact Hr | exact Hx | exact Hy |].
    destruct (IH st1 _ _ Hx1 Hy1) as (st' & E' & Hx' & Hy' & Hl').
    exists st'. cbn [for_each]. rewrite E1. cbn [bind].
    split; [exact E'|].
    rewrite <- !app_assoc in Hx', Hy'. simpl in Hx', Hy'.
    split; [exact Hx'|]. split; [exact Hy'|].
    rewrite Hl'. cbn [combine rev].
    destruct (rev (combine items rs)) as [|[i' r'] tl] eqn:Er.
    + simpl. exact Hl1.
    + reflexivity.
Qed.
End WithDicts.
End DictFacts.

Lemma combine_snoc {A B} (l : list A) (l' : list B) (a : A) (b : B) :
  length l = length l' ->
  combine (l ++ [a]) (l' ++ [b]) = combine l l' ++ [(a, b)].
Proof.
  revert l'. induction l as [|x l IH]; intros [|y l'] E; simpl in *;
    try discriminate; [reflexivity|].
  now rewrite IH by lia.
Qed.

Lemma accumulated_snoc {F : Type} `{Scalar F} (xs : list F) (x : F) :
  accumulated (xs ++ [x])
  = PyTensor (scalar_tensor (running_sum (xs ++ [x]))).
Proof. now destruct xs. Qed.

(** C9.  With dict inputs, over a non-empty [scores_dict] whose last key
    is [k]: the returned loss is the sum of the per-key losses divided by
    the number of keys, the logged ["nll_loss"] is the same mean of the
    per-key nll losses, and the logged ["sample_size"],
    ["fullseq_loss"], ["fullseq_nll_loss"] and ["ppl"] are the entries
    [compute] logged for [k], the last key iterated. *)
Theorem struct_dict_losses_are_averaged
    {F : Type} `{Scalar F} `{Transcendental F}
    (self : loss_self F) (cal_constant_loss watch_t1_t2_loss : bool)
    (front : dict (tensor F)) (k : string) (scores : tensor F)
    (target_dict : dict (tensor Z))
    (label_mask_dict : option (dict (option (tensor bool))))
    (weights_dict : option (dict (option (tensor F)))) :
  let scores_dict := front ++ [(k, scores)] in
  Forall (key_ready self cal_constant_loss watch_t1_t2_loss
            target_dict label_mask_dict weights_dict) scores_dict ->
  k <> EmptyString ->
  exists rs r logging_output_dict,
    Forall2 (key_outcome self cal_constant_loss watch_t1_t2_loss
               target_dict label_mask_dict weights_dict)
            scores_dict (rs ++ [r])
    /\ StructAARDMCrossEntropyLoss_forward self
         (Dicts scores_dict target_dict label_mask_dict weights_dict)
         cal_constant_loss watch_t1_t2_loss
       = Ok (mean_over_keys (map kr_loss (rs ++ [r])), logging_output_dict)
    /\ dict_get logging_output_dict "nll_loss"
       = Some (mean_over_keys (map kr_nll_loss (rs ++ [r])))
    /\ dict_get logging_output_dict "sample_size" = Some (kr_sample_size r)
    /\ dict_get logging_output_dict "fullseq_loss"
       = Some (kr_fullseq_loss r)
    /\ dict_get logging_output_dict "fullseq_nll_loss"
       = Some (kr_fullseq_nll_loss r)
    /\ dict_get logging_output_dict "ppl" = Some (kr_ppl r).
Proof.
  intros scores_dict Hready Hk.
  destruct (all_ready_outcomes Hready) as (rs0 & HF).
  destruct (Forall2_app_inv_l _ _ HF) as (rs & lr & Hfront & Hlast & ->).
  inversion Hlast as [|x r l lr' Hr Hnil]; subst.
  inversion Hnil; subst. clear Hlast Hnil.
  exists rs, r.
  pose proof (Forall2_length Hfront) as Hlen.
  set (init := {| losses := PyInt 0; nll_losses := PyInt 0;
                  logging_output_dict := []; last_iter := None |}
               : @loop_state F).
  edestruct (@loop_outcome _ _ _ self cal_constant_loss watch_t1_t2_loss
               target_dict label_mask_dict weights_dict
               scores_dict (rs ++ [r]) init [] [] HF)
    as (st & Eloop & Hx & Hy & Hl); try reflexivity.
  unfold scores_dict in Hl. rewrite combine_snoc, rev_unit in Hl by exact Hlen.
  cbn [fst app] in Hx, Hy, Hl.
  destruct Hr as (target & lm & w & _ & _ & _ & _ & Ess & Efl & Efn & Eppl).
  cbn [fst] in Ess, Efl, Efn, Eppl.
  rewrite key_prefix_nonempty in Ess, Efl, Efn, Eppl by exact Hk.
  cbn [String.append] in Ess, Efl, Efn, Eppl.
  unfold StructAARDMCrossEntropyLoss_forward.
  fold init. fold scores_dict. rewrite Eloop. cbn [bind]. rewrite Hl.
  unfold getitem. rewrite Ess, Efl, Efn, Eppl. cbn [bind].
  rewrite Hx, Hy, !map_app. cbn [map]. rewrite !accumulated_snoc.
  cbn [truediv bind].
  assert (En : length scores_dict = length (map kr_loss rs ++ [kr_loss r])).
  { unfold scores_dict. rewrite !length_app, length_map. simpl. lia. }
  assert (En' : length scores_dict
                = length (map kr_nll_loss rs ++ [kr_nll_loss r])).
  { unfold scores_dict. rewrite !length_app, length_map. simpl. lia. }
  eexists. split; [exact HF|]. split.
  - unfold mean_over_keys. rewrite <- En. reflexivity.
  - unfold mean_over_keys. rewrite <- En'.
    repeat split; rewrite !dict_get_set; reflexivity.
Qed.

Lemma struct_dict_losses_are_averaged_witness :
  exists loss logging_output_dict,
    StructAARDMCrossEntropyLoss_forward ex_self
      (Dicts (ex_scores_dict_front ++ [("struct"%string, ex_scores)])
             ex_target_dict ex_label_mask_dict ex_weights_dict)
      false false
    = Ok (loss, logging_output_dict).
Proof.
  destruct (@struct_dict_losses_are_averaged R _ _ ex_self false false
              ex_scores_dict_front "struct" ex_scores
              ex_target_dict ex_label_mask_dict ex_weights_dict)
    as (rs & r & lo & _ & E & _).
  - repeat constructor.
    + exists ex_target, (Some ex_mask), (Some ex_weights), [2; 1], 2.
      do 3 (split; [reflexivity|]).
      split; [apply ex_seq_input; now right|].
      split; [discriminate|].
      split; [left; reflexivity|].
      split; discriminate.
    + exists ex_target, None, None, [2; 1], 2.
      do 3 (split; [reflexivity|]).
      split; [apply ex_seq_input; now left|].
      split; [discriminate|].
      split; [exact I|].
      split; discriminate.
  - discriminate.
  - eauto.
Defined.

(** ** The alpha-carbon reader *)

Section ReaderFacts.
Variables (Fl file : Type) (parse_pdb : file -> result (PDB.Structure Fl)).

Let env := PDB.env Fl file.

Lemma with_records_nil (e : env) : with_records e [] = e.
Proof. destruct e. unfold with_records. simpl. now rewrite app_nil_r. Qed.

Lemma with_records_app (e : env) rs rs' :
  with_records (with_records e rs) rs' = with_records e (rs ++ rs').
Proof. unfold with_records. simpl. now rewrite app_assoc. Qed.

(** One residue: a record when it has a ['CA'] atom, nothing (and no
    exception) otherwise. *)
Lemma visit_spec (c : PDB.Chain Fl) (residue : PDB.Residue Fl) (e : env) :
  PDB.visit c residue e
  = (Ok tt, with_records e (PDB.ca_record c residue)).
Proof.
  unfold PDB.visit, PDB.try_except_KeyError, PDB.mbind, PDB.lift,
    PDB.ca_record, getitem.
  destruct (dict_get (PDB.child_dict residue) "CA") as [ca_atom|].
  - reflexivity.
  - unfold PDB.ret. now rewrite with_records_nil.
Qed.

(** A loop whose body only appends records appends their
    concatenation. *)
Lemma for_spec {A} (body : A -> PDB.M Fl file unit)
    (records : A -> list (PDB.res_info Fl)) (l : list A) :
  (forall a e, body a e = (Ok tt, with_records e (records a))) ->
  forall e,
    PDB.for_ l body e = (Ok tt, with_records e (flat_map records l)).
Proof.
  intros Hbody. induction l as [|a l IH]; intros e; simpl.
  - unfold PDB.ret. now rewrite with_records_nil.
  - unfold PDB.mbind. rewrite Hbody, IH.
    now rewrite with_records_app.
Qed.

Lemma loops_spec (s : PDB.Structure Fl) (e : env) :
  PDB.for_ s (fun model =>
    PDB.for_ (PDB.chains model) (fun c =>
      PDB.for_ (PDB.residues c) (fun residue => PDB.visit c residue))) e
  = (Ok tt, with_records e (PDB.ca_records s)).
Proof.
  unfold PDB.ca_records.
  apply for_spec with
    (records := fun model =>
       flat_map (fun c => flat_map (PDB.ca_record c) (PDB.residues c))
                (PDB.chains model)).
  intros model e'.
  apply for_spec with
    (records := fun c => flat_map (PDB.ca_record c) (PDB.residues c)).
  intros c e''.
  apply for_spec with (records := PDB.ca_record c).
  intros residue e3. apply visit_spec.
Qed.

(** The whole call, when the file parses to [s]. *)
Lemma get_alpha_carbon_info_run (pdb_file : string) (e : env)
    (f : file) (s : PDB.Structure Fl) :
  dict_get (PDB.files e) pdb_file = Some f ->
  parse_pdb f = Ok s ->
  PDB.get_alpha_carbon_info parse_pdb pdb_file e
  = (Ok (PDB.ca_records s),
     {| PDB.files := PDB.files e;
        PDB.structure := Some s;
        PDB.residues_info := PDB.ca_records s |}).
Proof.
  intros Ef Es.
  unfold PDB.get_alpha_carbon_info, PDB.mbind at 1, PDB.get_structure.
  rewrite Ef, Es.
  unfold PDB.mbind at 1, PDB.new_list.
  unfold PDB.mbind. rewrite loops_spec. reflexivity.
Qed.

Lemma ca_record_count (c : PDB.Chain Fl) (l : list (PDB.Residue Fl)) :
  length (flat_map (PDB.ca_record c) l)
  = length (filter (@PDB.has_ca Fl) l).
Proof.
  induction l as [|r l IH]; simpl; [reflexivity|].
  rewrite length_app, IH. unfold PDB.ca_record, PDB.has_ca.
  now destruct (dict_get (PDB.child_dict r) "CA").
Qed.

Lemma ca_records_count (s : PDB.Structure Fl) :
  length (PDB.ca_records s)
  = length (filter (@PDB.has_ca Fl) (PDB.all_residues s)).
Proof.
  unfold PDB.ca_records, PDB.all_residues.
  induction s as [|model s IH]; simpl; [reflexivity|].
  rewrite filter_app, !length_app, IH. f_equal.
  induction (PDB.chains model) as [|c cs IHc]; simpl; [reflexivity|].
  now rewrite filter_app, !length_app, IHc, ca_record_count.
Qed.
End ReaderFacts.

(** C3.  For a file that parses to the structure [s], the reader returns
    (and does not raise) the records of [s] in file order: one per
    residue that has a ['CA'] atom, made of the chain id, the residue
    name, the residue number, the CA coordinates and the CA b-factor as
    [plddt]; a residue without a ['CA'] atom contributes nothing. *)
Theorem get_alpha_carbon_info_records
    (Fl file : Type) (parse_pdb : file -> result (PDB.Structure Fl))
    (pdb_file : string) (e : PDB.env Fl file)
    (f : file) (s : PDB.Structure Fl) :
  dict_get (PDB.files e) pdb_file = Some f ->
  parse_pdb f = Ok s ->
  fst (PDB.get_alpha_carbon_info parse_pdb pdb_file e)
  = Ok (PDB.ca_records s)
  /\ length (PDB.ca_records s)
     = length (filter (@PDB.has_ca Fl) (PDB.all_residues s))
  /\ (forall (c : PDB.Chain Fl) (residue : PDB.Residue Fl),
        PDB.has_ca residue = false -> PDB.ca_record c residue = [])
  /\ (forall (c : PDB.Chain Fl) (residue : PDB.Residue Fl) ca_atom,
        dict_get (PDB.child_dict residue) "CA" = Some ca_atom ->
        PDB.ca_record c residue
        = [{| PDB.chain := PDB.chain_id c;
              PDB.resname := PDB.get_resname residue;
              PDB.resnum := snd (fst (PDB.id residue));
              PDB.ca_coord := PDB.get_coord ca_atom;
              PDB.plddt := PDB.get_bfactor ca_atom |}]).
Proof.
  intros Ef Es. split; [|split; [|split]].
  - now rewrite (get_alpha_carbon_info_run parse_pdb pdb_file e Ef Es).
  - apply ca_records_count.
  - intros c residue. unfold PDB.has_ca, PDB.ca_record.
    now destruct (dict_get (PDB.child_dict residue) "CA").
  - intros c residue ca_atom E. unfold PDB.ca_record. now rewrite E.
Qed.

Lemma get_alpha_carbon_info_records_witness :
  fst (PDB.get_alpha_carbon_info (fun _ : string => Ok ex_structure)
         "model.pdb"%string ex_env)
  = Ok [{| PDB.chain := "A"; PDB.resname := "GLY"; PDB.resnum := 1%Z;
           PDB.ca_coord := [4; 5; 6]%Z; PDB.plddt := 91%Z |}]%string.
Proof.
  refine (proj1 (@get_alpha_carbon_info_records Z string
                   (fun _ => Ok ex_structure) "model.pdb"%string ex_env
                   "ATOM"%string ex_structure _ _)); reflexivity.
Defined.

(** ** The operations the reader performs *)

Section OpsFacts.
Variables (Fl file : Type).

Let env := PDB.env Fl file.
Let prog := PDBOps.prog Fl file.

(** Running a sequence: the first part, then the rest on its value. *)
Lemma run_seq (h : PDBOps.handler Fl file) {A B} (p : prog A)
    (k : A -> prog B) :
  forall w : env,
    PDBOps.run h (PDBOps.seq p k) w
    = match PDBOps.run h p w with
      | (Ok a, w') => PDBOps.run h (k a) w'
      | (Raise e, w') => (Raise e, w')
      end.
Proof.
  revert B k. induction p as [A a | X A o k' IH | A body _ handler _ k' IH];
    intros B k w; simpl.
  - reflexivity.
  - destruct (h X o w) as [[x|e] w']; [apply IH | reflexivity].
  - destruct (PDBOps.run h body w) as [[u|e] w'].
    + apply IH.
    + destruct e; try reflexivity.
      destruct (PDBOps.run h handler w') as [[u|e] w''];
        [apply IH | reflexivity].
Qed.

(** A loop of the program runs as the loop of the embedding [PDB]. *)
Lemma run_for (h : PDBOps.handler Fl file) {A} (l : list A)
    (body : A -> prog unit) (body' : A -> PDB.M Fl file unit) :
  (forall a w, PDBOps.run h (body a) w = body' a w) ->
  forall w : env, PDBOps.run h (PDBOps.for_ l body) w = PDB.for_ l body' w.
Proof.
  intros Hbody. induction l as [|a l IH]; intros w; simpl.
  - reflexivity.
  - rewrite run_seq, Hbody. unfold PDB.mbind.
    destruct (body' a w) as [[u|e] w']; [apply IH | reflexivity].
Qed.

Lemma all_ops_seq (P : forall X, PDBOps.op Fl file X -> Prop) {A B}
    (p : prog A) (k : A -> prog B) :
  PDBOps.all_ops P p -> (forall a, PDBOps.all_ops P (k a)) ->
  PDBOps.all_ops P (PDBOps.seq p k).
Proof.
  intros Hp Hk. revert B k Hk.
  induction p as [A a | X A o k' IH | A body _ handler _ k' IH];
    intros B k Hk; simpl in *.
  - apply Hk.
  - destruct Hp as [Ho Hk']. split; [exact Ho|].
    intros x. apply IH; [apply Hk' | exact Hk].
  - destruct Hp as (Hb & Hh & Hk'). repeat split; try assumption.
    apply IH; assumption.
Qed.

Lemma all_ops_for (P : forall X, PDBOps.op Fl file X -> Prop) {A}
    (l : list A) (body : A -> prog unit) :
  (forall a, PDBOps.all_ops P (body a)) ->
  PDBOps.all_ops P (PDBOps.for_ l body).
Proof.
  intros Hbody. induction l as [|a l IH]; simpl; [exact I|].
  apply all_ops_seq; [apply Hbody | intros _; exact IH].
Qed.

(** A part of the world that every operation of a program preserves is
    preserved by the program. *)
Lemma run_preserves (h : PDBOps.handler Fl file) {T}
    (part : env -> T) (P : forall X, PDBOps.op Fl file X -> Prop) :
  (forall X (o : PDBOps.op Fl file X) w,
     P X o -> part (snd (h X o w)) = part w) ->
  forall {A} (p : prog A) (w : env),
    PDBOps.all_ops P p -> part (snd (PDBOps.run h p w)) = part w.
Proof.
  intros Hop A p.
  induction p as [A a | X A o k IH | A body IHb handler IHh k IHk];
    intros w Hp; simpl in *.
  - reflexivity.
  - destruct Hp as [Ho Hk]. specialize (Hop X o w Ho).
    destruct (h X o w) as [[x|e] w']; simpl in *.
    + rewrite IH by apply Hk. exact Hop.
    + exact Hop.
  - destruct Hp as (Hb & Hh & Hk).
    specialize (IHb w Hb).
    destruct (PDBOps.run h body w) as [[u|e] w']; simpl in *.
    + rewrite IHk by exact Hk. exact IHb.
    + assert (Hcatch :
        part (snd match PDBOps.run h handler w' with
                  | (Ok _, w'') => PDBOps.run h k w''
                  | (Raise e', w'') => (Raise e', w'')
                  end) = part w).
      { specialize (IHh w' Hh).
        destruct (PDBOps.run h handler w') as [[u|e'] w'']; simpl in *.
        - rewrite IHk by exact Hk. congruence.
        - congruence. }
      destruct e; simpl; try exact IHb. exact Hcatch.
Qed.

(** No operation of the reader is a write; after the parse, none is a
    parse either. *)
Lemma visit_reads (c : PDB.Chain Fl) (residue : PDB.Residue Fl) :
  PDBOps.all_ops
    (fun X o => PDBOps.writes o = false /\ PDBOps.parses o = false)
    (PDBOps.visit file c residue).
Proof. simpl. repeat split. Qed.

Lemma loops_read (s : PDB.Structure Fl) :
  PDBOps.all_ops
    (fun X o => PDBOps.writes o = false /\ PDBOps.parses o = false)
    (PDBOps.Do (PDBOps.iter_structure file s) (fun models =>
     PDBOps.for_ models (fun model =>
     PDBOps.Do (PDBOps.iter_model file model) (fun cs =>
     PDBOps.for_ cs (fun c =>
     PDBOps.Do (PDBOps.iter_chain file c) (fun rs =>
     PDBOps.for_ rs (fun residue => PDBOps.visit file c residue))))))).
Proof.
  simpl. split; [split; reflexivity|]. intros models.
  apply all_ops_for. intros model. simpl.
  split; [split; reflexivity|]. intros cs.
  apply all_ops_for. intros c. simpl.
  split; [split; reflexivity|]. intros rs.
  apply all_ops_for. intros residue. apply visit_reads.
Qed.

Lemma all_ops_weaken (P Q : forall X, PDBOps.op Fl file X -> Prop) {A}
    (p : prog A) :
  (forall X o, P X o -> Q X o) ->
  PDBOps.all_ops P p -> PDBOps.all_ops Q p.
Proof.
  intros HPQ.
  induction p as [A a | X A o k IH | A body IHb handler IHh k IHk];
    simpl.
  - auto.
  - intros [Ho Hk]. split; [now apply HPQ|]. intros x. now apply IH.
  - intros (Hb & Hh & Hk). auto.
Qed.

Section WithLibrary.
Variable parse_pdb : file -> result (PDB.Structure Fl).

Let lib := PDBOps.library parse_pdb.

(** The library of the embedding [PDB] answers reads purely. *)
Lemma library_reads_are_pure : PDBOps.reads_are_pure lib.
Proof.
  split.
  - intros X o w Hw. destruct o; try discriminate Hw; try reflexivity.
    simpl. unfold PDB.get_structure.
    destruct (dict_get (PDB.files w) pdb_file) as [f|]; [|reflexivity].
    now destruct (parse_pdb f).
  - intros X o w Hw Hp.
    destruct o; try discriminate Hw; try discriminate Hp; reflexivity.
Qed.

Lemma run_visit (c : PDB.Chain Fl) (residue : PDB.Residue Fl) (w : env) :
  PDBOps.run lib (PDBOps.visit file c residue) w = PDB.visit c residue w.
Proof.
  unfold PDBOps.visit, PDB.visit, PDB.try_except_KeyError, PDB.mbind,
    PDB.lift, PDB.ret, getitem.
  simpl. unfold getitem.
  destruct (dict_get (PDB.child_dict residue) "CA") as [ca_atom|];
    reflexivity.
Qed.

(** The program, answered by that library, is the function of the
    embedding [PDB]. *)
Lemma run_get_alpha_carbon_info (pdb_file : string) (w : env) :
  PDBOps.run lib (PDBOps.get_alpha_carbon_info Fl file pdb_file) w
  = PDB.get_alpha_carbon_info parse_pdb pdb_file w.
Proof.
  unfold PDBOps.get_alpha_carbon_info, PDB.get_alpha_carbon_info.
  cbn [PDBOps.run]. unfold lib at 1 2. cbn [PDBOps.library].
  unfold PDB.mbind at 1.
  destruct (PDB.get_structure parse_pdb pdb_file w) as [[s|e] w'];
    [|reflexivity].
  cbn [PDBOps.run]. unfold lib at 1. cbn [PDBOps.library].
  unfold PDB.mbind at 1. cbn [PDB.new_list].
  rewrite run_seq. cbn [PDBOps.run]. unfold lib at 1.
  cbn [PDBOps.library].
  rewrite run_for with
    (body' := fun model =>
       PDB.for_ (PDB.chains model) (fun c =>
         PDB.for_ (PDB.residues c) (fun residue => PDB.visit c residue))).
  - unfold PDB.mbind.
    match goal with
    | |- context [PDB.for_ s ?body ?w0] =>
        destruct (PDB.for_ s body w0) as [[u|e] w'']
    end; reflexivity.
  - intros model w1. cbn [PDBOps.run]. unfold lib at 1.
    cbn [PDBOps.library].
    apply run_for. intros c w2. cbn [PDBOps.run]. unfold lib at 1.
    cbn [PDBOps.library].
    apply run_for. intros residue w3. apply run_visit.
Qed.
End WithLibrary.
End OpsFacts.

(** C6.  The reader performs no write: every operation its text can
    reach is the library's parse, an iteration, the lookup
    [residue['CA']], an accessor, or an operation on its own list; none
    writes a file, assigns into the parsed structure or prints.  Hence,
    whatever library answers these operations without writing, the
    files are after the call what they were before, and the parsed
    structure is what the parse call left; and the value returned is the
    list the function built, nothing else being output. *)
Theorem get_alpha_carbon_info_read_only
    (Fl file : Type) (h : PDBOps.handler Fl file)
    (parse_pdb : file -> result (PDB.Structure Fl))
    (pdb_file : string) (w : PDB.env Fl file) :
  PDBOps.reads_are_pure h ->
  let program := PDBOps.get_alpha_carbon_info Fl file pdb_file in
  let after := snd (PDBOps.run h program w) in
  let parsed :=
    snd (h _ (PDBOps.get_structure Fl file pdb_file)
           (snd (h _ (PDBOps.PDBParser Fl file) w))) in
  PDBOps.all_ops (fun X o => PDBOps.writes o = false) program
  /\ PDB.files after = PDB.files w
  /\ (PDB.structure after = PDB.structure w
      \/ PDB.structure after = PDB.structure parsed)
  /\ PDBOps.run (PDBOps.library parse_pdb) program w
     = PDB.get_alpha_carbon_info parse_pdb pdb_file w
  /\ (forall records,
        fst (PDBOps.run (PDBOps.library parse_pdb) program w) = Ok records ->
        records
        = PDB.residues_info
            (snd (PDBOps.run (PDBOps.library parse_pdb) program w))).
Proof.
  intros [Hfiles Hstruct]. cbv zeta.
  assert (Hrest : forall s : PDB.Structure Fl,
    PDBOps.all_ops
      (fun X o => PDBOps.writes o = false /\ PDBOps.parses o = false)
      (PDBOps.Do (PDBOps.new_list Fl file) (fun _ =>
       PDBOps.seq
         (PDBOps.Do (PDBOps.iter_structure file s) (fun models =>
          PDBOps.for_ models (fun model =>
          PDBOps.Do (PDBOps.iter_model file model) (fun cs =>
          PDBOps.for_ cs (fun c =>
          PDBOps.Do (PDBOps.iter_chain file c) (fun rs =>
          PDBOps.for_ rs (fun residue =>
            PDBOps.visit file c residue)))))))
         (fun _ => PDBOps.Do (PDBOps.read_list Fl file)
                     (fun l => @PDBOps.Ret Fl file _ l))))).
  { intros s. split; [split; reflexivity|]. intros _.
    apply all_ops_seq; [apply loops_read|].
    intros _. simpl. repeat split. }
  assert (Hprog :
    PDBOps.all_ops (fun X o => PDBOps.writes o = false)
      (PDBOps.get_alpha_carbon_info Fl file pdb_file)).
  { unfold PDBOps.get_alpha_carbon_info.
    split; [reflexivity|]. intros _.
    split; [reflexivity|]. intros s.
    apply all_ops_weaken with (2 := Hrest s). now intros X o [Ho _]. }
  split; [exact Hprog|]. split; [|split; [|split]].
  - apply run_preserves with (P := fun X o => PDBOps.writes o = false);
      [exact Hfiles | exact Hprog].
  - unfold PDBOps.get_alpha_carbon_info. cbn [PDBOps.run].
    pose proof (Hstruct _ (PDBOps.PDBParser Fl file) w eq_refl eq_refl)
      as H1.
    destruct (h unit (PDBOps.PDBParser Fl file) w) as [[u|e] w1];
      cbn [snd] in H1 |- *; [|now left].
    destruct (h _ (PDBOps.get_structure Fl file pdb_file) w1)
      as [[s|e] w2]; cbn [snd]; [|now right].
    right.
    apply run_preserves with
      (part := @PDB.structure Fl file)
      (P := fun X o => PDBOps.writes o = false
                       /\ PDBOps.parses o = false)
      (p := PDBOps.Do (PDBOps.new_list Fl file) _);
      [|apply Hrest].
    intros X o w0 [Ho Hp]. now apply Hstruct.
  - apply run_get_alpha_carbon_info.
  - intros records. rewrite run_get_alpha_carbon_info.
    destruct (dict_get (PDB.files w) pdb_file) as [f|] eqn:Ef.
    + destruct (parse_pdb f) as [s|err] eqn:Es.
      * rewrite (get_alpha_carbon_info_run parse_pdb pdb_file w Ef Es).
        simpl. intros E. now injection E as <-.
      * unfold PDB.get_alpha_carbon_info, PDB.mbind, PDB.get_structure.
        rewrite Ef, Es. discriminate.
    + unfold PDB.get_alpha_carbon_info, PDB.mbind, PDB.get_structure.
      rewrite Ef. discriminate.
Qed.

Lemma get_alpha_carbon_info_read_only_witness :
  let after :=
    snd (PDBOps.run (PDBOps.library (fun _ : string => Ok ex_structure))
           (PDBOps.get_alpha_carbon_info Z string "model.pdb") ex_env) in
  PDB.files after = PDB.files ex_env
  /\ PDB.structure after = Some ex_structure.
Proof.
  destruct (@get_alpha_carbon_info_read_only Z string
              (PDBOps.library (fun _ : string => Ok ex_structure))
              (fun _ : string => Ok ex_structure) "model.pdb"%string
              ex_env
              (library_reads_are_pure (fun _ : string => Ok ex_structure)))
    as (_ & Hfiles & _).
  split; [exact Hfiles | reflexivity].
Defined.

(** * Further properties of the code *)

(** ** [label_smoothed_nll_loss]: bounds, one class, shapes *)

Section LsnlEdges.
Context {F : Type} `{Scalar F}.

(** [gather] stops at the first row whose index is no class. *)
Lemma gather_rows_raise (C : nat) (rs : list (list F)) (ts : list Z) :
  Forall (fun r => length r = C) rs ->
  length rs = length ts ->
  Exists (fun t => ~ (0 <= t < Z.of_nat C)%Z) ts ->
  mapM (fun p => mapM (index_row (fst p)) (snd p))
       (combine rs (map (fun t => [t]) ts))
  = Raise IndexOutOfBounds.
Proof.
  intros Hrs. revert ts.
  induction Hrs as [|r rs Hr _ IH]; intros [|t ts] Hlen Hex;
    simpl in Hlen; try discriminate.
  - inversion Hex.
  - cbn [map combine mapM fst snd]. unfold index_row at 1. rewrite Hr.
    destruct (Z.leb_spec 0 t) as [H0|H0];
      destruct (Z.ltb_spec t (Z.of_nat C)) as [H1|H1];
      cbn [andb bind]; try reflexivity.
    rewrite IH; [reflexivity | lia |].
    inversion Hex as [? ? Hbad | ? ? Htl]; subst; [|assumption].
    exfalso. apply Hbad. lia.
Qed.
End LsnlEdges.

(** X1.  [label_smoothed_nll_loss] gathers before it masks: on inputs of
    matching shapes, a target entry outside [0, C) makes the call raise
    (torch's index-out-of-bounds error), whatever [ignore_index] and
    [reduce] are; so a padding index that is no class cannot be used,
    even though its positions would be zeroed later. *)
Theorem label_smoothed_nll_loss_index_out_of_bounds
    {F : Type} `{Scalar F} (lprobs : tensor F) (target : tensor Z)
    (lead : list nat) (C : nat) (epsilon : F) (ignore_index : option Z)
    (reduce : bool) :
  shape lprobs = lead ++ [C] ->
  shape target = lead ->
  tensor_wf lprobs ->
  tensor_wf target ->
  Exists (fun t => ~ (0 <= t < Z.of_nat C)%Z) (data target) ->
  label_smoothed_nll_loss lprobs target epsilon ignore_index reduce
  = Raise IndexOutOfBounds.
Proof.
  intros Hl Ht Hwl Hwt Hex. unfold label_smoothed_nll_loss.
  assert (Hflag : (S (dim target) =? dim lprobs) = true).
  { unfold dim. rewrite Hl, Ht, length_app. apply Nat.eqb_eq. simpl. lia. }
  rewrite Hflag. unfold gather.
  assert (Hcons : exists n s, shape lprobs = n :: s).
  { rewrite Hl. destruct lead; simpl; eauto. }
  destruct Hcons as (n & s & ->).
  unfold leading, dim, unsqueeze. cbn [shape data].
  rewrite Ht, Hl, !removelast_last, shape_eqb_refl, !length_app,
    Nat.eqb_refl.
  cbn [andb].
  assert (Hlen : length (data target) = numel_of lead).
  { rewrite Hwt. unfold numel. now rewrite Ht. }
  assert (Er : rows (Tensor (lead ++ [1]) (data target))
               = map (fun t => [t]) (data target)).
  { unfold rows, leading. cbn [shape data].
    rewrite removelast_last, last_last, <- Hlen.
    apply chunks_singletons. }
  rewrite Er. unfold rows, leading. rewrite Hl, removelast_last, last_last.
  rewrite (@gather_rows_raise F _ C); [reflexivity | | | exact Hex].
  - apply chunks_rows_length. rewrite Hwl. unfold numel.
    rewrite Hl. apply numel_of_app.
  - now rewrite chunks_length.
Qed.

Lemma label_smoothed_nll_loss_index_out_of_bounds_witness :
  label_smoothed_nll_loss example_lprobs example_padded_target (qc 1 10)
    (Some (-100)%Z) false
  = Raise IndexOutOfBounds.
Proof.
  apply (@label_smoothed_nll_loss_index_out_of_bounds Qc _
           example_lprobs example_padded_target [2] 2);
    try reflexivity.
  apply Exists_cons_tl, Exists_cons_hd. lia.
Defined.

(** X2.  With a single class the call raises ZeroDivisionError for
    every [epsilon], zero included: line 32 divides the Python float
    [epsilon] by [lprobs.size(-1) - 1 = 0]. *)
Theorem label_smoothed_nll_loss_one_class
    {F : Type} `{Scalar F} (lprobs : tensor F) (target : tensor Z)
    (lead : list nat) (epsilon : F) (ignore_index : option Z)
    (reduce : bool) :
  lsnl_input lprobs target lead 1 ->
  label_smoothed_nll_loss lprobs target epsilon ignore_index reduce
  = Raise ZeroDivisionError.
Proof.
  intros Hin. unfold label_smoothed_nll_loss.
  rewrite (flag_true Hin), (gather_positions Hin),
    (sum_last_positions Hin).
  cbn [bind]. unfold tneg, tmap. cbn [shape data]. rewrite !map_map.
  destruct ignore_index as [ii|].
  - rewrite !(masked_fill_positions Hin). cbn [bind].
    rewrite (size_last_lprobs Hin). reflexivity.
  - cbn [bind]. rewrite (size_last_lprobs Hin). reflexivity.
Qed.

Lemma label_smoothed_nll_loss_one_class_witness :
  label_smoothed_nll_loss example_one_class example_zero_target (qc 0 1)
    None true
  = Raise ZeroDivisionError.
Proof.
  apply (@label_smoothed_nll_loss_one_class Qc _ example_one_class
           example_zero_target [2]).
  constructor; try reflexivity.
  repeat constructor; simpl; lia.
Defined.

(** X3.  With [reduce=False] the two returned tensors have the shape of
    the target (the unsqueeze of line 16 is undone by the squeeze of
    lines 26-27) and one entry per target entry; with [reduce=True] the
    returned [nll_loss] is the sum of the entries of the unreduced
    one. *)
Theorem label_smoothed_nll_loss_unreduced_shape
    {F : Type} `{Scalar F} (lprobs : tensor F) (target : tensor Z)
    (lead : list nat) (C : nat) (epsilon : F) (ignore_index : option Z) :
  lsnl_input lprobs target lead C ->
  C <> 1 ->
  exists loss nll loss_sum,
    label_smoothed_nll_loss lprobs target epsilon ignore_index false
    = Ok (loss, nll)
    /\ shape loss = shape target /\ shape nll = shape target
    /\ tensor_wf loss /\ tensor_wf nll
    /\ label_smoothed_nll_loss lprobs target epsilon ignore_index true
       = Ok (loss_sum, tsum nll).
Proof.
  intros Hin HC.
  rewrite (lsnl_unreduced Hin), (lsnl_reduced Hin) by assumption.
  do 3 eexists. split; [reflexivity|].
  cbn [shape]. rewrite (in_target_shape Hin).
  unfold tensor_wf, numel. cbn [shape data].
  rewrite !length_map, (positions_length Hin).
  repeat split.
Qed.

Lemma label_smoothed_nll_loss_unreduced_shape_witness :
  exists loss nll loss_sum,
    label_smoothed_nll_loss example_lprobs example_target (qc 1 10)
      (Some 1%Z) false
    = Ok (loss, nll)
    /\ shape loss = [2] /\ shape nll = [2]
    /\ tensor_wf loss /\ tensor_wf nll
    /\ label_smoothed_nll_loss example_lprobs example_target (qc 1 10)
         (Some 1%Z) true
       = Ok (loss_sum, tsum nll).
Proof.
  apply (label_smoothed_nll_loss_unreduced_shape (qc 1 10) (Some 1%Z)
           example_input).
  discriminate.
Defined.

(** ** [CrossEntropyLoss.forward] with an [ignore_index] *)

(** X4.  With [ignore_index = ii], on well-shaped inputs with [C >= 2]
    classes, [CrossEntropyLoss.forward] returns, and never raises (a
    zero count divides a tensor): the loss is [loss_sum] over the number
    of selected targets that differ from [ii], and the logging output
    holds exactly the seven entries below; [sample_ratio] divides that
    number, and [nonpad_ratio] the number of all targets that differ
    from [ii], mask or not, by the number of target entries before the
    selection; [bsz] is the first dimension of [scores]. *)
Theorem CrossEntropyLoss_forward_with_ignore_index
    {F : Type} `{Scalar F} `{Transcendental F} (self : loss_self F)
    (scores : tensor F) (target : tensor Z)
    (mask : option (tensor bool)) (lead : list nat) (C : nat) (ii : Z) :
  lsnl_input scores target lead C ->
  2 <= C ->
  match mask with Some m => mask_ok m lead | None => True end ->
  ignore_index self = Some ii ->
  let pos := ce_positions scores target mask in
  let nll_sum := fsum (map (nll_at (Some ii)) pos) in
  let loss_sum :=
    mix (label_smoothing self) C nll_sum
        (fsum (map (smooth_at (Some ii)) pos)) in
  let sample_size := of_Z (count_ne ii (selected mask (data target))) in
  let n_tokens := of_Z (Z.of_nat (numel target)) in
  CrossEntropyLoss_forward self scores target mask
  = Ok (PyTensor (scalar_tensor (fdiv loss_sum sample_size)),
        dict_of [
          ("nll_loss_sum", PyTensor (scalar_tensor nll_sum));
          ("loss_sum", PyTensor (scalar_tensor loss_sum));
          ("ppl", PyTensor (scalar_tensor
                              (fexp (fdiv nll_sum sample_size))));
          ("bsz", PyInt (Z.of_nat (hd 0 (shape scores))));
          ("sample_size", PyTensor (scalar_tensor sample_size));
          ("sample_ratio",
           PyTensor (scalar_tensor (fdiv sample_size n_tokens)));
          ("nonpad_ratio",
           PyTensor (scalar_tensor
                       (fdiv (of_Z (count_ne ii (data target)))
                             n_tokens)))
        ]%string).
Proof.
  intros Hin HC Hmask Hii. cbv zeta.
  unfold CrossEntropyLoss_forward. rewrite Hii.
  cbn [ne_long_sum bind].
  rewrite (size_first_scores Hin), (size_last_lprobs Hin). cbn [bind].
  destruct (select_and_reshape mask Hin HC Hmask)
    as (sc & tg & E1 & E2 & E3).
  rewrite E1. cbn [bind]. rewrite E2. cbn [bind]. rewrite E3.
  rewrite (lsnl_reduced (log_softmax_input (sel_input mask Hin HC)))
    by lia.
  rewrite (sel_positions mask Hin HC). cbn [bind].
  unfold ne_mask. rewrite !count_filter_map.
  fold (count_ne ii (data (sel_target target mask))).
  fold (count_ne ii (data target)).
  cbn [sel_target data].
  reflexivity.
Qed.

Lemma CrossEntropyLoss_forward_with_ignore_index_witness :
  exists loss logging_output,
    CrossEntropyLoss_forward ex_self ex_scores ex_target (Some ex_mask)
    = Ok (loss, logging_output)
    /\ dict_get logging_output "sample_size"
       = Some (PyTensor (scalar_tensor (IZR 1)))
    /\ dict_get logging_output "bsz" = Some (PyInt 2).
Proof.
  do 2 eexists. split.
  - apply (@CrossEntropyLoss_forward_with_ignore_index R _ _ ex_self
             ex_scores ex_target (Some ex_mask) [2; 1] 2 1%Z).
    + exact ex_lsnl_input.
    + lia.
    + exact ex_mask_ok.
    + reflexivity.
  - split; reflexivity.
Defined.

(** ** How the sequence losses relate *)

(** X5.  [RDMCrossEntropyLoss.forward] with both flags off is
    [Coord2SeqCrossEntropyLoss.forward] without a [coord_mask], for every
    input: it fails when and as the other fails, and otherwise returns
    the same loss and the same logging output with one more entry,
    ["weight_diff_loss"], holding the returned loss.  In Coord2Seq a
    [label_mask] hides the [coord_mask], which is read only when
    [label_mask] is None. *)
Theorem RDM_without_flags_is_Coord2Seq
    {F : Type} `{Scalar F} `{Transcendental F} (self : loss_self F)
    (scores : tensor F) (target : tensor Z)
    (label_mask coord_mask : option (tensor bool))
    (weights : option (tensor F)) :
  RDMCrossEntropyLoss_forward self scores target label_mask weights
    false false
  = (r <- Coord2SeqCrossEntropyLoss_forward self scores target
            label_mask None weights ;;
     Ok (fst r, dict_set (snd r) "weight_diff_loss" (fst r)))
  /\ Coord2SeqCrossEntropyLoss_forward self scores target
       None coord_mask weights
     = Coord2SeqCrossEntropyLoss_forward self scores target
         coord_mask None weights
  /\ (label_mask <> None ->
      Coord2SeqCrossEntropyLoss_forward self scores target
        label_mask coord_mask weights
      = Coord2SeqCrossEntropyLoss_forward self scores target
          label_mask None weights).
Proof.
  split; [|split].
  - unfold RDMCrossEntropyLoss_forward, Coord2SeqCrossEntropyLoss_forward.
    destruct (prologue self scores target weights) as [p|e];
      [|reflexivity].
    cbn [bind].
    destruct label_mask as [m|].
    + destruct (masked_mean (p_loss p) (tmap of_bool m)
                  (PyTensor (tsum (tmap of_bool m)))) as [l|e];
        [|reflexivity].
      cbn [bind].
      destruct (masked_mean (p_nll_loss p) (tmap of_bool m)
                  (PyTensor (tsum (tmap of_bool m)))) as [n|e];
        [|reflexivity].
      cbn [bind].
      destruct (torch_exp n) as [ppl|e]; [|reflexivity]. cbn [bind].
      destruct (truediv (PyTensor (tsum (tmap of_bool m))) (p_n_tokens p))
        as [r1|e]; [|reflexivity].
      cbn [bind].
      destruct (truediv (p_n_nonpad_tokens p) (p_n_tokens p)) as [r2|e];
        reflexivity.
    + cbn [bind].
      destruct (torch_exp (p_fullseq_nll_loss p)) as [ppl|e];
        [|reflexivity].
      cbn [bind].
      destruct (truediv (p_sample_size p) (p_n_tokens p)) as [r1|e];
        [|reflexivity].
      cbn [bind].
      destruct (truediv (p_n_nonpad_tokens p) (p_n_tokens p)) as [r2|e];
        reflexivity.
  - unfold Coord2SeqCrossEntropyLoss_forward.
    now destruct coord_mask.
  - intros Hl. unfold Coord2SeqCrossEntropyLoss_forward.
    destruct label_mask; [reflexivity | contradiction].
Qed.

Lemma RDM_without_flags_is_Coord2Seq_witness :
  Coord2SeqCrossEntropyLoss_forward ex_self ex_scores ex_target
    (Some ex_mask) (Some ex_no_mask) (Some ex_weights)
  = Coord2SeqCrossEntropyLoss_forward ex_self ex_scores ex_target
      (Some ex_mask) None (Some ex_weights).
Proof.
  apply (proj2 (proj2 (@RDM_without_flags_is_Coord2Seq R _ _ ex_self
                         ex_scores ex_target (Some ex_mask)
                         (Some ex_no_mask) (Some ex_weights)))).
  discriminate.
Defined.

(** X6.  Called with tensors and no [label_mask],
    [StructAARDMCrossEntropyLoss.forward] is
    [RDMCrossEntropyLoss.forward]: for every input and both flags the two
    calls fail alike or return the same loss and the same logging
    output (the keys carry no prefix). *)
Theorem StructAA_on_tensors_without_mask_is_RDM
    {F : Type} `{Scalar F} `{Transcendental F} (self : loss_self F)
    (scores : tensor F) (target : tensor Z) (weights : option (tensor F))
    (cal_constant_loss watch_t1_t2_loss : bool) :
  StructAARDMCrossEntropyLoss_forward self
    (Tensors scores target None weights)
    cal_constant_loss watch_t1_t2_loss
  = RDMCrossEntropyLoss_forward self scores target None weights
      cal_constant_loss watch_t1_t2_loss.
Proof.
  unfold StructAARDMCrossEntropyLoss_forward, compute,
    RDMCrossEntropyLoss_forward.
  cbn [String.length Nat.ltb Nat.leb String.append].
  destruct (prologue self scores target weights) as [p|e];
    [|reflexivity].
  cbn [bind].
  destruct (if watch_t1_t2_loss
            then r <- t1_t2_losses (p_loss p) None ;; Ok (Some r)
            else Ok None) as [t12|e]; [|reflexivity].
  cbn [bind].
  destruct (torch_exp (p_fullseq_nll_loss p)) as [ppl|e]; [|reflexivity].
  cbn [bind].
  destruct (truediv (p_sample_size p) (p_n_tokens p)) as [r1|e];
    [|reflexivity].
  cbn [bind].
  destruct (truediv (p_n_nonpad_tokens p) (p_n_tokens p)) as [r2|e];
    [|reflexivity].
  cbn [bind].
  match goal with
  | |- context [if cal_constant_loss then ?c else ?d] =>
      destruct (if cal_constant_loss then c else d) as [lo|e];
        [|reflexivity]
  end.
  cbn [bind].
  match goal with
  | |- context [if watch_t1_t2_loss then ?c else ?d] =>
      destruct (if watch_t1_t2_loss then c else d) as [lo'|e];
        reflexivity
  end.
Qed.

(** X7.  With a [label_mask] of the shape of the target whose sum
    exceeds 1, [StructAARDMCrossEntropyLoss.forward] on tensors is again
    [RDMCrossEntropyLoss.forward], logging output included: the clamp
    [max(1, label_mask.sum())] returns the sum itself and the mask is
    not expanded. *)
Theorem StructAA_on_tensors_with_mask_is_RDM
    {F : Type} `{Scalar F} `{Transcendental F} (self : loss_self F)
    (scores : tensor F) (target : tensor Z) (m : tensor bool)
    (weights : option (tensor F)) (lead : list nat) (C : nat)
    (cal_constant_loss watch_t1_t2_loss : bool) :
  seq_input scores target weights lead C ->
  mask_ok m lead ->
  fltb fone (fsum (map of_bool (data m))) = true ->
  StructAARDMCrossEntropyLoss_forward self
    (Tensors scores target (Some m) weights)
    cal_constant_loss watch_t1_t2_loss
  = RDMCrossEntropyLoss_forward self scores target (Some m) weights
      cal_constant_loss watch_t1_t2_loss.
Proof.
  intros Hseq [Hs _] Hgt.
  unfold StructAARDMCrossEntropyLoss_forward, compute,
    RDMCrossEntropyLoss_forward.
  cbn [String.length Nat.ltb Nat.leb String.append].
  rewrite (@prologue_seq _ _ _ self scores target weights lead C Hseq).
  cbn [bind p_bsz p_n_tokens p_sample_size p_n_nonpad_tokens p_loss
       p_nll_loss p_fullseq_loss p_fullseq_nll_loss].
  match goal with
  | |- context [if watch_t1_t2_loss then ?c else ?d] =>
      destruct (if watch_t1_t2_loss then c else d) as [t12|e];
        [|reflexivity]
  end.
  cbn [bind].
  assert (Es : pymax1 (tsum (tmap of_bool m))
               = Ok (PyTensor (tsum (tmap of_bool m)))).
  { unfold pymax1, tsum, scalar_tensor, tmap. cbn [data]. now rewrite Hgt. }
  rewrite Es. cbn [bind].
  assert (Ed : (S (dim (tmap of_bool m))
                =? dim (Tensor lead
                          (weigh weights
                             (loss_entries self scores target C))))
               = false).
  { unfold dim. cbn [shape tmap]. rewrite Hs. apply Nat.eqb_neq. lia. }
  rewrite Ed. cbn [bind].
  rewrite !masked_mean_ok by (simpl; unfold tsum; eauto).
  cbn [bind].
  rewrite !torch_exp_scalar. cbn [bind].
  match goal with
  | |- context [truediv ?a ?b] =>
      destruct (truediv a b) as [r1|e]; [|reflexivity]
  end.
  cbn [bind].
  match goal with
  | |- context [truediv ?a ?b] =>
      destruct (truediv a b) as [r2|e]; [|reflexivity]
  end.
  cbn [bind].
  match goal with
  | |- context [if cal_constant_loss then ?c else ?d] =>
      destruct (if cal_constant_loss then c else d) as [lo|e];
        [|reflexivity]
  end.
  cbn [bind].
  match goal with
  | |- context [if watch_t1_t2_loss then ?c else ?d] =>
      destruct (if watch_t1_t2_loss then c else d) as [lo'|e];
        reflexivity
  end.
Qed.

Lemma StructAA_on_tensors_with_mask_is_RDM_witness :
  StructAARDMCrossEntropyLoss_forward ex_self
    (Tensors ex_scores ex_target (Some ex_full_mask) (Some ex_weights))
    true true
  = RDMCrossEntropyLoss_forward ex_self ex_scores ex_target
      (Some ex_full_mask) (Some ex_weights) true true.
Proof.
  apply (@StructAA_on_tensors_with_mask_is_RDM R _ _ ex_self ex_scores
           ex_target ex_full_mask (Some ex_weights) [2; 1] 2 true true).
  - apply ex_seq_input. now right.
  - split; reflexivity.
  - simpl. destruct (Rlt_dec 1 (1 + (1 + 0))); [reflexivity | lra].
Defined.

(** ** Edge inputs of the sequence losses *)

Lemma ex_row_seq_input :
  seq_input ex_row_scores ex_row_target None [1; 2] 2.
Proof.
  constructor.
  - constructor; try reflexivity. repeat constructor; simpl; lia.
  - discriminate.
  - exact I.
Defined.

Lemma ex_empty_seq_input :
  seq_input ex_empty_scores ex_empty_target None [0; 1] 2.
Proof.
  constructor.
  - constructor; try reflexivity. constructor.
  - discriminate.
  - exact I.
Defined.

(** X8.  [watch_t1_t2_loss] on a batch of a single row raises
    ValueError, in [RDMCrossEntropyLoss.forward] and in
    [StructAARDMCrossEntropyLoss.forward] alike, whatever the mask, the
    weights and the other flag: [loss.chunk(2)] yields one chunk, which
    cannot be unpacked into [t1_loss, t2_loss]. *)
Theorem watch_t1_t2_loss_single_row
    {F : Type} `{Scalar F} `{Transcendental F} (self : loss_self F)
    (scores : tensor F) (target : tensor Z)
    (label_mask : option (tensor bool)) (weights : option (tensor F))
    (rest : list nat) (C : nat) (cal_constant_loss : bool)
    (key : string) :
  seq_input scores target weights (1 :: rest) C ->
  RDMCrossEntropyLoss_forward self scores target label_mask weights
    cal_constant_loss true
  = Raise ValueError
  /\ compute self cal_constant_loss true scores target label_mask
       weights key
     = Raise ValueError
  /\ StructAARDMCrossEntropyLoss_forward self
       (Tensors scores target label_mask weights) cal_constant_loss true
     = Raise ValueError.
Proof.
  intros Hseq.
  assert (Ec : forall k,
    compute self cal_constant_loss true scores target label_mask
      weights k = Raise ValueError).
  { intros k. unfold compute.
    rewrite (@prologue_seq _ _ _ self scores target weights _ C Hseq).
    cbn [bind p_loss]. now rewrite t1_t2_losses_single. }
  split; [|split].
  - unfold RDMCrossEntropyLoss_forward.
    rewrite (@prologue_seq _ _ _ self scores target weights _ C Hseq).
    cbn [bind p_loss]. now rewrite t1_t2_losses_single.
  - apply Ec.
  - unfold StructAARDMCrossEntropyLoss_forward. now rewrite Ec.
Qed.

Lemma watch_t1_t2_loss_single_row_witness :
  RDMCrossEntropyLoss_forward ex_self ex_row_scores ex_row_target
    (Some (Tensor [1; 2] [true; true])) None false true
  = Raise ValueError.
Proof.
  apply (proj1 (@watch_t1_t2_loss_single_row R _ _ ex_self ex_row_scores
                  ex_row_target (Some (Tensor [1; 2] [true; true])) None
                  [2] 2 false EmptyString ex_row_seq_input)).
Defined.

(** X9.  An empty target (no entries) with [ignore_index = None] makes
    [Coord2SeqCrossEntropyLoss.forward] and
    [RDMCrossEntropyLoss.forward] raise ZeroDivisionError: the counts
    [n_nonpad_tokens] and [n_tokens] are the Python int 0, and lines
    149-150 (221-222) divide one by the other.  With an [ignore_index]
    the counts are tensors and the same call of Coord2Seq returns. *)
Theorem empty_target_without_ignore_index
    {F : Type} `{Scalar F} `{Transcendental F} (self : loss_self F)
    (scores : tensor F) (target : tensor Z)
    (label_mask : option (tensor bool)) (weights : option (tensor F))
    (lead : list nat) (C : nat) :
  seq_input scores target weights lead C ->
  numel target = 0 ->
  match label_mask with Some m => mask_ok m lead | None => True end ->
  (ignore_index self = None ->
   Coord2SeqCrossEntropyLoss_forward self scores target label_mask None
     weights
   = Raise ZeroDivisionError
   /\ RDMCrossEntropyLoss_forward self scores target label_mask weights
        false false
      = Raise ZeroDivisionError)
  /\ (ignore_index self <> None ->
      exists r,
        Coord2SeqCrossEntropyLoss_forward self scores target label_mask
          None weights
        = Ok r).
Proof.
  intros Hseq Hn Hm. split.
  - intros Hii.
    assert (Ess : first_sample_size self target = PyInt 0).
    { unfold first_sample_size. now rewrite Hii, Hn. }
    split.
    + unfold Coord2SeqCrossEntropyLoss_forward.
      rewrite (@prologue_seq _ _ _ self scores target weights _ C Hseq).
      cbn [bind p_bsz p_n_tokens p_sample_size p_n_nonpad_tokens p_loss
           p_nll_loss p_fullseq_loss p_fullseq_nll_loss].
      rewrite Ess, Hn.
      destruct label_mask as [m|].
      * destruct Hm as [Hs _].
        rewrite !masked_mean_ok by (simpl; unfold tsum; eauto).
        reflexivity.
      * reflexivity.
    + unfold RDMCrossEntropyLoss_forward.
      rewrite (@prologue_seq _ _ _ self scores target weights _ C Hseq).
      cbn [bind p_bsz p_n_tokens p_sample_size p_n_nonpad_tokens p_loss
           p_nll_loss p_fullseq_loss p_fullseq_nll_loss].
      rewrite Ess, Hn.
      destruct label_mask as [m|].
      * destruct Hm as [Hs _].
        rewrite !masked_mean_ok by (simpl; unfold tsum; eauto).
        reflexivity.
      * reflexivity.
  - intros Hii.
    destruct (ignore_index self) as [ii|] eqn:Eii; [|contradiction].
    assert (Ess : first_sample_size self target = ne_float_sum ii target).
    { unfold first_sample_size. now rewrite Eii. }
    unfold Coord2SeqCrossEntropyLoss_forward.
    rewrite (@prologue_seq _ _ _ self scores target weights _ C Hseq).
    cbn [bind p_bsz p_n_tokens p_sample_size p_n_nonpad_tokens p_loss
         p_nll_loss p_fullseq_loss p_fullseq_nll_loss].
    rewrite Ess.
    destruct label_mask as [m|].
    + destruct Hm as [Hs _].
      rewrite !masked_mean_ok by (simpl; unfold tsum; eauto).
      cbn. eauto.
    + cbn. eauto.
Qed.

Lemma empty_target_without_ignore_index_witness :
  Coord2SeqCrossEntropyLoss_forward ex_no_ignore ex_empty_scores
    ex_empty_target None None None
  = Raise ZeroDivisionError.
Proof.
  refine (proj1 (proj1 (@empty_target_without_ignore_index R _ _
                          ex_no_ignore ex_empty_scores ex_empty_target
                          None None [0; 1] 2 ex_empty_seq_input _ _) _));
    [reflexivity | exact I | reflexivity].
Defined.

(** ** Dict inputs: what makes the loop fail *)

Lemma for_each_app {S A} (body : S -> A -> result S) (l1 l2 : list A) :
  forall st,
    for_each body st (l1 ++ l2)
    = (st' <- for_each body st l1 ;; for_each body st' l2).
Proof.
  induction l1 as [|a l1 IH]; intros st; simpl; [reflexivity|].
  destruct (body st a) as [st1|e]; simpl; [apply IH | reflexivity].
Qed.

Lemma ex_front_ready :
  Forall (key_ready ex_self false false ex_target_dict ex_label_mask_dict
            ex_weights_dict) ex_scores_dict_front.
Proof.
  repeat constructor.
  exists ex_target, (Some ex_mask), (Some ex_weights), [2; 1], 2.
  do 3 (split; [reflexivity|]).
  split; [apply ex_seq_input; now right|].
  split; [discriminate|].
  split; [left; reflexivity|].
  split; discriminate.
Defined.

(** X10.  With dict inputs, an empty [scores_dict] raises
    UnboundLocalError (line 363 reads [logging_output] and [k], which
    only the loop binds), and a key of [scores_dict] that [target_dict]
    lacks raises KeyError when the loop reaches it, whatever follows it
    in the dict. *)
Theorem StructAA_dict_empty_or_missing_key
    {F : Type} `{Scalar F} `{Transcendental F}
    (self : loss_self F) (cal_constant_loss watch_t1_t2_loss : bool)
    (front rest : dict (tensor F)) (k : string) (scores : tensor F)
    (target_dict : dict (tensor Z))
    (label_mask_dict : option (dict (option (tensor bool))))
    (weights_dict : option (dict (option (tensor F)))) :
  Forall (key_ready self cal_constant_loss watch_t1_t2_loss
            target_dict label_mask_dict weights_dict) front ->
  dict_get target_dict k = None ->
  StructAARDMCrossEntropyLoss_forward self
    (Dicts [] target_dict label_mask_dict weights_dict)
    cal_constant_loss watch_t1_t2_loss
  = Raise UnboundLocalError
  /\ StructAARDMCrossEntropyLoss_forward self
       (Dicts (front ++ (k, scores) :: rest) target_dict label_mask_dict
              weights_dict)
       cal_constant_loss watch_t1_t2_loss
     = Raise KeyError.
Proof.
  intros Hready Hk. split; [reflexivity|].
  destruct (all_ready_outcomes Hready) as (rs & HF).
  set (init := {| losses := PyInt 0; nll_losses := PyInt 0;
                  logging_output_dict := []; last_iter := None |}
               : @loop_state F).
  edestruct (@loop_outcome _ _ _ self cal_constant_loss watch_t1_t2_loss
               target_dict label_mask_dict weights_dict
               front rs init [] [] HF)
    as (st & Eloop & _); try reflexivity.
  unfold StructAARDMCrossEntropyLoss_forward. fold init.
  rewrite for_each_app, Eloop. cbn [bind for_each].
  unfold loop_body at 1, getitem. now rewrite Hk.
Qed.

Lemma StructAA_dict_empty_or_missing_key_witness :
  StructAARDMCrossEntropyLoss_forward ex_self
    (Dicts (ex_scores_dict_front
            ++ ("coords"%string, ex_scores) :: [("struct"%string, ex_scores)])
           ex_target_dict ex_label_mask_dict ex_weights_dict)
    false false
  = Raise KeyError.
Proof.
  apply (proj2 (@StructAA_dict_empty_or_missing_key R _ _ ex_self false
                  false ex_scores_dict_front
                  [("struct"%string, ex_scores)] "coords"%string ex_scores
                  ex_target_dict ex_label_mask_dict ex_weights_dict
                  ex_front_ready eq_refl)).
Defined.

(** X11.  The defaults [label_mask_dict=None] and [weights_dict=None]
    cannot be used with dict inputs: once the first key is found in
    [target_dict], line 356 (357) subscripts None and raises
    TypeError. *)
Theorem StructAA_dict_needs_mask_and_weight_dicts
    {F : Type} `{Scalar F} `{Transcendental F}
    (self : loss_self F) (cal_constant_loss watch_t1_t2_loss : bool)
    (rest : dict (tensor F)) (k : string) (scores : tensor F)
    (target_dict : dict (tensor Z)) (target : tensor Z) :
  dict_get target_dict k = Some target ->
  (forall weights_dict,
     StructAARDMCrossEntropyLoss_forward self
       (Dicts ((k, scores) :: rest) target_dict None weights_dict)
       cal_constant_loss watch_t1_t2_loss
     = Raise TypeError)
  /\ (forall label_masks label_mask,
        dict_get label_masks k = Some label_mask ->
        StructAARDMCrossEntropyLoss_forward self
          (Dicts ((k, scores) :: rest) target_dict (Some label_masks) None)
          cal_constant_loss watch_t1_t2_loss
        = Raise TypeError).
Proof.
  intros Ht. split.
  - intros weights_dict.
    unfold StructAARDMCrossEntropyLoss_forward. cbn [for_each].
    unfold loop_body at 1, getitem. now rewrite Ht.
  - intros label_masks label_mask Hl.
    unfold StructAARDMCrossEntropyLoss_forward. cbn [for_each].
    unfold loop_body at 1, getitem_opt, getitem. now rewrite Ht, Hl.
Qed.

Lemma StructAA_dict_needs_mask_and_weight_dicts_witness :
  StructAARDMCrossEntropyLoss_forward ex_self
    (Dicts [("aatype"%string, ex_scores)] ex_target_dict None None)
    false false
  = Raise TypeError.
Proof.
  apply (proj1 (@StructAA_dict_needs_mask_and_weight_dicts R _ _ ex_self
                  false false [] "aatype"%string ex_scores ex_target_dict
                  ex_target eq_refl)).
Defined.

(** ** The keys [compute] logs *)

Section LogKeys.
Context {F : Type} `{Scalar F} `{Transcendental F}.

Ltac in_names := simpl; repeat (first [left; reflexivity | right]).

Ltac scan_keys Hk :=
  repeat match type of Hk with
  | context [dict_get (dict_set ?d ?a ?v) ?b] =>
      rewrite (dict_get_set d a b v) in Hk;
      destruct (String.eqb_spec a b) as [Heq|_]; [subst b; in_names|]
  end.

(** Whatever [compute] returns, its logging output has no key beyond
    the twelve prefixed names. *)
Lemma compute_logs_known_keys (self : loss_self F)
    (cal_constant_loss watch_t1_t2_loss : bool)
    (scores : tensor F) (target : tensor Z)
    (label_mask : option (tensor bool)) (weights : option (tensor F))
    (key : string) loss nll_loss logging_output :
  compute self cal_constant_loss watch_t1_t2_loss scores target
          label_mask weights key
  = Ok (loss, nll_loss, logging_output) ->
  forall k, dict_get logging_output k <> None ->
            In k (compute_log_keys key).
Proof.
  unfold compute, compute_log_keys. fold (key_prefix key).
  generalize (key_prefix key). intros pre Hc.
  destruct (prologue self scores target weights) as [p|e];
    [|discriminate].
  cbn [bind] in Hc.
  match type of Hc with
  | bind ?c _ = _ => destruct c as [t12|e]; [|discriminate]
  end.
  cbn [bind] in Hc.
  match type of Hc with
  | bind ?c _ = _ =>
      destruct c as [[[[l n] ss] lm]|e]; [|discriminate]
  end.
  cbn [bind] in Hc.
  destruct (torch_exp n) as [ppl|e]; [|discriminate]. cbn [bind] in Hc.
  destruct (truediv ss (p_n_tokens p)) as [r1|e]; [|discriminate].
  cbn [bind] in Hc.
  destruct (truediv (p_n_nonpad_tokens p) (p_n_tokens p)) as [r2|e];
    [|discriminate].
  cbn [bind] in Hc.
  match type of Hc with
  | context [dict_of ?kvs] => remember (dict_of kvs) as d0 eqn:Ed0
  end.
  match type of Hc with
  | bind ?c _ = _ => destruct c as [lo1|e] eqn:Ecal; [|discriminate]
  end.
  cbn [bind] in Hc.
  match type of Hc with
  | bind ?c _ = _ => destruct c as [lo2|e] eqn:Ewatch; [|discriminate]
  end.
  cbn [bind] in Hc. injection Hc as _ _ <-.
  intros k Hk.
  assert (H1 : dict_get d0 k <> None ->
               In k (map (String.append pre) compute_log_names)).
  { clear Hk. intros Hk. subst d0.
    unfold dict_of, dict_update in Hk. cbn [fold_left fst snd] in Hk.
    scan_keys Hk. simpl in Hk. congruence. }
  assert (H2 : dict_get lo1 k <> None ->
               In k (map (String.append pre) compute_log_names)).
  { clear Ewatch Hk Ed0. intros Hk. destruct cal_constant_loss.
    - match type of Ecal with
      | bind ?c _ = _ => destruct c as [c0|e]; [|discriminate]
      end.
      cbn [bind] in Ecal. injection Ecal as <-.
      scan_keys Hk. auto.
    - injection Ecal as <-. auto. }
  destruct watch_t1_t2_loss.
  - destruct t12 as [[t1 t2]|]; [|discriminate].
    injection Ewatch as <-. scan_keys Hk. auto.
  - injection Ewatch as <-. auto.
Qed.
End LogKeys.

(** X12.  With dict inputs whose last key is the empty string the call
    raises KeyError, although every item is computed: [compute] leaves
    the keys of that item without a prefix, and line 363 then looks up
    ["/sample_size"], which no logging output of [compute] holds. *)
Theorem StructAA_dict_last_key_empty
    {F : Type} `{Scalar F} `{Transcendental F}
    (self : loss_self F) (cal_constant_loss watch_t1_t2_loss : bool)
    (front : dict (tensor F)) (scores : tensor F)
    (target_dict : dict (tensor Z))
    (label_mask_dict : option (dict (option (tensor bool))))
    (weights_dict : option (dict (option (tensor F)))) :
  let scores_dict := front ++ [(EmptyString, scores)] in
  Forall (key_ready self cal_constant_loss watch_t1_t2_loss
            target_dict label_mask_dict weights_dict) scores_dict ->
  StructAARDMCrossEntropyLoss_forward self
    (Dicts scores_dict target_dict label_mask_dict weights_dict)
    cal_constant_loss watch_t1_t2_loss
  = Raise KeyError.
Proof.
  intros scores_dict Hready.
  destruct (all_ready_outcomes Hready) as (rs0 & HF).
  destruct (Forall2_app_inv_l _ _ HF) as (rs & lr & Hfront & Hlast & ->).
  inversion Hlast as [|x r l lr' Hr Hnil]; subst.
  inversion Hnil; subst. clear Hlast Hnil.
  pose proof (Forall2_length Hfront) as Hlen.
  set (init := {| losses := PyInt 0; nll_losses := PyInt 0;
                  logging_output_dict := []; last_iter := None |}
               : @loop_state F).
  edestruct (@loop_outcome _ _ _ self cal_constant_loss watch_t1_t2_loss
               target_dict label_mask_dict weights_dict
               scores_dict (rs ++ [r]) init [] [] HF)
    as (st & Eloop & _ & _ & Hl); try reflexivity.
  unfold scores_dict in Hl.
  rewrite combine_snoc, rev_unit in Hl by exact Hlen.
  cbn [fst] in Hl.
  destruct Hr as (target & lm & w & _ & _ & _ & Ec & _).
  cbn [fst snd] in Ec.
  pose proof (compute_logs_known_keys _ _ _ _ _ _ _ _ Ec
                "/sample_size"%string) as Hkeys.
  unfold StructAARDMCrossEntropyLoss_forward.
  fold init. fold scores_dict. rewrite Eloop. cbn [bind]. rewrite Hl.
  unfold getitem at 1. cbn [String.append].
  destruct (dict_get (kr_logging_output r) "/sample_size")
    as [v|] eqn:Ev; [|reflexivity].
  exfalso.
  assert (Hin : In "/sample_size"%string (compute_log_keys EmptyString))
    by (apply Hkeys; discriminate).
  unfold compute_log_keys, compute_log_names in Hin. simpl in Hin.
  repeat (destruct Hin as [Hin|Hin]; [discriminate Hin|]).
  exact Hin.
Qed.

Lemma StructAA_dict_last_key_empty_witness :
  StructAARDMCrossEntropyLoss_forward ex_self
    (Dicts ([] ++ [(EmptyString, ex_scores)]) ex_target_dict_empty_key
           ex_label_mask_dict_empty_key ex_weights_dict_empty_key)
    false false
  = Raise KeyError.
Proof.
  apply (@StructAA_dict_last_key_empty R _ _ ex_self false false []
           ex_scores ex_target_dict_empty_key
           ex_label_mask_dict_empty_key ex_weights_dict_empty_key).
  repeat constructor.
  exists ex_target, None, None, [2; 1], 2.
  do 3 (split; [reflexivity|]).
  split; [apply ex_seq_input; now left|].
  split; [discriminate|].
  split; [exact I|].
  split; discriminate.
Defined.

(** ** The constant-weight loss *)

Section ConstantLoss.
Context {F : Type} `{Scalar F} `{Transcendental F} {EA : ExactArith F}.

Lemma times_ones (l : list F) (n : nat) :
  length l = n ->
  map (fun q => fmul (fst q) (snd q)) (combine l (repeat fone n)) = l.
Proof.
  intros <-. induction l as [|x l IH]; simpl; [reflexivity|].
  now rewrite fmul_1_r, IH.
Qed.

Lemma loss_entries_length (self : loss_self F) (scores : tensor F)
    (target : tensor Z) (lead : list nat) (C : nat) :
  lsnl_input scores target lead C ->
  length (loss_entries self scores target C) = numel_of lead.
Proof.
  intros Hin. unfold loss_entries.
  now rewrite length_map, (positions_length (log_softmax_input Hin)).
Qed.
End ConstantLoss.

(** X13.  Over exact arithmetic, the entry ["constant_diff_loss"] that
    [RDMCrossEntropyLoss.forward] logs under [cal_constant_loss] is the
    loss the same call returns when it is given no weights: the
    all-ones weights of line 227 leave every per-position loss as it
    is. *)
Theorem constant_diff_loss_is_unweighted_loss
    {F : Type} `{Scalar F} `{Transcendental F} {EA : ExactArith F}
    (self : loss_self F) (scores : tensor F) (target : tensor Z)
    (m : tensor bool) (w : tensor F) (lead : list nat) (C : nat)
    (watch_t1_t2_loss : bool) :
  seq_input scores target (Some w) lead C ->
  numel target <> 0 ->
  mask_ok m lead ->
  (watch_t1_t2_loss = true -> watch_ready (Some m) lead) ->
  exists loss unweighted logging_output logging_output',
    RDMCrossEntropyLoss_forward self scores target (Some m) (Some w)
      true watch_t1_t2_loss
    = Ok (loss, logging_output)
    /\ RDMCrossEntropyLoss_forward self scores target (Some m) None
         false watch_t1_t2_loss
       = Ok (unweighted, logging_output')
    /\ dict_get logging_output "constant_diff_loss" = Some unweighted.
Proof.
  intros Hseq Hne Hm Hwatch.
  assert (Hseq' : seq_input scores target None lead C).
  { constructor;
      [apply (seq_lsnl Hseq) | apply (seq_classes Hseq) | exact I]. }
  destruct (@RDM_forward_ok _ _ _ self scores target None lead C Hseq'
              Hne (Some m) false watch_t1_t2_loss Hm Hwatch)
    as (lo' & E' & _); [discriminate|].
  cbn [weigh] in E'.
  pose proof (seq_weights Hseq) as [Hws Hww].
  exists (final_mean self target (Some m)
            (weigh (Some w) (loss_entries self scores target C))).
  exists (final_mean self target (Some m)
            (loss_entries self scores target C)).
  unfold RDMCrossEntropyLoss_forward.
  rewrite (@prologue_seq _ _ _ self scores target (Some w) lead C Hseq).
  cbn [bind p_bsz p_n_tokens p_sample_size p_n_nonpad_tokens p_loss
       p_nll_loss p_fullseq_loss p_fullseq_nll_loss].
  destruct (@watch_block_ok _ _ lead (Some m) watch_t1_t2_loss
              (weigh (Some w) (loss_entries self scores target C)) Hwatch)
    as (t12 & -> & Ht12).
  cbn [bind].
  rewrite (@masking_block _ _ _ self scores target (Some w) lead C
             (Some m) Hm).
  cbn [bind option_map].
  rewrite torch_exp_final_mean. cbn [bind].
  destruct (@ratio_ok _ _ target Hne
              (final_sample_size self target (Some m))
              (final_sample_size_scalar self target (Some m)))
    as [r1 ->].
  destruct (@ratio_ok _ _ target Hne (first_sample_size self target)
              (first_sample_size_scalar target self))
    as [r2 ->].
  cbn [bind].
  assert (Ec :
    constant_diff_loss self scores target (Some w)
      (Some (tmap of_bool m)) (final_sample_size self target (Some m))
    = Ok (final_mean self target (Some m)
            (loss_entries self scores target C))).
  { unfold constant_diff_loss. cbn [new_ones bind].
    rewrite (lsnl_unreduced (log_softmax_input (seq_lsnl Hseq)))
      by apply (seq_classes Hseq).
    cbn [bind]. fold (loss_entries self scores target C).
    unfold tmul. rewrite tzip_same by (simpl; now rewrite Hws).
    cbn [bind shape data].
    rewrite times_ones
      by (unfold numel; rewrite Hws;
          apply loss_entries_length, (seq_lsnl Hseq)).
    destruct Hm as [Hs _].
    rewrite masked_mean_ok by (simpl; eauto).
    reflexivity. }
  rewrite Ec. cbn [bind].
  destruct watch_t1_t2_loss.
  - destruct (Ht12 eq_refl) as (t1 & t2 & ->). cbn [bind].
    do 2 eexists. split; [reflexivity|]. split; [exact E'|].
    rewrite !dict_get_set_other by reflexivity.
    apply dict_get_set_same.
  - cbn [bind]. do 2 eexists. split; [reflexivity|]. split; [exact E'|].
    apply dict_get_set_same.
Qed.

Lemma constant_diff_loss_is_unweighted_loss_witness :
  exists loss unweighted logging_output logging_output',
    RDMCrossEntropyLoss_forward ex_self ex_scores ex_target
      (Some ex_mask) (Some ex_weights) true false
    = Ok (loss, logging_output)
    /\ RDMCrossEntropyLoss_forward ex_self ex_scores ex_target
         (Some ex_mask) None false false
       = Ok (unweighted, logging_output')
    /\ dict_get logging_output "constant_diff_loss" = Some unweighted.
Proof.
  apply (@constant_diff_loss_is_unweighted_loss R _ _ _ ex_self ex_scores
           ex_target ex_mask ex_weights [2; 1] 2 false).
  - apply ex_seq_input. now right.
  - discriminate.
  - exact ex_mask_ok.
  - discriminate.
Defined.

(** ** Over the reals: shifts of the scores *)

Lemma chunks_map {A B} (f : A -> B) n c (l : list A) :
  chunks n c (map f l) = map (map f) (chunks n c l).
Proof.
  revert l. induction n as [|n IH]; intros l; simpl; [reflexivity|].
  now rewrite firstn_map, skipn_map, IH.
Qed.

Lemma selected_map {A B} (f : A -> B) (l : list A) (d : list bool) :
  map fst (filter snd (combine (map f l) d))
  = map f (map fst (filter snd (combine l d))).
Proof.
  revert d. induction l as [|a l IH]; intros [|b d]; simpl;
    try reflexivity.
  destruct b; simpl; now rewrite IH.
Qed.

Lemma fsum_exp_nonneg (l : list R) : (0 <= fsum (map exp l))%R.
Proof.
  induction l as [|x l IH]; simpl; [lra|].
  pose proof (exp_pos x). lra.
Qed.

Lemma fsum_exp_pos (x : R) (l : list R) :
  (0 < fsum (map exp (x :: l)))%R.
Proof.
  simpl. pose proof (exp_pos x). pose proof (fsum_exp_nonneg l). lra.
Qed.

Lemma fsum_exp_shift (c : R) (l : list R) :
  fsum (map exp (map (Rplus c) l)) = (exp c * fsum (map exp l))%R.
Proof.
  induction l as [|x l IH]; simpl.
  - lra.
  - simpl in IH. rewrite IH, exp_plus. lra.
Qed.

(** [log_softmax] does not see a constant added to a row. *)
Lemma log_softmax_row_shift (c : R) (row : list R) :
  log_softmax_row (map (Rplus c) row) = log_softmax_row row.
Proof.
  destruct row as [|x row]; [reflexivity|].
  unfold log_softmax_row. cbn [fexp flog fsub Transcendental_R Scalar_R].
  rewrite fsum_exp_shift, map_map.
  rewrite ln_mult by (try apply exp_pos; apply fsum_exp_pos).
  rewrite ln_exp. apply map_ext. intros a. lra.
Qed.

Lemma log_softmax_shift (c : R) (t : tensor R) :
  log_softmax (tmap (Rplus c) t) = log_softmax t.
Proof.
  unfold log_softmax, tmap. cbn [shape data].
  destruct (shape t) as [|n s] eqn:Es.
  - now rewrite log_softmax_row_shift.
  - unfold rows, leading. cbn [shape data]. rewrite Es.
    rewrite chunks_map, map_map. f_equal. f_equal.
    apply map_ext. intros row. apply log_softmax_row_shift.
Qed.

Lemma prologue_shift (self : loss_self R) (c : R) (scores : tensor R)
    (target : tensor Z) (weights : option (tensor R)) :
  prologue self (tmap (Rplus c) scores) target weights
  = prologue self scores target weights.
Proof. unfold prologue. now rewrite log_softmax_shift. Qed.

Lemma constant_diff_loss_shift (self : loss_self R) (c : R)
    (scores : tensor R) (target : tensor Z) (weights : option (tensor R))
    (label_mask : option (tensor R)) (sample_size : pyval R) :
  constant_diff_loss self (tmap (Rplus c) scores) target weights
    label_mask sample_size
  = constant_diff_loss self scores target weights label_mask sample_size.
Proof. unfold constant_diff_loss. now rewrite log_softmax_shift. Qed.

Lemma select_rows_shift (c : R) (scores : tensor R) (m : tensor bool) :
  select_rows (tmap (Rplus c) scores) m
  = (s <- select_rows scores m ;; Ok (tmap (Rplus c) s)).
Proof.
  unfold select_rows, leading, rows, leading, tmap. cbn [shape data].
  destruct (shape_eqb (shape m) (removelast (shape scores)));
    [|reflexivity].
  cbn [bind shape data].
  now rewrite chunks_map, selected_map, length_map, concat_map.
Qed.

Lemma reshape_rows_shift (c : R) (t : tensor R) (n : nat) :
  reshape_rows (tmap (Rplus c) t) n
  = (s <- reshape_rows t n ;; Ok (tmap (Rplus c) s)).
Proof.
  unfold reshape_rows, numel, tmap. cbn [shape data].
  destruct n as [|n]; [reflexivity|].
  now destruct (numel_of (shape t) mod S n =? 0).
Qed.

(** X14.  Over the reals, adding one constant to every score changes
    nothing: each of the four forward methods fails alike or returns the
    same loss and the same logging output on [scores + c] as on
    [scores], for every input, since the scores are read only through
    [F.log_softmax] and their shape. *)
Theorem losses_invariant_under_score_shift
    (self : loss_self R) (c : R) (scores : tensor R) (target : tensor Z)
    (mask label_mask coord_mask : option (tensor bool))
    (weights : option (tensor R))
    (cal_constant_loss watch_t1_t2_loss : bool) :
  let shifted := tmap (Rplus c) scores in
  CrossEntropyLoss_forward self shifted target mask
  = CrossEntropyLoss_forward self scores target mask
  /\ Coord2SeqCrossEntropyLoss_forward self shifted target label_mask
       coord_mask weights
     = Coord2SeqCrossEntropyLoss_forward self scores target label_mask
         coord_mask weights
  /\ RDMCrossEntropyLoss_forward self shifted target label_mask weights
       cal_constant_loss watch_t1_t2_loss
     = RDMCrossEntropyLoss_forward self scores target label_mask weights
         cal_constant_loss watch_t1_t2_loss
  /\ StructAARDMCrossEntropyLoss_forward self
       (Tensors shifted target label_mask weights)
       cal_constant_loss watch_t1_t2_loss
     = StructAARDMCrossEntropyLoss_forward self
         (Tensors scores target label_mask weights)
         cal_constant_loss watch_t1_t2_loss.
Proof.
  cbv zeta. split; [|split; [|split]].
  - unfold CrossEntropyLoss_forward.
    destruct (ne_long_sum (ignore_index self) target) as [nn|e];
      [|reflexivity].
    cbn [bind].
    change (size_first (tmap (Rplus c) scores)) with (size_first scores).
    change (size_last (tmap (Rplus c) scores)) with (size_last scores).
    destruct (size_first scores) as [bsz|e]; [|reflexivity]. cbn [bind].
    destruct (size_last scores) as [nc|e]; [|reflexivity]. cbn [bind].
    assert (Esel : forall k : tensor R * tensor Z -> _,
      (st <- match mask with
             | Some m =>
                 s <- select_rows (tmap (Rplus c) scores) m ;;
                 t <- select target m ;; Ok (s, t)
             | None => Ok (tmap (Rplus c) scores, target)
             end ;; k st)
      = (st <- match mask with
               | Some m =>
                   s <- select_rows scores m ;;
                   t <- select target m ;; Ok (s, t)
               | None => Ok (scores, target)
               end ;; k (tmap (Rplus c) (fst st), snd st))
      :> result (pyval R * dict (pyval R))).
    { intros k. destruct mask as [m|]; [|reflexivity].
      rewrite select_rows_shift.
      destruct (select_rows scores m) as [s|e]; [|reflexivity].
      cbn [bind]. destruct (select target m); reflexivity. }
    rewrite Esel.
    match goal with
    | |- bind ?x _ = bind ?x _ => destruct x as [[s t]|e]; [|reflexivity]
    end.
    cbn [bind fst snd]. rewrite reshape_rows_shift.
    destruct (reshape_rows s nc) as [s'|e]; [|reflexivity].
    cbn [bind]. now rewrite log_softmax_shift.
  - unfold Coord2SeqCrossEntropyLoss_forward.
    now rewrite prologue_shift.
  - unfold RDMCrossEntropyLoss_forward.
    rewrite prologue_shift.
    destruct (prologue self scores target weights) as [p|e];
      [|reflexivity].
    cbn [bind].
    match goal with
    | |- bind ?x _ = bind ?x _ => destruct x as [t12|e]; [|reflexivity]
    end.
    cbn [bind].
    match goal with
    | |- bind ?x _ = bind ?x _ =>
        destruct x as [[[[l n] ss] lm]|e]; [|reflexivity]
    end.
    cbn [bind].
    destruct (torch_exp n) as [ppl|e]; [|reflexivity]. cbn [bind].
    destruct (truediv ss (p_n_tokens p)) as [r1|e]; [|reflexivity].
    cbn [bind].
    destruct (truediv (p_n_nonpad_tokens p) (p_n_tokens p)) as [r2|e];
      [|reflexivity].
    cbn [bind]. now rewrite constant_diff_loss_shift.
  - unfold StructAARDMCrossEntropyLoss_forward, compute.
    rewrite prologue_shift.
    destruct (prologue self scores target weights) as [p|e];
      [|reflexivity].
    cbn [bind].
    match goal with
    | |- bind (bind ?x _) _ = bind (bind ?x _) _ =>
        destruct x as [t12|e]; [|reflexivity]
    end.
    cbn [bind].
    match goal with
    | |- bind (bind ?x _) _ = bind (bind ?x _) _ =>
        destruct x as [[[[l n] ss] lm]|e]; [|reflexivity]
    end.
    cbn [bind].
    destruct (torch_exp n) as [ppl|e]; [|reflexivity]. cbn [bind].
    destruct (truediv ss (p_n_tokens p)) as [r1|e]; [|reflexivity].
    cbn [bind].
    destruct (truediv (p_n_nonpad_tokens p) (p_n_tokens p)) as [r2|e];
      [|reflexivity].
    cbn [bind]. now rewrite constant_diff_loss_shift.
Qed.

(** ** Over the reals: signs *)

Lemma exp_le_fsum_exp (x : R) (l : list R) :
  In x l -> (exp x <= fsum (map exp l))%R.
Proof.
  induction l as [|y l IH]; simpl; [contradiction|].
  intros [-> | Hin].
  - pose proof (fsum_exp_nonneg l). simpl in *. lra.
  - pose proof (exp_pos y). specialize (IH Hin). simpl in *. lra.
Qed.

(** Log-probabilities are not positive. *)
Lemma log_softmax_row_nonpos (row : list R) :
  Forall (fun v => (v <= 0)%R) (log_softmax_row row).
Proof.
  unfold log_softmax_row. rewrite Forall_map, Forall_forall.
  intros x Hx. cbn [fexp flog fsub Transcendental_R Scalar_R].
  pose proof (exp_le_fsum_exp x row Hx) as Hle.
  assert (Hln : (ln (exp x) <= ln (fsum (map exp row)))%R).
  { destruct Hle as [Hlt | ->]; [|lra].
    apply Rlt_le, ln_increasing; [apply exp_pos | exact Hlt]. }
  rewrite ln_exp in Hln. simpl in *. lra.
Qed.

Lemma fsum_nonpos (l : list R) :
  Forall (fun v => (v <= 0)%R) l -> (fsum l <= 0)%R.
Proof.
  induction 1 as [|x l Hx _ IH]; simpl in *; lra.
Qed.

Lemma nth_nonpos (l : list R) (n : nat) :
  Forall (fun v => (v <= 0)%R) l -> (nth n l 0 <= 0)%R.
Proof.
  intros Hl. destruct (nth_in_or_default n l 0%R) as [Hin | ->]; [|lra].
  rewrite Forall_forall in Hl. now apply Hl.
Qed.

Lemma nll_at_nonneg (ignore_index : option Z) (row : list R) (t : Z) :
  (0 <= nll_at ignore_index (log_softmax_row row, t))%R.
Proof.
  unfold nll_at, picked. cbn [fst snd].
  destruct (is_pad ignore_index t); simpl; [lra|].
  pose proof (nth_nonpos (Z.to_nat t) (log_softmax_row_nonpos row)).
  simpl in *. lra.
Qed.

Lemma smooth_at_nonneg (ignore_index : option Z) (row : list R) (t : Z) :
  (0 <= smooth_at ignore_index (log_softmax_row row, t))%R.
Proof.
  unfold smooth_at. cbn [fst snd].
  destruct (is_pad ignore_index t); simpl; [lra|].
  pose proof (fsum_nonpos (log_softmax_row_nonpos row)).
  simpl in *. lra.
Qed.

(** X15.  Over the reals, what [label_smoothed_nll_loss] returns for
    [lprobs = F.log_softmax(scores)] with [reduce=False] is never
    negative: every entry of [nll_loss] is [>= 0], and so is every entry
    of [loss] when [0 <= epsilon] and [epsilon * C <= C - 1], the range
    in which both coefficients of line 33 are non-negative. *)
Theorem losses_of_log_softmax_nonnegative
    (scores : tensor R) (target : tensor Z) (lead : list nat) (C : nat)
    (epsilon : R) (ignore_index : option Z) :
  lsnl_input scores target lead C ->
  2 <= C ->
  exists loss nll_loss,
    label_smoothed_nll_loss (log_softmax scores) target epsilon
      ignore_index false
    = Ok (loss, nll_loss)
    /\ Forall (fun v => (0 <= v)%R) (data nll_loss)
    /\ ((0 <= epsilon)%R ->
        (epsilon * IZR (Z.of_nat C) <= IZR (Z.of_nat C) - 1)%R ->
        Forall (fun v => (0 <= v)%R) (data loss)).
Proof.
  intros Hin HC.
  rewrite (lsnl_unreduced (log_softmax_input Hin)) by lia.
  rewrite (log_softmax_positions Hin).
  do 2 eexists. split; [reflexivity|]. cbn [data].
  rewrite !map_map. split.
  - rewrite Forall_map, Forall_forall. intros [row t] _. cbn [fst snd].
    apply nll_at_nonneg.
  - intros Heps Hbound.
    rewrite Forall_map, Forall_forall. intros [row t] _. cbn [fst snd].
    pose proof (nll_at_nonneg ignore_index row t) as Hn.
    pose proof (smooth_at_nonneg ignore_index row t) as Hs.
    unfold mix, eps_i_of.
    cbn [fadd fsub fmul fdiv fone of_Z Scalar_R].
    assert (Hd : (1 <= IZR (Z.of_nat C - 1))%R).
    { apply IZR_le. lia. }
    rewrite minus_IZR in Hd. rewrite minus_IZR.
    set (d := (IZR (Z.of_nat C) - 1)%R) in *.
    assert (Hq : (0 <= epsilon / d)%R).
    { apply Rmult_le_pos; [assumption|].
      apply Rlt_le, Rinv_0_lt_compat. lra. }
    assert (Hc : (0 <= 1 - epsilon - epsilon / d)%R).
    { assert (E : (epsilon = epsilon / d * d)%R) by (field; lra).
      assert (Hb : (epsilon / d * d * (d + 1) <= d)%R).
      { rewrite <- E.
        replace (d + 1)%R with (IZR (Z.of_nat C)) by (unfold d; lra).
        exact Hbound. }
      nra. }
    apply Rplus_le_le_0_compat; apply Rmult_le_pos; assumption.
Qed.

Lemma losses_of_log_softmax_nonnegative_witness :
  exists loss nll_loss,
    label_smoothed_nll_loss (log_softmax ex_scores) ex_target (1 / 10)%R
      (Some 1%Z) false
    = Ok (loss, nll_loss)
    /\ Forall (fun v => (0 <= v)%R) (data nll_loss)
    /\ Forall (fun v => (0 <= v)%R) (data loss).
Proof.
  destruct (@losses_of_log_softmax_nonnegative ex_scores ex_target
              [2; 1] 2 (1 / 10)%R (Some 1%Z) ex_lsnl_input)
    as (loss & nll & E & Hn & Hl); [lia|].
  exists loss, nll. split; [exact E|]. split; [exact Hn|].
  apply Hl; simpl; lra.
Defined.

(** ** The reader: every model *)

(** X16.  The reader walks every model of the structure, not only the
    first: for a file that parses to the models [s1] followed by the
    models [s2], it returns the records of [s1] followed by those of
    [s2]; a file with the same model twice yields every record twice. *)
Theorem get_alpha_carbon_info_reads_all_models
    (Fl file : Type) (parse_pdb : file -> result (PDB.Structure Fl))
    (pdb_file : string) (e : PDB.env Fl file)
    (f : file) (s1 s2 : PDB.Structure Fl) :
  dict_get (PDB.files e) pdb_file = Some f ->
  parse_pdb f = Ok (s1 ++ s2) ->
  fst (PDB.get_alpha_carbon_info parse_pdb pdb_file e)
  = Ok (PDB.ca_records s1 ++ PDB.ca_records s2)
  /\ length (PDB.ca_records (s1 ++ s1)) = 2 * length (PDB.ca_records s1).
Proof.
  intros Ef Es.
  rewrite (get_alpha_carbon_info_run parse_pdb pdb_file e Ef Es).
  unfold PDB.ca_records. rewrite !flat_map_app, length_app.
  split; [reflexivity | lia].
Qed.

Lemma get_alpha_carbon_info_reads_all_models_witness :
  fst (PDB.get_alpha_carbon_info
         (fun _ : string => Ok (ex_structure ++ ex_structure))
         "model.pdb"%string ex_env)
  = Ok (PDB.ca_records ex_structure ++ PDB.ca_records ex_structure).
Proof.
  refine (proj1 (@get_alpha_carbon_info_reads_all_models Z string
                   (fun _ => Ok (ex_structure ++ ex_structure))
                   "model.pdb"%string ex_env "ATOM"%string
                   ex_structure ex_structure _ _)); reflexivity.
Defined.

(** ** Unit weights, and no smoothing, in the forward methods *)

Section UnitWeights.
Context {F : Type} `{Scalar F} `{Transcendental F} {EA : ExactArith F}.

Lemma nll_entries_length (self : loss_self F) (scores : tensor F)
    (target : tensor Z) (lead : list nat) (C : nat) :
  lsnl_input scores target lead C ->
  length (nll_entries self scores target) = numel_of lead.
Proof.
  intros Hin. unfold nll_entries.
  now rewrite length_map, (positions_length (log_softmax_input Hin)).
Qed.

Lemma prologue_unit_weights (self : loss_self F) (scores : tensor F)
    (target : tensor Z) (lead : list nat) (C : nat) :
  seq_input scores target None lead C ->
  prologue self scores target
    (Some (Tensor lead (repeat fone (numel_of lead))))
  = prologue self scores target None.
Proof.
  intros Hseq.
  assert (Hseq' : seq_input scores target
                    (Some (Tensor lead (repeat fone (numel_of lead))))
                    lead C).
  { constructor;
      [apply (seq_lsnl Hseq) | apply (seq_classes Hseq) |].
    split; [reflexivity|].
    unfold tensor_wf, numel. cbn [shape data]. apply repeat_length. }
  rewrite (@prologue_seq _ _ _ self scores target _ lead C Hseq).
  rewrite (@prologue_seq _ _ _ self scores target _ lead C Hseq').
  unfold weigh. cbn [data].
  rewrite (times_ones (loss_entries self scores target C))
    by apply (loss_entries_length self (seq_lsnl Hseq)).
  rewrite (times_ones (nll_entries self scores target))
    by apply (nll_entries_length self (seq_lsnl Hseq)).
  reflexivity.
Qed.
End UnitWeights.

(** X18.  Over exact arithmetic, weights that are 1 everywhere are the
    same as no weights: Coord2Seq, RDM and StructAARDM (the last two
    without [cal_constant_loss], which reads the weights again) return
    the same loss and the same logging output either way. *)
Theorem unit_weights_are_no_weights
    {F : Type} `{Scalar F} `{Transcendental F} {EA : ExactArith F}
    (self : loss_self F) (scores : tensor F) (target : tensor Z)
    (label_mask coord_mask : option (tensor bool))
    (lead : list nat) (C : nat) (watch_t1_t2_loss : bool) :
  seq_input scores target None lead C ->
  let ones := Tensor lead (repeat fone (numel_of lead)) in
  Coord2SeqCrossEntropyLoss_forward self scores target label_mask
    coord_mask (Some ones)
  = Coord2SeqCrossEntropyLoss_forward self scores target label_mask
      coord_mask None
  /\ RDMCrossEntropyLoss_forward self scores target label_mask
       (Some ones) false watch_t1_t2_loss
     = RDMCrossEntropyLoss_forward self scores target label_mask None
         false watch_t1_t2_loss
  /\ StructAARDMCrossEntropyLoss_forward self
       (Tensors scores target label_mask (Some ones))
       false watch_t1_t2_loss
     = StructAARDMCrossEntropyLoss_forward self
         (Tensors scores target label_mask None) false watch_t1_t2_loss.
Proof.
  intros Hseq ones. unfold ones.
  unfold Coord2SeqCrossEntropyLoss_forward, RDMCrossEntropyLoss_forward,
    StructAARDMCrossEntropyLoss_forward, compute.
  rewrite !(prologue_unit_weights self Hseq).
  repeat split.
Qed.

Lemma unit_weights_are_no_weights_witness :
  Coord2SeqCrossEntropyLoss_forward ex_self ex_scores ex_target
    (Some ex_mask) None (Some (Tensor [2; 1] (repeat 1%R 2)))
  = Coord2SeqCrossEntropyLoss_forward ex_self ex_scores ex_target
      (Some ex_mask) None None.
Proof.
  refine (proj1 (@unit_weights_are_no_weights R _ _ _ ex_self ex_scores
                   ex_target (Some ex_mask) None [2; 1] 2 false _)).
  apply ex_seq_input. now left.
Defined.

(** X19.  Over exact arithmetic with [label_smoothing = 0], the loss a
    forward method returns is the nll loss it logs, and the logged
    perplexity is its exponential: in Coord2Seq and RDM the returned
    loss equals the entry ["nll_loss"], ["ppl"] is [exp] of it and
    ["fullseq_loss"] equals ["fullseq_nll_loss"]; in CrossEntropyLoss
    ["loss_sum"] equals ["nll_loss_sum"] and ["ppl"] is [exp] of the
    returned loss. *)
Theorem forward_without_smoothing
    {F : Type} `{Scalar F} `{Transcendental F} {EA : ExactArith F}
    (self : loss_self F) (scores : tensor F) (target : tensor Z)
    (label_mask : option (tensor bool)) (weights : option (tensor F))
    (lead : list nat) (C : nat) :
  label_smoothing self = fzero ->
  seq_input scores target weights lead C ->
  numel target <> 0 ->
  match label_mask with Some m => mask_ok m lead | None => True end ->
  (exists loss logging_output,
     Coord2SeqCrossEntropyLoss_forward self scores target label_mask None
       weights
     = Ok (loss, logging_output)
     /\ dict_get logging_output "nll_loss" = Some loss
     /\ dict_get logging_output "ppl" = Some (exp_of loss)
     /\ dict_get logging_output "fullseq_loss"
        = dict_get logging_output "fullseq_nll_loss")
  /\ (exists loss logging_output,
        RDMCrossEntropyLoss_forward self scores target label_mask weights
          false false
        = Ok (loss, logging_output)
        /\ dict_get logging_output "nll_loss" = Some loss
        /\ dict_get logging_output "ppl" = Some (exp_of loss)
        /\ dict_get logging_output "fullseq_loss"
           = dict_get logging_output "fullseq_nll_loss")
  /\ (2 <= C -> ignore_index self <> None ->
      exists loss logging_output,
        CrossEntropyLoss_forward self scores target label_mask
        = Ok (loss, logging_output)
        /\ dict_get logging_output "loss_sum"
           = dict_get logging_output "nll_loss_sum"
        /\ dict_get logging_output "ppl" = Some (exp_of loss)).
Proof.
  intros Heps Hseq Hne Hm.
  pose proof (loss_entries_no_smoothing self scores target C Heps) as El.
  split; [|split].
  - destruct (@Coord2Seq_forward_ok _ _ _ self scores target weights
                lead C Hseq Hne label_mask None)
      as (sr & nr & E).
    { now destruct label_mask. }
    cbv zeta in E. rewrite El in E. rewrite E.
    do 2 eexists. split; [reflexivity|]. repeat split.
  - destruct (@RDM_forward_ok _ _ _ self scores target weights lead C
                Hseq Hne label_mask false false Hm)
      as (lo & E & Hn & Hp & Hfl & Hfn & _); try discriminate.
    rewrite El in E, Hfl. rewrite E.
    do 2 eexists. split; [reflexivity|].
    split; [exact Hn|]. split; [exact Hp|]. now rewrite Hfl, Hfn.
  - intros HC Hii.
    destruct (ignore_index self) as [ii|] eqn:Eii; [|contradiction].
    destruct (@CrossEntropyLoss_forward_ok _ _ _ self scores target
                label_mask lead C ii (seq_lsnl Hseq) HC Hm Eii)
      as (lo & E & Hn & Hl & Hp & _).
    cbv zeta in E, Hl. rewrite Heps, mix_no_smoothing in E, Hl.
    rewrite E. do 2 eexists. split; [reflexivity|].
    split; [now rewrite Hl, Hn | exact Hp].
Qed.

Lemma forward_without_smoothing_witness :
  exists loss logging_output,
    Coord2SeqCrossEntropyLoss_forward ex_plain ex_scores ex_target
      (Some ex_mask) None (Some ex_weights)
    = Ok (loss, logging_output)
    /\ dict_get logging_output "nll_loss" = Some loss
    /\ dict_get logging_output "ppl" = Some (exp_of loss)
    /\ dict_get logging_output "fullseq_loss"
       = dict_get logging_output "fullseq_nll_loss".
Proof.
  refine (proj1 (@forward_without_smoothing R _ _ _ ex_plain ex_scores
                   ex_target (Some ex_mask) (Some ex_weights) [2; 1] 2
                   _ _ _ _)).
  - reflexivity.
  - constructor;
      [exact ex_lsnl_input | discriminate | split; reflexivity].
  - discriminate.
  - exact ex_mask_ok.
Defined.

(** ** What [watch_t1_t2_loss] logs *)

Section Halves.
Context {F : Type} `{Scalar F} `{Transcendental F}.

Lemma weigh_length (weights : option (tensor F)) (l : list F)
    (lead : list nat) :
  length l = numel_of lead ->
  match weights with
  | Some w => shape w = lead /\ tensor_wf w
  | None => True
  end ->
  length (weigh weights l) = numel_of lead.
Proof.
  intros Hl Hw. destruct weights as [w|]; [|exact Hl].
  destruct Hw as [Hs Hwf]. unfold weigh.
  rewrite length_map, length_combine, Hl, Hwf. unfold numel.
  rewrite Hs. lia.
Qed.

(** The two means of lines 195-198, chunk by chunk. *)
Lemma t1_t2_losses_value (n : nat) (rest : list nat) (l : list F)
    (m : tensor bool) :
  n <> 1 -> shape m = n :: rest -> tensor_wf m ->
  length l = numel_of (n :: rest) ->
  let cut := first_half (n :: rest) in
  t1_t2_losses (Tensor (n :: rest) l) (Some m)
  = Ok (half_mean (firstn cut l) (firstn cut (data m)),
        half_mean (skipn cut l) (skipn cut (data m))).
Proof.
  intros Hn Hs Hwf Hl. cbv zeta. unfold first_half.
  destruct m as [sm dm]. cbn [shape data] in *. subst sm.
  unfold tensor_wf, numel in Hwf. cbn [shape data] in Hwf.
  unfold t1_t2_losses, chunk2. cbn [shape data].
  destruct (Nat.eqb_spec n 0) as [->|Hz].
  - cbn [numel_of fold_right Nat.mul] in Hl, Hwf.
    destruct l; [|discriminate]. destruct dm; [|discriminate].
    cbn [bind unpack2]. unfold bool_masked_mean.
    rewrite !tzip_same by reflexivity. cbn [bind]. unfold tsum.
    cbn [data shape]. now rewrite !firstn_nil, !skipn_nil.
  - assert (Hk : (n + 1) / 2 < n).
    { apply Nat.Div0.div_lt_upper_bound. lia. }
    destruct (Nat.eqb_spec (n - (n + 1) / 2) 0) as [E|E]; [lia|].
    cbn [bind unpack2]. unfold bool_masked_mean.
    rewrite !tzip_same by reflexivity. cbn [bind]. unfold tsum.
    cbn [data shape]. reflexivity.
Qed.
End Halves.

(** X20.  Under [watch_t1_t2_loss], on a batch of [n <> 1] rows with a
    [label_mask], [RDMCrossEntropyLoss.forward] logs under
    ["weight_diff_t1_loss"] and ["weight_diff_t2_loss"] the masked means
    of the weighted per-position losses over the first [ceil(n / 2)]
    rows of the batch and over the remaining rows: each is the sum of
    the entries the mask keeps divided by the number of entries the mask
    keeps in that half. *)
Theorem watch_t1_t2_loss_logs_half_means
    {F : Type} `{Scalar F} `{Transcendental F} (self : loss_self F)
    (scores : tensor F) (target : tensor Z) (m : tensor bool)
    (weights : option (tensor F)) (n : nat) (rest : list nat) (C : nat) :
  seq_input scores target weights (n :: rest) C ->
  numel target <> 0 ->
  mask_ok m (n :: rest) ->
  n <> 1 ->
  let entries := weigh weights (loss_entries self scores target C) in
  let cut := first_half (n :: rest) in
  exists loss logging_output,
    RDMCrossEntropyLoss_forward self scores target (Some m) weights
      false true
    = Ok (loss, logging_output)
    /\ dict_get logging_output "weight_diff_t1_loss"
       = Some (half_mean (firstn cut entries) (firstn cut (data m)))
    /\ dict_get logging_output "weight_diff_t2_loss"
       = Some (half_mean (skipn cut entries) (skipn cut (data m))).
Proof.
  intros Hseq Hne Hm Hn. cbv zeta.
  unfold RDMCrossEntropyLoss_forward.
  rewrite (@prologue_seq _ _ _ self scores target weights _ C Hseq).
  cbn [bind p_bsz p_n_tokens p_sample_size p_n_nonpad_tokens p_loss
       p_nll_loss p_fullseq_loss p_fullseq_nll_loss].
  destruct Hm as [Hs Hwf].
  rewrite t1_t2_losses_value; try assumption.
  - cbn [bind].
    rewrite (@masking_block _ _ _ self scores target weights _ C
               (Some m) (conj Hs Hwf)).
    cbn [bind option_map].
    rewrite torch_exp_final_mean. cbn [bind].
    destruct (@ratio_ok _ _ target Hne
                (final_sample_size self target (Some m))
                (final_sample_size_scalar self target (Some m)))
      as [r1 ->].
    destruct (@ratio_ok _ _ target Hne (first_sample_size self target)
                (first_sample_size_scalar target self))
      as [r2 ->].
    cbn [bind]. do 2 eexists. split; [reflexivity|]. split.
    + rewrite dict_get_set_other by reflexivity.
      apply dict_get_set_same.
    + apply dict_get_set_same.
  - apply weigh_length; [|apply (seq_weights Hseq)].
    apply (loss_entries_length self (seq_lsnl Hseq)).
Qed.

Lemma watch_t1_t2_loss_logs_half_means_witness :
  exists loss logging_output,
    RDMCrossEntropyLoss_forward ex_self ex_scores ex_target
      (Some ex_mask) (Some ex_weights) false true
    = Ok (loss, logging_output)
    /\ dict_get logging_output "weight_diff_t1_loss"
       = Some (half_mean
                 (firstn 1 (weigh (Some ex_weights)
                              (loss_entries ex_self ex_scores ex_target 2)))
                 [true])
    /\ dict_get logging_output "weight_diff_t2_loss"
       = Some (half_mean
                 (skipn 1 (weigh (Some ex_weights)
                             (loss_entries ex_self ex_scores ex_target 2)))
                 [false]).
Proof.
  apply (@watch_t1_t2_loss_logs_half_means R _ _ ex_self ex_scores
           ex_target ex_mask (Some ex_weights) 2 [1] 2).
  - apply ex_seq_input. now right.
  - discriminate.
  - exact ex_mask_ok.
  - discriminate.
Defined.

(** ** A dict with one key *)

(** X21.  Over exact arithmetic, a dict call with a single key [k]
    (not the empty string) agrees with the tensor call on the arguments
    stored under [k]: both return the same loss ([(0 + loss) / 1]), and
    the entries ["nll_loss"], ["sample_size"], ["fullseq_loss"],
    ["fullseq_nll_loss"] and ["ppl"] of the two logging outputs are
    equal. *)
Theorem StructAA_single_key_dict_is_tensor_call
    {F : Type} `{Scalar F} `{Transcendental F} {EA : ExactArith F}
    (self : loss_self F) (cal_constant_loss watch_t1_t2_loss : bool)
    (k : string) (scores : tensor F) (target : tensor Z)
    (label_mask : option (tensor bool)) (weights : option (tensor F))
    (target_dict : dict (tensor Z))
    (label_mask_dict : dict (option (tensor bool)))
    (weights_dict : dict (option (tensor F)))
    (lead : list nat) (C : nat) :
  k <> EmptyString ->
  dict_get target_dict k = Some target ->
  dict_get label_mask_dict k = Some label_mask ->
  dict_get weights_dict k = Some weights ->
  seq_input scores target weights lead C ->
  numel target <> 0 ->
  match label_mask with
  | Some m => struct_mask_ok m lead
  | None => True
  end ->
  (watch_t1_t2_loss = true -> watch_ready label_mask lead) ->
  (cal_constant_loss = true -> constant_ready label_mask weights) ->
  exists loss by_key by_tensor,
    StructAARDMCrossEntropyLoss_forward self
      (Dicts [(k, scores)] target_dict (Some label_mask_dict)
             (Some weights_dict))
      cal_constant_loss watch_t1_t2_loss
    = Ok (loss, by_key)
    /\ StructAARDMCrossEntropyLoss_forward self
         (Tensors scores target label_mask weights)
         cal_constant_loss watch_t1_t2_loss
       = Ok (loss, by_tensor)
    /\ Forall (fun name => dict_get by_key name = dict_get by_tensor name)
         ["nll_loss"; "sample_size"; "fullseq_loss"; "fullseq_nll_loss";
          "ppl"]%string.
Proof.
  intros Hk Et El Ew Hseq Hne Hm Hwatch Hcal.
  destruct (@compute_ok _ _ _ self scores target weights lead C Hseq Hne
              label_mask cal_constant_loss watch_t1_t2_loss k
              Hm Hwatch Hcal)
    as (lo & Ec & _ & Eppl & Efl & Efn & Ess).
  destruct (@compute_ok _ _ _ self scores target weights lead C Hseq Hne
              label_mask cal_constant_loss watch_t1_t2_loss EmptyString
              Hm Hwatch Hcal)
    as (lo' & Ec' & En' & Eppl' & Efl' & Efn' & Ess').
  cbn [key_prefix String.length Nat.ltb Nat.leb String.append]
    in En', Eppl', Efl', Efn', Ess'.
  rewrite key_prefix_nonempty in Eppl, Efl, Efn, Ess by exact Hk.
  cbn [String.append] in Eppl, Efl, Efn, Ess.
  destruct (struct_final_mean_scalar self target lead label_mask
              (weigh weights (loss_entries self scores target C)))
    as [x Ex].
  destruct (struct_final_mean_scalar self target lead label_mask
              (weigh weights (nll_entries self scores target)))
    as [y Ey].
  rewrite Ex, Ey in Ec, Ec'. rewrite Ey in En'.
  unfold StructAARDMCrossEntropyLoss_forward. rewrite Ec'.
  cbn [for_each bind]. unfold loop_body, getitem_opt, getitem.
  rewrite Et, El, Ew. cbn [bind]. rewrite Ec.
  cbn [bind pyadd losses nll_losses last_iter logging_output_dict].
  rewrite Ess, Efl, Efn, Eppl.
  cbn [bind truediv tmap scalar_tensor shape data map length Z.of_nat
       Pos.of_succ_nat].
  unfold tmap, scalar_tensor. cbn [shape data map].
  rewrite !of_Z_0, !fadd_0_l, !of_Z_1, !fdiv_1_r.
  do 3 eexists. split; [reflexivity|]. split; [reflexivity|].
  unfold scalar_tensor in En'.
  repeat (apply Forall_cons;
          [rewrite ?En', ?Ess', ?Efl', ?Efn', ?Eppl', !dict_get_set;
           reflexivity|]).
  apply Forall_nil.
Qed.

Lemma StructAA_single_key_dict_is_tensor_call_witness :
  exists loss by_key by_tensor,
    StructAARDMCrossEntropyLoss_forward ex_self
      (Dicts [("aatype"%string, ex_scores)] ex_target_dict
             ex_label_mask_dict ex_weights_dict)
      false false
    = Ok (loss, by_key)
    /\ StructAARDMCrossEntropyLoss_forward ex_self
         (Tensors ex_scores ex_target (Some ex_mask) (Some ex_weights))
         false false
       = Ok (loss, by_tensor)
    /\ Forall (fun name => dict_get by_key name = dict_get by_tensor name)
         ["nll_loss"; "sample_size"; "fullseq_loss"; "fullseq_nll_loss";
          "ppl"]%string.
Proof.
  apply (@StructAA_single_key_dict_is_tensor_call R _ _ _ ex_self false
           false "aatype"%string ex_scores ex_target (Some ex_mask)
           (Some ex_weights) ex_target_dict
           [("aatype"%string, Some ex_mask); ("struct"%string, None)]
           [("aatype"%string, Some ex_weights); ("struct"%string, None)]
           [2; 1] 2).
  - discriminate.
  - reflexivity.
  - reflexivity.
  - reflexivity.
  - apply ex_seq_input. now right.
  - discriminate.
  - left. reflexivity.
  - discriminate.
  - discriminate.
Defined.
